(** * Model of [llm_studio/src/utils/modeling_utils.py]

    A shallow embedding of the parts of the model-lifecycle module that the
    specification talks about: the token stopping criterion used during
    generation, the disk-space preflight, checkpoint saving, weight
    reconciliation ([load_model_weights]), the backbone config update and
    [unwrap_model].

    Tensors are modelled by their dtype, their shape and an abstract content.
    Python exceptions are modelled as an explicit outcome carrying the
    exception; log output as a list of messages. *)

From Stdlib Require Import ZArith QArith String Ascii List Bool Lia Permutation.
Import ListNotations.
Open Scope string_scope.
Open Scope list_scope.
Open Scope nat_scope.

(* ------------------------------------------------------------------ *)
(** ** Stopping criterion ([TokenStoppingCriteria]) *)

Module Stopping.

(** A 2-dimensional integer tensor: its number of columns (kept even when
    there are no rows, as [shape[1]] is) and its rows. *)
Record matrix := Matrix { ncols : nat; rows : list (list Z) }.

(** A stop word is a 0-dimensional tensor (a scalar token id) or a
    1-dimensional tensor (a token-id sequence). *)
Inductive stop_word :=
| Scalar (t : Z)
| Vector (v : list Z).

Fixpoint list_Z_eqb (a b : list Z) : bool :=
  match a, b with
  | [], [] => true
  | x :: a', y :: b' => Z.eqb x y && list_Z_eqb a' b'
  | _, _ => false
  end.

(** [torch.all(row[i : i + len(vector)] == vector)] *)
Definition window_matches (row : list Z) (i : nat) (vector : list Z) : bool :=
  list_Z_eqb (firstn (length vector) (skipn i row)) vector.

(** [for i in range(len(row) - len(vector) + 1): if ...: found += 1; break]:
    the row counts once as soon as one window matches. *)
Definition row_found (vector row : list Z) : bool :=
  existsb (fun i => window_matches row i vector)
          (seq 0 (length row + 1 - length vector)).

(** [get_num_vector_found_in_matrix_rows(vector, matrix)] *)
Fixpoint get_num_vector_found_in_matrix_rows (vector : list Z)
    (m : list (list Z)) : nat :=
  match m with
  | [] => 0
  | row :: m' =>
      (if row_found vector row then 1 else 0)
      + get_num_vector_found_in_matrix_rows vector m'
  end.

(** [(generated_ids == stop_word_id).sum(1)] for one row. *)
Fixpoint count_eq (t : Z) (row : list Z) : Z :=
  match row with
  | [] => 0
  | x :: r => (if Z.eqb x t then 1 else 0) + count_eq t r
  end.

(** [torch.mean] of a 1-dimensional float tensor: the mean of an empty tensor
    is [nan], modelled by [None]; the mean itself is taken exactly
    (float32 rounding of the mean is not modelled). *)
Definition torch_mean (xs : list Z) : option Q :=
  match xs with
  | [] => None
  | _ => Some (fold_right Z.add 0%Z xs # Pos.of_nat (length xs))
  end.

(** [x == 1] on a float: [nan == 1] is false. *)
Definition float_eq_one (x : option Q) : bool :=
  match x with
  | None => false
  | Some q => Qeq_bool q 1
  end.

(** [TokenStoppingCriteria.should_stop] *)
Definition should_stop (generated_ids : matrix) (stop_word_id : stop_word)
    : bool :=
  match stop_word_id with
  | Scalar t =>
      float_eq_one
        (torch_mean
           (map (fun row => if Z.ltb 0 (count_eq t row) then 1%Z else 0%Z)
                (rows generated_ids)))
  | Vector v =>
      Nat.eqb (get_num_vector_found_in_matrix_rows v (rows generated_ids))
              (length (rows generated_ids))
  end.

(** [input_ids[:, prompt_input_ids_len:]] *)
Definition slice_cols (input_ids : matrix) (start : nat) : matrix :=
  {| ncols := ncols input_ids - start;
     rows := map (skipn start) (rows input_ids) |}.

Definition first_token_warning : string :=
  "Stopping criteria triggered at first generated token.".

(** The loop of [__call__] over the stop words, returning the result and the
    warnings logged. *)
Fixpoint call_loop (generated_ids : matrix) (stop_word_ids : list stop_word)
    : bool * list string :=
  match stop_word_ids with
  | [] => (false, [])
  | w :: ws =>
      if should_stop generated_ids w then
        (true, if Nat.eqb (ncols generated_ids) 1
               then [first_token_warning] else [])
      else call_loop generated_ids ws
  end.

(** [TokenStoppingCriteria.__call__]; [stop_word_ids = None] is stored as the
    empty list by the constructor. *)
Definition call (stop_word_ids : list stop_word) (prompt_input_ids_len : nat)
    (input_ids : matrix) : bool * list string :=
  call_loop (slice_cols input_ids prompt_input_ids_len) stop_word_ids.

(** Specification side: [w] occurs in [row] as a contiguous sub-sequence. *)
Definition contains (row w : list Z) : Prop :=
  exists pre suf, row = pre ++ w ++ suf.

Definition word_tokens (w : stop_word) : list Z :=
  match w with Scalar t => [t] | Vector v => v end.

(** The condition of the specification: some stop word occurs in every row. *)
Definition spec_fires (stop_word_ids : list stop_word) (b : matrix) : Prop :=
  exists w, In w stop_word_ids /\ Forall (fun row => contains row (word_tokens w)) (rows b).

End Stopping.

(* ------------------------------------------------------------------ *)
(** ** Tensors, strings, dictionaries, exceptions and logs *)

Module Py.

(** The dtypes the module distinguishes, and the others. *)
Inductive torch_dtype :=
| int8 | uint8 | float16 | bfloat16 | float32
| other_dtype (name : string).

Definition dtype_name (d : torch_dtype) : string :=
  match d with
  | int8 => "torch.int8" | uint8 => "torch.uint8"
  | float16 => "torch.float16" | bfloat16 => "torch.bfloat16"
  | float32 => "torch.float32" | other_dtype n => n
  end.

(** A tensor: dtype, shape and an abstract content (the values it holds). *)
Record tensor := Tensor { dtype : torch_dtype; shape : list nat; content : Z }.

(** [t.numel()] *)
Definition numel (t : tensor) : nat := fold_right Nat.mul 1 (shape t).

(** A state dict (an ordered Python dict from string keys to tensors). *)
Definition state_dict := list (string * tensor).

Definition keys (d : state_dict) : list string := map fst d.

(** [d.get(k)] *)
Fixpoint lookup {A} (k : string) (d : list (string * A)) : option A :=
  match d with
  | [] => None
  | (k', v) :: d' => if String.eqb k k' then Some v else lookup k d'
  end.

(** [d[k] = v] on a Python dict: an existing key keeps its position. *)
Fixpoint dict_insert {A} (k : string) (v : A) (d : list (string * A))
    : list (string * A) :=
  match d with
  | [] => [(k, v)]
  | (k', v') :: d' =>
      if String.eqb k k' then (k, v) :: d' else (k', v') :: dict_insert k v d'
  end.

(** A dict comprehension / [dict(pairs)]: later duplicates overwrite. *)
Definition dict_of_list {A} (l : list (string * A)) : list (string * A) :=
  fold_left (fun d '(k, v) => dict_insert k v d) l [].

(** [d.pop(k, None)] (the result is discarded by the code). *)
Fixpoint dict_pop {A} (k : string) (d : list (string * A))
    : list (string * A) :=
  match d with
  | [] => []
  | (k', v) :: d' => if String.eqb k k' then d' else (k', v) :: dict_pop k d'
  end.

(** [needle in s] on strings. *)
Fixpoint str_contains (needle s : string) : bool :=
  String.prefix needle s
  || match s with
     | EmptyString => false
     | String _ s' => str_contains needle s'
     end.

(** [s.replace(pat, rep)] (left to right, non-overlapping), for a non-empty
    pattern; [fuel] bounds the number of characters scanned. *)
Fixpoint replace_fuel (fuel : nat) (pat rep s : string) : string :=
  match fuel with
  | 0 => s
  | S f =>
      if String.prefix pat s
      then rep ++ replace_fuel f pat rep (substring (String.length pat)
                                            (String.length s) s)
      else match s with
           | EmptyString => EmptyString
           | String c s' => String c (replace_fuel f pat rep s')
           end
  end.

Definition str_replace (pat rep s : string) : string :=
  replace_fuel (String.length s + 1) pat rep s.

(** [re.sub(r"^module\.", "", k)] *)
Definition strip_module_prefix (k : string) : string :=
  if String.prefix "module." k
  then substring 7 (String.length k) k
  else k.

(** Decimal rendering of a natural number. *)
Fixpoint digits_fuel (fuel n : nat) (acc : string) : string :=
  match fuel with
  | 0 => acc
  | S f =>
      let acc' := String (ascii_of_nat (48 + n mod 10)) acc in
      if Nat.ltb n 10 then acc' else digits_fuel f (n / 10) acc'
  end.

Definition string_of_nat (n : nat) : string := digits_fuel (S n) n "".

Fixpoint join (sep : string) (l : list string) : string :=
  match l with
  | [] => ""
  | [x] => x
  | x :: l' => x ++ sep ++ join sep l'
  end.

Definition nl : string := String (ascii_of_nat 10) "".
Definition tab : string := String (ascii_of_nat 9) "".
Definition dq : string := String (ascii_of_nat 34) "".

(** [str(t.shape)], e.g. [torch.Size([2, 3])]. *)
Definition show_shape (s : list nat) : string :=
  "torch.Size([" ++ join ", " (map string_of_nat s) ++ "])".

(** Python exceptions raised along the modelled paths. *)
Inductive exn :=
| RuntimeError (msg : string)
| KeyError (key : string)
| TypeError (msg : string)
| UnboundLocalError (name : string)
| ValueError (msg : string)
| FileNotFoundError (path : string).

(** Log records emitted through [logger]. *)
Inductive log_event :=
| Info (msg : string)
| Warning (msg : string).

(** Result of running Python code over a state of type [S]: it returns, or
    raises an exception; in both cases the (possibly mutated) state and the
    log emitted so far are kept. *)
Inductive outcome (S : Type) :=
| Ok (s : S) (logs : list log_event)
| Exc (e : exn) (s : S) (logs : list log_event).
Arguments Ok {S} s logs.
Arguments Exc {S} e s logs.

End Py.

(* ------------------------------------------------------------------ *)
(** ** Disk-space preflight ([check_disk_space]) *)

Module Disk.
Import Py.

(** The byte count added for one parameter and the warning logged. *)
Definition param_bytes (p : tensor) : nat * list log_event :=
  match dtype p with
  | int8 | uint8 => (numel p * 1, [])
  | float16 | bfloat16 => (numel p * 2, [])
  | float32 => (numel p * 4, [])
  | d => (numel p * 4, [Warning ("Unsupported data type: " ++ dtype_name d)])
  end.

(** The loop over [model.parameters()]. *)
Fixpoint model_size_in_bytes (params : list tensor) : nat * list log_event :=
  match params with
  | [] => (0, [])
  | p :: ps =>
      let '(b, w) := param_bytes p in
      let '(b', w') := model_size_in_bytes ps in
      (b + b', w ++ w')
  end.

Definition MB : Q := inject_Z (1024 * 1024).

(** [x * 1.03] with the constant taken as the rational 103/100 (the float
    rounding of the product is not modelled). *)
Definition with_margin (n : nat) : Q := inject_Z (Z.of_nat n) * (103 # 100).

(** [check_disk_space(model, path, use_deepspeed)], with [free] the third
    component of [shutil.disk_usage(path)]. The outcome carries the two
    figures reported when it raises. *)
Inductive disk_result :=
| Enough (logs : list log_event)
| NotEnough (required_mb available_mb : Q) (logs : list log_event).

Definition check_disk_space (params : list tensor) (free : nat)
    (use_deepspeed : bool) : disk_result :=
  let '(size0, warns) := model_size_in_bytes params in
  let size := if use_deepspeed then size0 * 2 else size0 in
  if Qle_bool (inject_Z (Z.of_nat free)) (with_margin size)
  then NotEnough (with_margin size / MB) (inject_Z (Z.of_nat free) / MB) warns
  else Enough (warns ++ [Info "Enough space available for saving model weights."]).

(** Specification side: the byte width of a dtype as the claim states it. *)
Definition bytewidth (d : torch_dtype) : nat :=
  match d with
  | int8 | uint8 => 1
  | float16 | bfloat16 => 2
  | _ => 4
  end.

Definition required_bytes (params : list tensor) (use_deepspeed : bool) : nat :=
  (if use_deepspeed then 2 else 1)
  * fold_right Nat.add 0 (map (fun p => numel p * bytewidth (dtype p)) params).

End Disk.

(* ------------------------------------------------------------------ *)
(** ** Modules and [unwrap_model] *)

Module Modules.
Import Py.

(** A [torch.nn.Module] as far as this file looks at it: the two data-parallel
    wrappers (which hold the wrapped model in their [module] attribute), the
    DeepSpeed engine, and any other network with its class name and its own
    state dict. *)
Inductive nn_module :=
| DistributedDataParallel (module : nn_module)
| DataParallel (module : nn_module)
| DeepSpeedEngine (module : nn_module)
| Net (cls : string) (params : state_dict).

(** [isinstance(model, (DistributedDataParallel, DataParallel))] *)
Definition is_parallel_wrapper (m : nn_module) : bool :=
  match m with
  | DistributedDataParallel _ | DataParallel _ => true
  | _ => false
  end.

(** [unwrap_model]: [while isinstance(model, options): model = model.module]. *)
Fixpoint unwrap_model (m : nn_module) : nn_module :=
  match m with
  | DistributedDataParallel inner | DataParallel inner => unwrap_model inner
  | _ => m
  end.

(** [model.state_dict()]: a wrapper registers the wrapped model as its
    submodule [module], whose keys get the prefix [module.]. *)
Fixpoint module_state_dict (m : nn_module) : state_dict :=
  match m with
  | DistributedDataParallel inner | DataParallel inner | DeepSpeedEngine inner =>
      map (fun '(k, t) => (("module." ++ k)%string, t)) (module_state_dict inner)
  | Net _ params => params
  end.

End Modules.

(* ------------------------------------------------------------------ *)
(** ** Backbone config update ([update_backbone_config]) *)

Module BackboneConfig.
Import Py.

(** A token id attribute of a config or tokenizer: [None], an int, or a list
    of ints (some configs hold several EOS ids). Python's [!=] on these
    values is structural inequality. *)
Inductive token_id :=
| NoneId
| IntId (z : Z)
| ListId (l : list Z).

Definition token_id_eq_dec (a b : token_id) : {a = b} + {a <> b}.
Proof. decide equality; try apply list_eq_dec; apply Z.eq_dec. Defined.

(** The attributes of the Hugging Face config object the function touches;
    an optional attribute is [None] when [hasattr] is false. *)
Record hf_config := HfConfig {
  hidden_dropout_prob : option Q;
  attention_probs_dropout_prob : option Q;
  eos_token_id : token_id;
  pad_token_id : token_id;
  bos_token_id : token_id;
  init_device : option string;
  pretraining_tp : option nat;
}.

(** The parts of [cfg] read or written by the function. *)
Record llm_cfg := LlmCfg {
  intermediate_dropout : Q;
  llm_backbone : string;
  device : string;
  lora : bool;
}.

(** The ids of the tokenizer returned by [get_tokenizer(cfg)]. *)
Record tokenizer := Tokenizer {
  tok_eos_token_id : token_id;
  tok_pad_token_id : token_id;
  tok_bos_token_id : token_id;
}.

(** Logged messages (the dropout value interpolated into the first one is
    left out). *)
Definition dropout_warning : string :=
  "Model config does not have dropout attributes. Ignoring Intermediate Dropout.".
Definition eos_warning : string :=
  "EOS token id not matching between config and tokenizer. Overwriting with tokenizer id.".
Definition pad_warning : string :=
  "PAD token id not matching between config and tokenizer. Overwriting with tokenizer id.".
Definition tp_info : string := "Setting pretraining_tp of model config to 1.".

Definition set_eos (c : hf_config) (v : token_id) : hf_config :=
  {| hidden_dropout_prob := hidden_dropout_prob c;
     attention_probs_dropout_prob := attention_probs_dropout_prob c;
     eos_token_id := v; pad_token_id := pad_token_id c;
     bos_token_id := bos_token_id c; init_device := init_device c;
     pretraining_tp := pretraining_tp c |}.
Definition set_pad (c : hf_config) (v : token_id) : hf_config :=
  {| hidden_dropout_prob := hidden_dropout_prob c;
     attention_probs_dropout_prob := attention_probs_dropout_prob c;
     eos_token_id := eos_token_id c; pad_token_id := v;
     bos_token_id := bos_token_id c; init_device := init_device c;
     pretraining_tp := pretraining_tp c |}.
Definition set_bos (c : hf_config) (v : token_id) : hf_config :=
  {| hidden_dropout_prob := hidden_dropout_prob c;
     attention_probs_dropout_prob := attention_probs_dropout_prob c;
     eos_token_id := eos_token_id c; pad_token_id := pad_token_id c;
     bos_token_id := v; init_device := init_device c;
     pretraining_tp := pretraining_tp c |}.

(** The dropout part: copy [intermediate_dropout] into the attributes the
    config has; if it has none and the dropout is positive, warn and reset
    the dropout in [cfg] to 0. *)
Definition update_dropout (config : hf_config) (cfg : llm_cfg)
    : hf_config * llm_cfg * list log_event :=
  let d := intermediate_dropout cfg in
  let c1 := match hidden_dropout_prob config with
            | Some _ => {| hidden_dropout_prob := Some d;
                           attention_probs_dropout_prob := attention_probs_dropout_prob config;
                           eos_token_id := eos_token_id config;
                           pad_token_id := pad_token_id config;
                           bos_token_id := bos_token_id config;
                           init_device := init_device config;
                           pretraining_tp := pretraining_tp config |}
            | None => config
            end in
  let c2 := match attention_probs_dropout_prob c1 with
            | Some _ => {| hidden_dropout_prob := hidden_dropout_prob c1;
                           attention_probs_dropout_prob := Some d;
                           eos_token_id := eos_token_id c1;
                           pad_token_id := pad_token_id c1;
                           bos_token_id := bos_token_id c1;
                           init_device := init_device c1;
                           pretraining_tp := pretraining_tp c1 |}
            | None => c1
            end in
  match hidden_dropout_prob c2, attention_probs_dropout_prob c2 with
  | None, None =>
      if Qle_bool d 0 then (c2, cfg, [])
      else (c2, {| intermediate_dropout := 0; llm_backbone := llm_backbone cfg;
                   device := device cfg; lora := lora cfg |},
            [Warning dropout_warning])
  | _, _ => (c2, cfg, [])
  end.

(** The token-id part: EOS and PAD are overwritten with a warning when they
    differ from the tokenizer's, BOS without one. *)
Definition update_token_ids (c : hf_config) (tok : tokenizer)
    (logs0 : list log_event) : hf_config * list log_event :=
  let '(c, logs1) :=
    if token_id_eq_dec (eos_token_id c) (tok_eos_token_id tok) then (c, logs0)
    else (set_eos c (tok_eos_token_id tok), logs0 ++ [Warning eos_warning]) in
  let '(c, logs2) :=
    if token_id_eq_dec (pad_token_id c) (tok_pad_token_id tok) then (c, logs1)
    else (set_pad c (tok_pad_token_id tok), logs1 ++ [Warning pad_warning]) in
  (* no warning needed as not used *)
  let c := if token_id_eq_dec (bos_token_id c) (tok_bos_token_id tok) then c
           else set_bos c (tok_bos_token_id tok) in
  (c, logs2).

(** The last part: [init_device] for MPT backbones, [pretraining_tp] with
    LoRA. *)
Definition update_device_tp (c : hf_config) (cfg : llm_cfg)
    (logs : list log_event) : hf_config * list log_event :=
  let c := if str_contains "mpt-" (llm_backbone cfg)
           then {| hidden_dropout_prob := hidden_dropout_prob c;
                   attention_probs_dropout_prob := attention_probs_dropout_prob c;
                   eos_token_id := eos_token_id c; pad_token_id := pad_token_id c;
                   bos_token_id := bos_token_id c; init_device := Some (device cfg);
                   pretraining_tp := pretraining_tp c |}
           else c in
  match pretraining_tp c with
  | Some _ =>
      if lora cfg
      then ({| hidden_dropout_prob := hidden_dropout_prob c;
               attention_probs_dropout_prob := attention_probs_dropout_prob c;
               eos_token_id := eos_token_id c; pad_token_id := pad_token_id c;
               bos_token_id := bos_token_id c; init_device := init_device c;
               pretraining_tp := Some 1 |}, logs ++ [Info tp_info])
      else (c, logs)
  | None => (c, logs)
  end.

(** [update_backbone_config(config, cfg)], with [tok] the tokenizer that
    [get_tokenizer(cfg)] returns; the result is the updated config, the
    updated [cfg] and the log. *)
Definition update_backbone_config (config : hf_config) (cfg : llm_cfg)
    (tok : tokenizer) : hf_config * llm_cfg * list log_event :=
  let '(c, cfg', logs0) := update_dropout config cfg in
  let '(c, logs) := update_token_ids c tok logs0 in
  let '(c, logs) := update_device_tp c cfg' logs in
  (c, cfg', logs).

End BackboneConfig.

(* ------------------------------------------------------------------ *)
(** ** PyTorch's [Module.load_state_dict]

    The library method the module calls, with the behaviour of PyTorch 2.x:
    every entry whose key and shape match is copied into the parameter
    (keeping the parameter's dtype); a key found with another shape is a
    "size mismatch" error, whatever [strict] is; with [strict], missing and
    unexpected keys are errors too. The errors are collected, the matching
    entries are copied anyway, and then one [RuntimeError] is raised whose
    message lists the missing keys, the unexpected keys and the size
    mismatches, in this order. (The legacy case of a 0-dimensional parameter
    given as a 1-element tensor is not modelled.) *)

Module TorchLoad.
Import Py.
Local Open Scope string_scope.

Inductive load_error :=
| MissingKeys (ks : list string)
| UnexpectedKeys (ks : list string)
| SizeMismatch (key : string) (ckpt_shape model_shape : list nat).

Definition list_nat_eqb (a b : list nat) : bool :=
  if list_eq_dec Nat.eq_dec a b then true else false.

(** [param.copy_(input_param)] *)
Definition copy_into (param input : tensor) : tensor :=
  {| dtype := dtype param; shape := shape param; content := content input |}.

Definition load_param (sd : state_dict) (kp : string * tensor)
    : (string * tensor) :=
  let '(k, p) := kp in
  match lookup k sd with
  | Some t => if list_nat_eqb (shape t) (shape p) then (k, copy_into p t) else (k, p)
  | None => (k, p)
  end.

Definition size_errors (live sd : state_dict) : list load_error :=
  flat_map (fun '(k, p) =>
              match lookup k sd with
              | Some t => if list_nat_eqb (shape t) (shape p) then []
                          else [SizeMismatch k (shape t) (shape p)]
              | None => []
              end) live.

Definition in_keys (k : string) (d : state_dict) : bool :=
  match lookup k d with Some _ => true | None => false end.

Definition missing_keys (live sd : state_dict) : list string :=
  filter (fun k => negb (in_keys k sd)) (keys live).

Definition unexpected_keys (live sd : state_dict) : list string :=
  filter (fun k => negb (in_keys k live)) (keys sd).

Definition load_errors (live sd : state_dict) (strict : bool) : list load_error :=
  app (if strict then
         app (match missing_keys live sd with [] => [] | ks => [MissingKeys ks] end)
             (match unexpected_keys live sd with [] => [] | ks => [UnexpectedKeys ks] end)
       else [])
      (size_errors live sd).

(** The new parameters and the errors of [model.load_state_dict(sd, strict)]. *)
Definition load_state_dict (live sd : state_dict) (strict : bool)
    : state_dict * list load_error :=
  (map (load_param sd) live, load_errors live sd strict).

Definition quote_keys (ks : list string) : string :=
  join ", " (map (fun k => dq ++ k ++ dq) ks).

Definition show_error (e : load_error) : string :=
  match e with
  | MissingKeys ks => "Missing key(s) in state_dict: " ++ quote_keys ks ++ ". "
  | UnexpectedKeys ks => "Unexpected key(s) in state_dict: " ++ quote_keys ks ++ ". "
  | SizeMismatch k s1 s2 =>
      "size mismatch for " ++ k ++ ": copying a param with shape "
      ++ show_shape s1 ++ " from checkpoint, the shape in current model is "
      ++ show_shape s2 ++ "."
  end.

(** [str(e)] of the [RuntimeError] raised for a module of class [cls]. *)
Definition error_message (cls : string) (errs : list load_error) : string :=
  "Error(s) in loading state_dict for " ++ cls ++ ":" ++ nl ++ tab
  ++ join (nl ++ tab) (map show_error errs).

(** The keys of the size-mismatch errors: the keys the message reports as
    size mismatches. *)
Definition size_mismatch_keys (errs : list load_error) : list string :=
  flat_map (fun e => match e with SizeMismatch k _ _ => [k] | _ => [] end) errs.

End TorchLoad.

(* ------------------------------------------------------------------ *)
(** ** [re.findall("size mismatch for (.*?):", s)]

    The pattern is a literal, then the shortest run of characters other than
    a newline ([.] does not match it) followed by [:]; the group is
    returned. The scan restarts after a match, or one character further when
    no match starts at the current position. *)

Module Regex.

Definition sm_prefix : string := "size mismatch for ".

(** The lazy group [(.*?):] at the start of [s]: the text up to the first
    [:], if no newline comes before it; and the text after the [:]. *)
Fixpoint lazy_group (s : string) : option (string * string) :=
  match s with
  | EmptyString => None
  | String c s' =>
      if Ascii.eqb c ":" then Some (EmptyString, s')
      else if Ascii.eqb c (ascii_of_nat 10) then None
      else match lazy_group s' with
           | Some (g, rest) => Some (String c g, rest)
           | None => None
           end
  end.

(** A match of the whole pattern at the start of [s]. *)
Definition match_at (s : string) : option (string * string) :=
  if String.prefix sm_prefix s
  then lazy_group (substring (String.length sm_prefix) (String.length s) s)
  else None.

Fixpoint findall_fuel (fuel : nat) (s : string) : list string :=
  match fuel with
  | 0 => []
  | S f =>
      match match_at s with
      | Some (g, rest) => g :: findall_fuel f rest
      | None =>
          match s with
          | EmptyString => []
          | String _ s' => findall_fuel f s'
          end
      end
  end.

Definition findall_size_mismatch (s : string) : list string :=
  findall_fuel (S (String.length s)) s.

End Regex.

(* ------------------------------------------------------------------ *)
(** ** Weight reconciliation and checkpoint persistence *)

Module Checkpoint.
Import Py Modules TorchLoad Regex.
Local Open Scope string_scope.

(** The parts of [cfg] read by the checkpoint functions. *)
Record config := Config {
  backbone_dtype : string;          (* cfg.architecture.backbone_dtype *)
  local_rank : nat;                 (* cfg.environment._local_rank *)
  use_deepspeed : bool;             (* cfg.environment.use_deepspeed *)
  problem_type : string;            (* cfg.problem_type *)
  pretrained_weights : string;      (* cfg.architecture.pretrained_weights *)
}.

(** [cfg.architecture.backbone_dtype in ("int4", "int8")] *)
Definition quantized (cfg : config) : bool :=
  String.eqb (backbone_dtype cfg) "int4" || String.eqb (backbone_dtype cfg) "int8".

(** [v.dtype is torch.int8 or v.dtype is torch.uint8] *)
Definition is_int8_tensor (v : tensor) : bool :=
  match dtype v with int8 | uint8 => true | _ => false end.

(** [("SCB" in k or "weight_format" in k)] *)
Definition is_quant_marker (k : string) : bool :=
  str_contains "SCB" k || str_contains "weight_format" k.

(** The entries the first comprehension leaves out. *)
Definition dropped_by_filter (cfg : config) (k : string) : bool :=
  is_quant_marker k && negb (quantized cfg).

(** The first dict comprehension of [load_model_weights]: entries with a
    quantization marker are left out unless the dtype is quantized; an 8-bit
    integer tensor is replaced by [model_state_dict[k]] (a [KeyError] if the
    live model has no such key) unless the dtype is quantized. *)
Fixpoint filter_weights (cfg : config) (model_state_dict : state_dict)
    (model_weights : state_dict) : exn + state_dict :=
  match model_weights with
  | [] => inr []
  | (k, v) :: rest =>
      if dropped_by_filter cfg k then filter_weights cfg model_state_dict rest
      else
        let v' := if negb (quantized cfg) && is_int8_tensor v
                  then lookup k model_state_dict else Some v in
        match v' with
        | None => inl (KeyError k)
        | Some v' =>
            match filter_weights cfg model_state_dict rest with
            | inl e => inl e
            | inr r => inr ((k, v') :: r)
            end
        end
  end.

(** The snapshot and the effective strictness of [load_model_weights] just
    before the first load attempt. (The int8 branch only moves tensors to the
    compute device; device placement is not modelled.) *)
Definition prepare_weights (cfg : config) (live model_weights : state_dict)
    (strict : bool) : exn + (state_dict * bool) :=
  let orig_num_items := length model_weights in
  match filter_weights cfg live model_weights with
  | inl e => inl e
  | inr filtered =>
      let mw := dict_of_list filtered in
      (* Need to ignore int4/int8 weights so undo strict loading requirement *)
      let strict' := if Nat.eqb (length mw) orig_num_items then strict else false in
      let mw := dict_of_list (map (fun '(k, v) => (strip_module_prefix k, v)) mw) in
      let mw := dict_of_list (map (fun '(k, v) => (str_replace "_orig_mod." "" k, v)) mw) in
      inr (mw, strict')
  end.

(** [for layer_name in re.findall(...): model_weights.pop(layer_name, None)] *)
Definition retry_weights (msg : string) (mw : state_dict) : state_dict :=
  fold_left (fun d k => dict_pop k d) (findall_size_mismatch msg) mw.

Definition partial_load_warning (msg : string) : string :=
  "Only a part of the pretrained weights was loaded. Some layers can't be initialized with pretrained weights: " ++ msg.

(** [load_model_weights(model, model_weights, strict, cfg)] for a model of
    class [cls] whose current state dict is [live]; the state is the model's
    state dict after the call (or at the exception). *)
Definition load_model_weights (cls : string) (live model_weights : state_dict)
    (strict : bool) (cfg : config) : outcome state_dict :=
  match prepare_weights cfg live model_weights strict with
  | inl e => Exc e live []
  | inr (mw, strict') =>
      let '(st1, errs1) := load_state_dict live mw true in
      match errs1 with
      | [] => Ok st1 []
      | _ =>
          let msg := error_message cls errs1 in
          if strict' then Exc (RuntimeError msg) st1 []
          else
            let logs := if Nat.eqb (local_rank cfg) 0
                        then [Warning (partial_load_warning msg)] else [] in
            let '(st2, errs2) := load_state_dict st1 (retry_weights msg mw) false in
            match errs2 with
            | [] => Ok st2 logs
            | _ => Exc (RuntimeError (error_message cls errs2)) st2 logs
            end
      end
  end.

(** Files: a [torch.save]d checkpoint dict [{"model": ...}], a saved tensor,
    or the directory written by the DeepSpeed engine. *)
Inductive file :=
| CheckpointFile (model : state_dict)
| TensorFile (t : tensor)
| ShardedCheckpointDir (gathered : state_dict).

Definition filesystem := list (string * file).

(** [os.path.join(path, name)] for a relative [name]; [None] as the path is a
    [TypeError]. *)
Definition path_join (path : option string) (name : string) : exn + string :=
  match path with
  | None => inl (TypeError "expected str, bytes or os.PathLike object, not NoneType")
  | Some p =>
      if String.eqb p "" then inr name
      else match String.get (String.length p - 1) p with
           | Some "/"%char => inr (p ++ name)
           | _ => inr (p ++ "/" ++ name)
           end
  end.

(** The conversion done by DeepSpeed's
    [get_fp32_state_dict_from_zero_checkpoint]: parameters come from the fp32
    master copies and every buffer goes through [.float()], so each entry
    comes back as float32. *)
Definition to_fp32 (t : tensor) : tensor :=
  {| dtype := float32; shape := shape t; content := content t |}.

(** The module held by the DeepSpeed engine. *)
Definition engine_module (m : nn_module) : nn_module :=
  match m with DeepSpeedEngine inner => inner | _ => m end.

Definition classification_problem : string := "text_causal_classification_modeling".

(** The first [if]/[elif] of [save_checkpoint]: the file system after it and
    the value of the local [checkpoint["model"]] ([None] when unbound). *)
Definition save_main (model : nn_module) (path : option string) (cfg : config)
    (fs : filesystem) : exn + (filesystem * option state_dict) :=
  if use_deepspeed cfg then
    match path with
    | None => inr (fs, None)
    | Some _ =>
        match path_join path "ds_checkpoint" with
        | inl e => inl e
        | inr ds_dir =>
            (* gather model params from all ranks *)
            let fs := dict_insert ds_dir
                        (ShardedCheckpointDir (module_state_dict (engine_module model))) fs in
            if Nat.eqb (local_rank cfg) 0 then
              match lookup ds_dir fs, path_join path "checkpoint.pth" with
              | Some (ShardedCheckpointDir sd), inr ckpt =>
                  let state_dict := map (fun '(k, t) => (k, to_fp32 t)) sd in
                  let fs := dict_insert ckpt (CheckpointFile state_dict) fs in
                  inr (dict_pop ds_dir fs, Some state_dict)
              | _, inl e => inl e
              | _, _ => inl (FileNotFoundError ds_dir)
              end
            else inr (fs, None)
        end
    end
  else if Nat.eqb (local_rank cfg) 0 then
    let sd := module_state_dict (unwrap_model model) in
    match path with
    | None => inr (fs, Some sd)
    | Some _ =>
        match path_join path "checkpoint.pth" with
        | inl e => inl e
        | inr ckpt => inr (dict_insert ckpt (CheckpointFile sd) fs, Some sd)
        end
    end
  else inr (fs, None).

(** [save_checkpoint(model, path, cfg)] *)
Definition save_checkpoint (model : nn_module) (path : option string)
    (cfg : config) (fs : filesystem) : outcome filesystem :=
  match save_main model path cfg fs with
  | inl e => Exc e fs []
  | inr (fs1, checkpoint) =>
      if Nat.eqb (local_rank cfg) 0 && String.eqb (problem_type cfg) classification_problem
      then
        (* arguments evaluated left to right *)
        match checkpoint with
        | None => Exc (UnboundLocalError "checkpoint") fs1 []
        | Some sd =>
            match lookup "classification_head.weight" sd with
            | None => Exc (KeyError "classification_head.weight") fs1 []
            | Some head =>
                match path_join path "classification_head.pth" with
                | inl e => Exc e fs1 []
                | inr p => Ok (dict_insert p (TensorFile head) fs1) []
                end
            end
        end
      else Ok fs1 []
  end.

(** [load_checkpoint(cfg, model, strict, weights_path)]: reads the
    checkpoint's [model] entry and reconciles it into the model. *)
Definition load_checkpoint (cfg : config) (cls : string) (live : state_dict)
    (strict : bool) (weights_path : option string) (fs : filesystem)
    : outcome state_dict :=
  let p := match weights_path with Some p => p | None => pretrained_weights cfg end in
  match lookup p fs with
  | Some (CheckpointFile sd) =>
      match load_model_weights cls live sd strict cfg with
      | Ok st logs =>
          Ok st (logs ++ (if Nat.eqb (local_rank cfg) 0
                          then [Info ("Weights loaded from: " ++ p)] else []))
      | Exc e st logs => Exc e st logs
      end
  | Some _ => Exc (KeyError "model") live []
  | None => Exc (FileNotFoundError p) live []
  end.

End Checkpoint.

(* ------------------------------------------------------------------ *)
(** ** Optimizer parameter groups ([get_optimizer]) *)

Module Optimizer.
Import Py.
Local Open Scope string_scope.

(** An entry of [model.named_parameters()]. *)
Record named_param := NamedParam {
  pname : string;
  requires_grad : bool;
  ptensor : tensor;
}.

(** The parts of [cfg.training] read by [get_optimizer]. *)
Record train_cfg := TrainCfg {
  differential_learning_rate_layers : list string;
  learning_rate : Q;
  differential_learning_rate : Q;
  weight_decay : Q;
}.

(** A parameter group: [{"params": ..., "lr": ..., "weight_decay": ...}]. *)
Record param_group := ParamGroup {
  group_params : list named_param;
  group_lr : Q;
  group_weight_decay : Q;
}.

Definition no_decay : list string := ["bias"; "LayerNorm.weight"].

(** [all(x not in name for x in xs)] *)
Definition all_not_in (xs : list string) (name : string) : bool :=
  forallb (fun x => negb (str_contains x name)) xs.

(** [any(x in name for x in xs)] *)
Definition any_in (xs : list string) (name : string) : bool :=
  existsb (fun x => str_contains x name) xs.

(** The list of parameter groups [get_optimizer] hands to the optimizer
    class ([Optimizers.get(cfg.training.optimizer)] is external). *)
Definition get_optimizer_groups (params : list named_param) (cfg : train_cfg)
    : list param_group :=
  let dl := differential_learning_rate_layers cfg in
  [ {| group_params :=
         filter (fun p => all_not_in dl (pname p) && all_not_in no_decay (pname p)
                          && requires_grad p) params;
       group_lr := learning_rate cfg; group_weight_decay := weight_decay cfg |};
    {| group_params :=
         filter (fun p => all_not_in dl (pname p) && any_in no_decay (pname p)
                          && requires_grad p) params;
       group_lr := learning_rate cfg; group_weight_decay := 0 |};
    {| group_params :=
         filter (fun p => any_in dl (pname p) && all_not_in no_decay (pname p)
                          && requires_grad p) params;
       group_lr := differential_learning_rate cfg; group_weight_decay := weight_decay cfg |};
    {| group_params :=
         filter (fun p => any_in dl (pname p) && any_in no_decay (pname p)
                          && requires_grad p) params;
       group_lr := differential_learning_rate cfg; group_weight_decay := 0 |} ].

End Optimizer.

(* ------------------------------------------------------------------ *)
(** ** LoRA target modules ([prepare_lora]) *)

Module Lora.
Import Py.
Local Open Scope string_scope.

(** [c.isspace()] for an ASCII character: tab, line feed, vertical tab, form
    feed, carriage return, the four separators 0x1c-0x1f and space. *)
Definition is_space (c : ascii) : bool :=
  let n := nat_of_ascii c in
  (Nat.leb 9 n && Nat.leb n 13) || (Nat.leb 28 n && Nat.leb n 32).

Fixpoint lstrip (s : string) : string :=
  match s with
  | EmptyString => EmptyString
  | String c s' => if is_space c then lstrip s' else s
  end.

Fixpoint rstrip (s : string) : string :=
  match s with
  | EmptyString => EmptyString
  | String c s' =>
      match rstrip s' with
      | EmptyString => if is_space c then EmptyString else String c EmptyString
      | r => String c r
      end
  end.

(** [s.strip()] *)
Definition strip (s : string) : string := rstrip (lstrip s).

(** [s.split(sep)] for a one-character separator: [""] gives [[""]] and
    adjacent separators give empty parts. *)
Fixpoint split_on (sep : ascii) (s : string) : list string :=
  match s with
  | EmptyString => [""]
  | String c s' =>
      let parts := split_on sep s' in
      if Ascii.eqb c sep then "" :: parts
      else match parts with
           | p :: ps => String c p :: ps
           | [] => [String c ""]
           end
  end.

(** The module classes [prepare_lora] tells apart. *)
Inductive module_kind :=
| Linear
| Conv1d
| OtherModule (cls : string).

(** [isinstance(module, (torch.nn.Linear, torch.nn.Conv1d))] *)
Definition is_linear_or_conv (k : module_kind) : bool :=
  match k with Linear | Conv1d => true | OtherModule _ => false end.

(** [name.split(".")[-1]] *)
Definition last_segment (name : string) : string :=
  last (split_on "." name) "".

(** The parts of [cfg] read by [prepare_lora]. *)
Record lora_cfg := LoraCfg {
  lora_target_modules : option string;   (* [None] is Python's [None] *)
  lora_r : nat;
  lora_alpha : nat;
  lora_dropout : Q;
  gradient_checkpointing : bool;
  local_rank : nat;
}.

(** [peft.LoraConfig(...)] as built by [prepare_lora]. *)
Record lora_config := LoraConfig {
  r : nat;
  alpha : nat;
  target_modules : list string;
  dropout : Q;
  bias : string;
  task_type : string;
}.

(** The truthiness of [cfg.training.lora_target_modules]. *)
Definition truthy_str (o : option string) : bool :=
  match o with Some s => negb (String.eqb s "") | None => false end.

(** The comprehension over the comma-separated setting. *)
Definition explicit_target_modules (s : string) : list string :=
  map strip (split_on "," (strip s)).

(** The loop over [backbone.named_modules()]. *)
Definition auto_target_modules (named_modules : list (string * module_kind))
    : list string :=
  fold_left
    (fun target_modules '(name, module) =>
       if is_linear_or_conv module && negb (str_contains "head" name) then
         let name := last_segment name in
         if existsb (String.eqb name) target_modules then target_modules
         else app target_modules [name]
       else target_modules)
    named_modules [].

Definition lora_target_modules_of (setting : option string)
    (named_modules : list (string * module_kind)) : list string :=
  match setting with
  | Some s => if truthy_str setting then explicit_target_modules s
              else auto_target_modules named_modules
  | None => auto_target_modules named_modules
  end.

(** [str(target_modules)] for names without quote characters. *)
Definition show_names (l : list string) : string :=
  "[" ++ join ", " (map (fun s => "'" ++ s ++ "'") l) ++ "]".

(** [prepare_lora(cfg, backbone)] up to the call of [get_peft_model]: the
    LoRA config handed to it, whether [enable_input_require_grads] was
    called, and the log. *)
Definition prepare_lora (cfg : lora_cfg)
    (named_modules : list (string * module_kind))
    : lora_config * bool * list log_event :=
  let tm := lora_target_modules_of (lora_target_modules cfg) named_modules in
  let logs := if Nat.eqb (local_rank cfg) 0
              then [Info ("Lora module names: " ++ show_names tm)] else [] in
  ({| r := lora_r cfg; alpha := lora_alpha cfg; target_modules := tm;
      dropout := lora_dropout cfg; bias := "none"; task_type := "CAUSAL_LM" |},
   gradient_checkpointing cfg, logs).

End Lora.

(* ------------------------------------------------------------------ *)
(** ** The inference loop ([run_inference], [contains_nan]) *)

Module Inference.
Import Py.
Local Open Scope string_scope.

(** A value of an output dict: a tensor (with whether it holds a NaN), or
    another Python object. *)
Inductive value :=
| TensorVal (t : tensor) (has_nan : bool)
| OtherVal (o : string).

Definition output := list (string * value).

(** [contains_nan(output)] *)
Definition contains_nan (o : output) : bool :=
  Nat.ltb 0 (length (filter (fun '(_, v) =>
                               match v with TensorVal _ n => n | OtherVal _ => false end) o)).

(** [LLMDataException] and [LLMModelException]. *)
Inductive inference_exn :=
| LLMDataException (msg : string)
| LLMModelException (msg : string).

Definition data_error : string := "Data reading error. Skipping inference.".
Definition nan_error : string :=
  "NaN caught during mixed precision inference. Please disable mixed precision inference. Alternatively, reducing learning rate or gradient clipping may help to stabilize training.".

(** The parts of [cfg] read by [run_inference]. *)
Record inference_cfg := InferenceCfg {
  local_rank : nat;
  world_size : nat;
  use_deepspeed : bool;
  mixed_precision : bool;
  metric : string;
  problem_type : string;
}.

(** The state threaded through the loop: the collected outputs [out],
    [cfg.environment._curr_val_step], the position of the progress bar, the
    values sent to the internal logger and the log. *)
Record inference_state := InferenceState {
  out : list (string * list value);
  curr_val_step : nat;
  progress : nat;
  internal_log : list nat;
  logs : list log_event;
}.

(** [out[key] = [val]] or [out[key] += [val]] *)
Definition collect (out : list (string * list value)) (key : string) (val : value)
    : list (string * list value) :=
  match lookup key out with
  | None => dict_insert key [val] out
  | Some vs => dict_insert key (app vs [val]) out
  end.

(** The progress-bar step at iteration [itr] out of [n] batches. *)
Definition progress_update (n itr : nat) : nat :=
  let log_update_steps := Nat.max (n / 20) 1 in
  if Nat.eqb ((itr + 1) mod log_update_steps) 0 then log_update_steps
  else if Nat.eqb itr (n - 1) then n mod log_update_steps
  else 0.

Section RunInference.

(** The batch type of the data loader, and the collaborators of the loop:
    [batch_to_device], the model's [generate] (its [autocast] flag first)
    and [forward], [postprocess_batch_predictions], [get_inference_batch_size]
    and [cat_batches]. *)
Variable D R : Type.
Variable batch_to_device : D -> D.
Variable model_generate : bool -> D -> tensor.
Variable model_forward : bool -> D -> output.
Variable postprocess_batch_predictions : output -> output.
Variable val_batch_size : nat.
Variable cat_batches : list (string * list value) -> R.

(** Whether the loop calls [generate] rather than [forward]. *)
Definition uses_generate (cfg : inference_cfg) : bool :=
  negb (String.eqb (metric cfg) "Perplexity")
  && negb (String.eqb (problem_type cfg) "text_causal_classification_modeling").

(** The model's output for a batch; [autocast] is only entered without
    DeepSpeed. *)
Definition model_output (cfg : inference_cfg) (batch : D) : output :=
  let amp := negb (use_deepspeed cfg) && mixed_precision cfg in
  if uses_generate cfg
  then [("predicted_answer_ids", TensorVal (model_generate amp batch) false)]
  else model_forward amp batch.

(** One iteration of the loop; [next(inf_it)] either yields a batch or raises
    ([None]). *)
Definition inference_step (cfg : inference_cfg) (n itr : nat) (next : option D)
    (st : inference_state) : (inference_exn * inference_state) + inference_state :=
  match next with
  | None => inl (LLMDataException data_error, st)
  | Some data =>
      let step := curr_val_step st + val_batch_size * world_size cfg in
      let st := {| out := out st; curr_val_step := step; progress := progress st;
                   internal_log := internal_log st; logs := logs st |} in
      let batch := batch_to_device data in
      let o := model_output cfg batch in
      if contains_nan o && mixed_precision cfg
      then inl (LLMModelException nan_error, st)
      else
        let o := postprocess_batch_predictions o in
        let o := dict_pop "predicted_answer_ids" o in
        let out' := fold_left (fun acc '(key, val) => collect acc key val) o (out st) in
        if Nat.eqb (local_rank cfg) 0 then
          inr {| out := out'; curr_val_step := step;
                 progress := progress st + progress_update n itr;
                 internal_log := internal_log st ++ [step]; logs := logs st |}
        else
          inr {| out := out'; curr_val_step := step; progress := progress st;
                 internal_log := internal_log st; logs := logs st |}
  end.

Fixpoint inference_loop (cfg : inference_cfg) (n itr : nat) (batches : list (option D))
    (st : inference_state) : (inference_exn * inference_state) + inference_state :=
  match batches with
  | [] => inr st
  | b :: bs =>
      match inference_step cfg n itr b st with
      | inl e => inl e
      | inr st' => inference_loop cfg n (S itr) bs st'
      end
  end.

Definition initial_state (cfg : inference_cfg) (mode : string) (step0 : nat)
    : inference_state :=
  {| out := []; curr_val_step := step0; progress := 0; internal_log := [];
     logs := if Nat.eqb (local_rank cfg) 0
             then [Info ("Starting " ++ mode ++ " inference")] else [] |}.

(** [run_inference(cfg, model, dataloader, mode)]: the data loader has
    [length batches] batches; [step0] is [cfg.environment._curr_val_step] on
    entry. *)
Definition run_inference (cfg : inference_cfg) (batches : list (option D))
    (mode : string) (step0 : nat)
    : (inference_exn * inference_state) + (R * inference_state) :=
  match inference_loop cfg (length batches) 0 batches (initial_state cfg mode step0) with
  | inl e => inl e
  | inr st => inr (cat_batches (out st), st)
  end.

(** Specification side: the values of [key] across the cleaned outputs of
    the batches, in order. *)
Definition cleaned_output (cfg : inference_cfg) (data : D) : output :=
  dict_pop "predicted_answer_ids"
    (postprocess_batch_predictions (model_output cfg (batch_to_device data))).

Definition values_of (key : string) (os : list output) : list value :=
  flat_map (fun o => map snd (filter (fun '(k, _) => String.eqb k key) o)) os.

End RunInference.

End Inference.

(* ------------------------------------------------------------------ *)
(** ** Distributed wrapping ([get_ds_config], [wrap_model_distributed]) *)

Module Distributed.
Import Modules.
Local Open Scope string_scope.

(** The parts of [cfg] read by the two functions. *)
Record dist_cfg := DistCfg {
  use_deepspeed : bool;
  find_unused_parameters : bool;          (* cfg.environment.find_unused_parameters *)
  gradient_checkpointing : option bool;   (* getattr(cfg.architecture, ..., None) *)
  local_rank : nat;
  world_size : nat;
  backbone_dtype : string;
  deepspeed_reduce_bucket_size : Z;
  deepspeed_stage3_prefetch_bucket_size : Z;
  deepspeed_stage3_param_persistence_threshold : Z;
  batch_size : nat;
  grad_accumulation : nat;
}.

(** The DeepSpeed config dict. *)
Record ds_config := DsConfig {
  fp16_enabled : bool;
  fp16_loss_scale_window : nat;
  bf16_enabled : bool;
  bf16_loss_scale_window : nat;
  zero_force_ds_cpu_optimizer : bool;
  zero_stage : nat;
  overlap_comm : bool;
  contiguous_gradients : bool;
  reduce_bucket_size : Z;
  stage3_prefetch_bucket_size : Z;
  stage3_param_persistence_threshold : Z;
  steps_per_print : nat;
  train_micro_batch_size_per_gpu : nat;
  gradient_accumulation_steps : nat;
  wall_clock_breakdown : bool;
}.

Definition get_ds_config (cfg : dist_cfg) : ds_config :=
  {| fp16_enabled := String.eqb (backbone_dtype cfg) "float16";
     fp16_loss_scale_window := 100;
     bf16_enabled := String.eqb (backbone_dtype cfg) "bfloat16";
     bf16_loss_scale_window := 100;
     zero_force_ds_cpu_optimizer := false;
     zero_stage := 3; overlap_comm := true; contiguous_gradients := true;
     reduce_bucket_size := deepspeed_reduce_bucket_size cfg;
     stage3_prefetch_bucket_size := deepspeed_stage3_prefetch_bucket_size cfg;
     stage3_param_persistence_threshold := deepspeed_stage3_param_persistence_threshold cfg;
     steps_per_print := 2000;
     train_micro_batch_size_per_gpu := batch_size cfg;
     gradient_accumulation_steps := grad_accumulation cfg;
     wall_clock_breakdown := false |}.

(** The constructor arguments of [DistributedDataParallel] besides the model. *)
Record ddp_options := DdpOptions {
  device_ids : list nat;
  ddp_find_unused_parameters : bool;
}.

Definition truthy (o : option bool) : bool :=
  match o with Some b => b | None => false end.

Section Wrap.

(** The optimizer, scheduler and data-loader types, [deepspeed.initialize]
    and the construction of the validation [DeepSpeedDataLoader] (with its
    [OrderedDistributedSampler]) from the old loader, the rank and the world
    size. *)
Variable Opt Sched DL : Type.
Variable deepspeed_initialize :
  nn_module -> Opt -> Sched -> DL -> ds_config -> nn_module * Opt * DL * Sched.
Variable deepspeed_val_loader : DL -> nat -> nat -> DL.

(** [wrap_model_distributed(...)]; the second component is the options of
    the [DistributedDataParallel] wrapper when one is built. *)
Definition wrap_model_distributed (model : nn_module) (optimizer : Opt)
    (lr_scheduler : Sched) (train_dataloader val_dataloader : DL) (cfg : dist_cfg)
    : nn_module * option ddp_options * Opt * DL * DL * Sched :=
  if use_deepspeed cfg then
    let ds_config := get_ds_config cfg in
    let '(model, optimizer, train_dataloader, lr_scheduler) :=
      deepspeed_initialize model optimizer lr_scheduler train_dataloader ds_config in
    let val_dataloader :=
      deepspeed_val_loader val_dataloader (local_rank cfg) (world_size cfg) in
    (model, None, optimizer, train_dataloader, val_dataloader, lr_scheduler)
  else
    let fup := find_unused_parameters cfg in
    let fup := if truthy (gradient_checkpointing cfg) then false else fup in
    (DistributedDataParallel model,
     Some {| device_ids := [local_rank cfg]; ddp_find_unused_parameters := fup |},
     optimizer, train_dataloader, val_dataloader, lr_scheduler).

End Wrap.

End Distributed.

(* ------------------------------------------------------------------ *)
(** ** Backbone construction ([create_nlp_backbone]) *)

Module Backbone.
Import Py BackboneConfig.
Local Open Scope string_scope.

(** The token ids of [backbone.generation_config]. *)
Record generation_config := GenerationConfig {
  gen_eos_token_id : token_id;
  gen_pad_token_id : token_id;
  gen_bos_token_id : token_id;
}.

(** An entry of [backbone.named_parameters()]. *)
Record param := Param {
  param_name : string;
  param_tensor : tensor;
  param_requires_grad : bool;
}.

(** The loaded backbone, as far as [create_nlp_backbone] reads or writes it;
    a missing [is_loaded_in_8bit] / [is_loaded_in_4bit] attribute is
    [false]. *)
Record backbone := Backbone {
  named_parameters : list param;
  generation_cfg : generation_config;
  is_loaded_in_8bit : bool;
  is_loaded_in_4bit : bool;
  gradient_checkpointing_enabled : bool;
  model_parallel : bool;
}.

Inductive quantization_config :=
| LoadIn8bit
| LoadIn4bit.

(** The value of [getattr(torch, name)]: a dtype, or another attribute of
    the module (a function, a submodule such as [torch.nn], ...). *)
Inductive torch_attr :=
| DtypeAttr (d : torch_dtype)
| OtherAttr (name : string).

(** The keyword arguments of the loading call. [kw_use_auth_token] is
    [None] when the key is absent. *)
Record load_kwargs := LoadKwargs {
  kw_use_auth_token : option (option string);
  kw_device_map : option string;
  kw_torch_dtype : torch_attr;
  kw_trust_remote_code : bool;
}.

(** The parts of [cfg] read or written ([llm] is the part
    [update_backbone_config] reads and writes; [cfg.training.lora] is
    [lora (llm cfg)] and [cfg.environment._device] is [device (llm cfg)]). *)
Record nlp_cfg := NlpCfg {
  llm : llm_cfg;
  backbone_dtype : string;
  pretrained : bool;
  mixed_precision : bool;
  gradient_checkpointing : bool;
  trust_remote_code : bool;
  vocab_length : nat;
}.

Inductive create_exn := AttributeError (name : string).

Definition set_llm (cfg : nlp_cfg) (l : llm_cfg) : nlp_cfg :=
  {| llm := l; backbone_dtype := backbone_dtype cfg; pretrained := pretrained cfg;
     mixed_precision := mixed_precision cfg;
     gradient_checkpointing := gradient_checkpointing cfg;
     trust_remote_code := trust_remote_code cfg; vocab_length := vocab_length cfg |}.
Definition set_pretrained (cfg : nlp_cfg) (b : bool) : nlp_cfg :=
  {| llm := llm cfg; backbone_dtype := backbone_dtype cfg; pretrained := b;
     mixed_precision := mixed_precision cfg;
     gradient_checkpointing := gradient_checkpointing cfg;
     trust_remote_code := trust_remote_code cfg; vocab_length := vocab_length cfg |}.
Definition set_mixed_precision (cfg : nlp_cfg) (b : bool) : nlp_cfg :=
  {| llm := llm cfg; backbone_dtype := backbone_dtype cfg; pretrained := pretrained cfg;
     mixed_precision := b;
     gradient_checkpointing := gradient_checkpointing cfg;
     trust_remote_code := trust_remote_code cfg; vocab_length := vocab_length cfg |}.

Definition set_params (bb : backbone) (ps : list param) : backbone :=
  {| named_parameters := ps; generation_cfg := generation_cfg bb;
     is_loaded_in_8bit := is_loaded_in_8bit bb; is_loaded_in_4bit := is_loaded_in_4bit bb;
     gradient_checkpointing_enabled := gradient_checkpointing_enabled bb;
     model_parallel := model_parallel bb |}.
Definition set_generation_cfg (bb : backbone) (g : generation_config) : backbone :=
  {| named_parameters := named_parameters bb; generation_cfg := g;
     is_loaded_in_8bit := is_loaded_in_8bit bb; is_loaded_in_4bit := is_loaded_in_4bit bb;
     gradient_checkpointing_enabled := gradient_checkpointing_enabled bb;
     model_parallel := model_parallel bb |}.
Definition set_model_parallel (bb : backbone) (b : bool) : backbone :=
  {| named_parameters := named_parameters bb; generation_cfg := generation_cfg bb;
     is_loaded_in_8bit := is_loaded_in_8bit bb; is_loaded_in_4bit := is_loaded_in_4bit bb;
     gradient_checkpointing_enabled := gradient_checkpointing_enabled bb;
     model_parallel := b |}.

(** [backbone.gradient_checkpointing_enable()] *)
Definition gradient_checkpointing_enable (bb : backbone) : backbone :=
  {| named_parameters := named_parameters bb; generation_cfg := generation_cfg bb;
     is_loaded_in_8bit := is_loaded_in_8bit bb; is_loaded_in_4bit := is_loaded_in_4bit bb;
     gradient_checkpointing_enabled := true; model_parallel := model_parallel bb |}.

(** [param.requires_grad = False] *)
Definition freeze (p : param) : param :=
  {| param_name := param_name p; param_tensor := param_tensor p;
     param_requires_grad := false |}.

(** [if param.dtype in [torch.float16, torch.bfloat16]:
        param.data = param.data.to(torch.float32)] *)
Definition cast_to_fp32 (p : param) : param :=
  let t := param_tensor p in
  match dtype t with
  | float16 | bfloat16 =>
      {| param_name := param_name p;
         param_tensor := {| dtype := float32; shape := shape t; content := content t |};
         param_requires_grad := param_requires_grad p |}
  | _ => p
  end.

Definition mixed_precision_info : string :=
  "Disabling mixed precision as dtype not set to float32.".
Definition unstable_warning : string :=
  "Pure float16 or int8 training will likely lead to unstable training without adapters.".
Definition gen_eos_warning : string :=
  "EOS token id not matching between generation config and tokenizer. Overwriting with tokenizer id.".
Definition gen_pad_warning : string :=
  "PAD token id not matching between generation config and tokenizer. Overwriting with tokenizer id.".

(** The dtype block: device map, quantization config, the forced
    [pretrained] flag and the [torch_dtype] argument. [torch_getattr name] is
    [getattr(torch, name)], [None] when [torch] has no attribute of that
    name. *)
Definition dtype_kwargs (torch_getattr : string -> option torch_attr) (cfg : nlp_cfg)
    : create_exn + (option string * option quantization_config * bool * torch_attr) :=
  if String.eqb (backbone_dtype cfg) "int8" then
    inr (Some (device (llm cfg)), Some LoadIn8bit, true, DtypeAttr float16)
  else if String.eqb (backbone_dtype cfg) "int4" then
    inr (Some (device (llm cfg)), Some LoadIn4bit, true, DtypeAttr float16)
  else match torch_getattr (backbone_dtype cfg) with
       | Some d => inr (None, None, pretrained cfg, d)
       | None => inl (AttributeError (backbone_dtype cfg))
       end.

(** The LoRA / dtype block after loading. *)
Definition adapt_backbone (bb : backbone) (cfg : nlp_cfg) (logs : list log_event)
    : backbone * nlp_cfg * list log_event :=
  if lora (llm cfg) then
    let loaded_in_kbit := is_loaded_in_8bit bb || is_loaded_in_4bit bb in
    let bb := set_params bb (map freeze (named_parameters bb)) in
    let bb := if loaded_in_kbit
              then set_params bb (map cast_to_fp32 (named_parameters bb)) else bb in
    (bb, cfg, logs)
  else if negb (String.eqb (backbone_dtype cfg) "float32") then
    let '(cfg, logs) :=
      if mixed_precision cfg
      then (set_mixed_precision cfg false, app logs [Info mixed_precision_info])
      else (cfg, logs) in
    let logs := if negb (String.eqb (backbone_dtype cfg) "bfloat16")
                then app logs [Warning unstable_warning] else logs in
    (bb, cfg, logs)
  else (bb, cfg, logs).

(** The reconciliation of the generation config with the model config. *)
Definition sync_generation_config (bb : backbone) (config : hf_config)
    (logs : list log_event) : backbone * list log_event :=
  let g := generation_cfg bb in
  let '(g, logs) :=
    if token_id_eq_dec (gen_eos_token_id g) (eos_token_id config) then (g, logs)
    else ({| gen_eos_token_id := eos_token_id config; gen_pad_token_id := gen_pad_token_id g;
             gen_bos_token_id := gen_bos_token_id g |}, app logs [Warning gen_eos_warning]) in
  let '(g, logs) :=
    if token_id_eq_dec (gen_pad_token_id g) (pad_token_id config) then (g, logs)
    else ({| gen_eos_token_id := gen_eos_token_id g; gen_pad_token_id := pad_token_id config;
             gen_bos_token_id := gen_bos_token_id g |}, app logs [Warning gen_pad_warning]) in
  (* no warning needed as not used *)
  let g := if token_id_eq_dec (gen_bos_token_id g) (bos_token_id config) then g
           else {| gen_eos_token_id := gen_eos_token_id g; gen_pad_token_id := gen_pad_token_id g;
                   gen_bos_token_id := bos_token_id config |} in
  (set_generation_cfg bb g, logs).

Section Create.

(** The environment and the library calls: the attributes of the [torch]
    module, [os.getenv("HUGGINGFACE_TOKEN")],
    the two [AutoConfig.from_pretrained] calls (the first one may raise
    [TypeError], [None]; each gives the config and its [vocab_size]), the
    tokenizer [update_backbone_config] obtains, [from_pretrained],
    [from_config] and [resize_token_embeddings]. *)
Variable torch_getattr : string -> option torch_attr.
Variable hf_token : option string.
Variable auto_config_with_token : option (hf_config * nat).
Variable auto_config_without_token : hf_config * nat.
Variable tok : tokenizer.
Variable from_pretrained : hf_config -> option quantization_config -> load_kwargs -> backbone.
Variable from_config : hf_config -> load_kwargs -> backbone.
Variable resize_token_embeddings : backbone -> nat -> backbone.

(** [create_nlp_backbone(cfg, model_class)]: the backbone, the config, the
    updated [cfg] and the log, or the exception with the log so far. *)
Definition create_nlp_backbone (cfg : nlp_cfg)
    : (create_exn * list log_event) + (backbone * hf_config * nlp_cfg * list log_event) :=
  let '(config, vocab_size, use_auth_token) :=
    match auto_config_with_token with
    | Some (c, v) => (c, v, Some hf_token)
    | None => (fst auto_config_without_token, snd auto_config_without_token, None)
    end in
  let '(config, l, logs) := update_backbone_config config (llm cfg) tok in
  let cfg := set_llm cfg l in
  match dtype_kwargs torch_getattr cfg with
  | inl e => inl (e, logs)
  | inr (device_map, quantization_config, pre, torch_dtype) =>
      let cfg := set_pretrained cfg pre in
      let logs := app logs [Info ("Using " ++ backbone_dtype cfg ++ " for backbone")] in
      let kwargs := {| kw_use_auth_token := use_auth_token; kw_device_map := device_map;
                       kw_torch_dtype := torch_dtype;
                       kw_trust_remote_code := trust_remote_code cfg |} in
      let bb :=
        if pretrained cfg then from_pretrained config quantization_config kwargs
        else from_config config {| kw_use_auth_token := None; kw_device_map := device_map;
                                   kw_torch_dtype := torch_dtype;
                                   kw_trust_remote_code := trust_remote_code cfg |} in
      let '(bb, logs) :=
        if Nat.ltb vocab_size (vocab_length cfg)
        then (resize_token_embeddings bb (vocab_length cfg),
              app logs [Info ("Resizing token embeddings to " ++ string_of_nat (vocab_length cfg))])
        else (bb, logs) in
      let bb := set_model_parallel bb false in
      let '(bb, cfg, logs) := adapt_backbone bb cfg logs in
      let bb := if gradient_checkpointing cfg then gradient_checkpointing_enable bb else bb in
      let '(bb, logs) := sync_generation_config bb config logs in
      inr (bb, config, cfg, logs)
  end.

End Create.

End Backbone.

(* ------------------------------------------------------------------ *)
(** ** Generation ([generate]) *)

Module Generate.
Import Stopping.

(** The state [generate] touches besides its result: [backbone.config.use_cache],
    whether gradient checkpointing is on, and the verbosity of the
    [transformers] logger. *)
Record gen_state := GenState {
  use_cache : bool;
  gradient_checkpointing_on : bool;
  verbosity : Z;
}.

(** [transformers.logging.ERROR] *)
Definition ERROR : Z := 40.

Definition set_use_cache (st : gen_state) (b : bool) : gen_state :=
  {| use_cache := b; gradient_checkpointing_on := gradient_checkpointing_on st;
     verbosity := verbosity st |}.
Definition set_checkpointing (st : gen_state) (b : bool) : gen_state :=
  {| use_cache := use_cache st; gradient_checkpointing_on := b; verbosity := verbosity st |}.
Definition set_verbosity (st : gen_state) (v : Z) : gen_state :=
  {| use_cache := use_cache st; gradient_checkpointing_on := gradient_checkpointing_on st;
     verbosity := v |}.

Section Gen.

(** [backbone.generate]: given the stopping criterion and the prompt ids, it
    returns the generated ids or raises ([None]). *)
Variable generation_function : (matrix -> bool * list string) -> matrix -> option matrix.

(** [generate(backbone, batch, cfg, streamer, remove_prompt)] with
    [input_ids] the padded [batch["prompt_input_ids"]]; [None] as result is
    an exception raised by the generation call. *)
Definition generate (st : gen_state) (stop_words_ids : list stop_word)
    (gradient_checkpointing : bool) (input_ids : matrix) (remove_prompt : bool)
    : option matrix * gen_state :=
  let verbosity0 := verbosity st in
  let stopping_criteria := call stop_words_ids (ncols input_ids) in
  let st := set_use_cache st true in
  let st := if gradient_checkpointing then set_checkpointing st false else st in
  let st := set_verbosity st ERROR in
  match generation_function stopping_criteria input_ids with
  | None => (None, st)
  | Some output =>
      let st := set_verbosity st verbosity0 in
      let st := if gradient_checkpointing then set_checkpointing st true else st in
      (Some (if remove_prompt then slice_cols output (ncols input_ids) else output), st)
  end.

End Gen.

End Generate.

(* ------------------------------------------------------------------ *)
(** ** Specification-side notions and sample inputs for the checkpoint code *)

Module CheckpointSpec.
Import Py TorchLoad Checkpoint.
Local Open Scope string_scope.

(** A state-dict entry's key and shape. *)
Definition key_shape (kt : string * tensor) : string * list nat :=
  (fst kt, shape (snd kt)).

(** The conditions under which the reconciliation leaves a snapshot as it
    is: no key with the [module.] prefix or the [_orig_mod.] infix, and,
    unless the backbone dtype is quantized, no quantization marker and no
    8-bit integer tensor. *)
Definition untouched_entry (cfg : config) (k : string) (v : tensor) : Prop :=
  String.prefix "module." k = false
  /\ str_contains "_orig_mod." k = false
  /\ (quantized cfg = true \/ (is_quant_marker k = false /\ is_int8_tensor v = false)).

Definition cfg_fp32 : config :=
  Config "float32" 0 false "text_causal_language_modeling" "w".

(** A live model and a snapshot with a key containing a colon, which a
    [torch.nn.ModuleDict] allows (module names only exclude [.]). *)
Definition live_colon : state_dict :=
  [("a", Tensor float32 [2] 0%Z); ("a:b", Tensor float32 [2] 0%Z)].
Definition snap_colon : state_dict :=
  [("a", Tensor float32 [2] 1%Z); ("a:b", Tensor float32 [3] 1%Z)].

(** A key of the wrapped model as the wrapper's [state_dict()] reports it. *)
Definition add_module_prefix (kt : string * tensor) : string * tensor :=
  let '(k, t) := kt in (("module." ++ k)%string, t).

End CheckpointSpec.

(* ------------------------------------------------------------------ *)
(** ** Stopping criterion: lemmas *)

Module StoppingFacts.
Import Stopping.

Lemma list_Z_eqb_true (a b : list Z) : list_Z_eqb a b = true <-> a = b.
Proof.
  revert b; induction a as [|x a IH]; intros [|y b]; simpl;
    try (split; congruence).
  rewrite andb_true_iff, Z.eqb_eq, IH. split.
  - intros [-> ->]; reflexivity.
  - intros H; injection H; auto.
Qed.

Lemma row_found_contains (v row : list Z) :
  row_found v row = true <-> contains row v.
Proof.
  unfold row_found, contains. rewrite existsb_exists. split.
  - intros [i [Hi Hw]]. apply in_seq in Hi.
    unfold window_matches in Hw. apply list_Z_eqb_true in Hw.
    exists (firstn i row), (skipn (length v) (skipn i row)).
    rewrite <- (firstn_skipn i row) at 1. f_equal.
    rewrite <- (firstn_skipn (length v) (skipn i row)) at 1.
    rewrite Hw. reflexivity.
  - intros [pre [suf ->]]. exists (length pre). split.
    + apply in_seq. rewrite !length_app. lia.
    + unfold window_matches. apply list_Z_eqb_true.
      rewrite skipn_app, skipn_all, Nat.sub_diag, skipn_O. simpl.
      rewrite firstn_app, firstn_all, Nat.sub_diag, firstn_O, app_nil_r.
      reflexivity.
Qed.

Lemma count_eq_nonneg (t : Z) (row : list Z) : (0 <= count_eq t row)%Z.
Proof. induction row as [|x r IH]; simpl; [lia|destruct (Z.eqb x t); lia]. Qed.

Lemma count_eq_pos (t : Z) (row : list Z) :
  (0 < count_eq t row)%Z <-> In t row.
Proof.
  induction row as [|x r IH]; simpl; [split; [lia|tauto]|].
  pose proof (count_eq_nonneg t r).
  destruct (Z.eqb_spec x t) as [->|Hne]; split; intros H'.
  - left; reflexivity.
  - lia.
  - right; apply IH; lia.
  - destruct H' as [H'|H']; [congruence|apply IH in H'; lia].
Qed.

Lemma contains_singleton (row : list Z) (t : Z) :
  contains row [t] <-> In t row.
Proof.
  unfold contains; split.
  - intros [pre [suf ->]]. apply in_or_app; right; left; reflexivity.
  - intros H. apply in_split in H. exact H.
Qed.

Lemma get_num_le (v : list Z) (m : list (list Z)) :
  (get_num_vector_found_in_matrix_rows v m <= length m)%nat.
Proof. induction m as [|r m IH]; simpl; [lia|destruct (row_found v r); lia]. Qed.

Lemma get_num_all (v : list Z) (m : list (list Z)) :
  get_num_vector_found_in_matrix_rows v m = length m
  <-> Forall (fun row => row_found v row = true) m.
Proof.
  induction m as [|r m IH]; simpl.
  - split; auto.
  - pose proof (get_num_le v m).
    rewrite Forall_cons_iff, <- IH.
    destruct (row_found v r); split; intros H'; try lia; try tauto;
      destruct H'; congruence.
Qed.

(** Sum of a list of flags in {0, 1}. *)
Lemma sum_flags_le {A} (f : A -> bool) (xs : list A) :
  (fold_right Z.add 0%Z (map (fun x => if f x then 1%Z else 0%Z) xs)
     <= Z.of_nat (length xs))%Z.
Proof. induction xs as [|x xs IH]; simpl; [lia|destruct (f x); lia]. Qed.

Lemma sum_flags_all {A} (f : A -> bool) (xs : list A) :
  fold_right Z.add 0%Z (map (fun x => if f x then 1%Z else 0%Z) xs)
    = Z.of_nat (length xs)
  <-> Forall (fun x => f x = true) xs.
Proof.
  induction xs as [|x xs IH]; simpl.
  - split; auto.
  - pose proof (sum_flags_le f xs).
    rewrite Forall_cons_iff, <- IH.
    destruct (f x); split; intros H'; try lia; try tauto;
      destruct H'; congruence.
Qed.

Lemma mean_flags_one {A} (f : A -> bool) (xs : list A) :
  float_eq_one (torch_mean (map (fun x => if f x then 1%Z else 0%Z) xs)) = true
  <-> xs <> [] /\ Forall (fun x => f x = true) xs.
Proof.
  destruct xs as [|x xs'] eqn:Exs.
  - simpl. split; [discriminate|intros [H _]; congruence].
  - rewrite <- Exs.
    assert (Hne : xs <> []) by (subst; discriminate).
    assert (Hlen : (0 < length xs)%nat) by (subst; simpl; lia).
    unfold torch_mean.
    replace (match map (fun x0 => if f x0 then 1%Z else 0%Z) xs with
             | [] => None | _ :: _ => Some _ end)
      with (Some (fold_right Z.add 0%Z (map (fun x => if f x then 1%Z else 0%Z) xs)
                  # Pos.of_nat (length (map (fun x => if f x then 1%Z else 0%Z) xs))))
      by (subst; reflexivity).
    unfold float_eq_one. rewrite Qeq_bool_iff. unfold Qeq. simpl Qnum; simpl Qden.
    rewrite length_map.
    assert (Hp : Z.pos (Pos.of_nat (length xs)) = Z.of_nat (length xs))
      by (rewrite <- positive_nat_Z, Nat2Pos.id by lia; reflexivity).
    rewrite Hp, Z.mul_1_r, Z.mul_1_l, sum_flags_all.
    split; [intros H; split; auto | intros [_ H]; exact H].
Qed.

Lemma Forall_equiv {A} (P Q : A -> Prop) (xs : list A) :
  (forall x, P x <-> Q x) -> (Forall P xs <-> Forall Q xs).
Proof.
  intros H; split; intros HF; induction HF; constructor; firstorder.
Qed.

(** The vector path decides "every row contains the word", for any number
    of rows. *)
Lemma should_stop_vector_spec (g : matrix) (v : list Z) :
  should_stop g (Vector v) = true
  <-> Forall (fun row => contains row v) (rows g).
Proof.
  simpl. rewrite Nat.eqb_eq, get_num_all.
  apply Forall_equiv. intros row. apply row_found_contains.
Qed.

(** The scalar path decides "every row contains the token", provided the
    batch has a row. *)
Lemma should_stop_scalar_spec (g : matrix) (t : Z) :
  rows g <> [] ->
  should_stop g (Scalar t) = true
  <-> Forall (fun row => contains row [t]) (rows g).
Proof.
  intros Hne. simpl.
  pose proof (mean_flags_one (fun row => Z.ltb 0 (count_eq t row)) (rows g)) as H.
  cbv beta in H. rewrite H.
  assert (HF : Forall (fun row => Z.ltb 0 (count_eq t row) = true) (rows g)
               <-> Forall (fun row => contains row [t]) (rows g)).
  { apply Forall_equiv. intros row.
    rewrite Z.ltb_lt, count_eq_pos, contains_singleton. reflexivity. }
  rewrite <- HF. tauto.
Qed.

Lemma should_stop_spec (g : matrix) (w : stop_word) :
  rows g <> [] ->
  should_stop g w = true
  <-> Forall (fun row => contains row (word_tokens w)) (rows g).
Proof.
  intros Hne. destruct w as [t|v]; simpl word_tokens.
  - apply should_stop_scalar_spec; exact Hne.
  - apply should_stop_vector_spec.
Qed.

(** On a batch with at least one row, [__call__] fires exactly when the
    specification's condition holds. *)
Lemma call_nonempty_spec (ws : list stop_word) (p : nat) (input_ids : matrix) :
  rows (slice_cols input_ids p) <> [] ->
  fst (call ws p input_ids) = true <-> spec_fires ws (slice_cols input_ids p).
Proof.
  intros Hne. unfold call, spec_fires.
  induction ws as [|w ws IH]; simpl.
  - split; [discriminate|intros [w [[] _]]].
  - destruct (should_stop (slice_cols input_ids p) w) eqn:Hs.
    + simpl. split; [intros _|reflexivity].
      exists w. split; [left; reflexivity|].
      apply (should_stop_spec _ w Hne); exact Hs.
    + rewrite IH. split.
      * intros [w' [Hin Hf]]. exists w'. split; [right|]; assumption.
      * intros [w' [[<-|Hin] Hf]].
        -- apply (should_stop_spec _ w Hne) in Hf. congruence.
        -- exists w'. split; assumption.
Qed.

(** For batches with a row, the scalar fast path and the vector path agree. *)
Lemma should_stop_scalar_vector_nonempty (g : matrix) (t : Z) :
  rows g <> [] -> should_stop g (Scalar t) = should_stop g (Vector [t]).
Proof.
  intros Hne.
  destruct (should_stop g (Scalar t)) eqn:Hs, (should_stop g (Vector [t])) eqn:Hv;
    try reflexivity.
  - apply should_stop_scalar_spec in Hs; [|exact Hne].
    apply should_stop_vector_spec in Hs. congruence.
  - apply should_stop_vector_spec in Hv.
    apply (should_stop_scalar_spec g t Hne) in Hv. congruence.
Qed.

Lemma should_stop_empty_vector (g : matrix) : should_stop g (Vector []) = true.
Proof.
  apply should_stop_vector_spec. apply Forall_forall. intros row _.
  exists [], row. reflexivity.
Qed.

(** C1 (code_bug): on a batch with no rows, every row vacuously contains the
    scalar stop word [50256], so the specification's condition holds; but the
    scalar path of [should_stop] takes the mean of an empty tensor, which is
    [nan], and [nan == 1] is false: [__call__] returns false. *)
Theorem call_zero_rows_scalar_stop_word :
  fst (call [Scalar 50256] 0 (Matrix 3 [])) = false
  /\ spec_fires [Scalar 50256] (slice_cols (Matrix 3 []) 0).
Proof.
  split.
  - reflexivity.
  - exists (Scalar 50256). split; [left; reflexivity|constructor].
Qed.

(** C6 (code_bug): on a batch with no rows the scalar fast path of
    [should_stop] returns false while the vector path, given the same token
    as a length-1 vector, counts 0 found rows out of 0 and returns true. *)
Theorem should_stop_scalar_vs_vector_zero_rows :
  should_stop (Matrix 3 []) (Scalar 50256) = false
  /\ should_stop (Matrix 3 []) (Vector [50256%Z]) = true.
Proof. split; reflexivity. Qed.

(** C8: if the stop-word set contains the empty 1-dimensional stop word,
    [__call__] returns true for every input matrix (also one with no rows)
    and every prompt length. *)
Theorem call_empty_stop_word_fires (ws : list stop_word) (p : nat)
    (input_ids : matrix) :
  In (Vector []) ws -> fst (call ws p input_ids) = true.
Proof.
  unfold call. induction ws as [|w ws IH]; cbn [call_loop In]; [intros []|].
  intros [->|Hin].
  - rewrite should_stop_empty_vector. reflexivity.
  - destruct (should_stop (slice_cols input_ids p) w); [reflexivity|].
    apply IH; exact Hin.
Qed.

Lemma call_empty_stop_word_fires_witness :
  In (Vector []) [Scalar 7; Vector []]
  /\ fst (call [Scalar 7; Vector []] 0 (Matrix 2 [])) = true.
Proof.
  split; [simpl; auto|].
  apply (call_empty_stop_word_fires [Scalar 7; Vector []] 0 (Matrix 2 [])).
  simpl; auto.
Defined.

End StoppingFacts.

(* ------------------------------------------------------------------ *)
(** ** [unwrap_model] *)

Module ModulesFacts.
Import Py Modules.

(** C10: [unwrap_model] returns a module that is neither a
    [DistributedDataParallel] nor a [DataParallel], and unwrapping again
    changes nothing. *)
Theorem unwrap_model_unwrapped_idempotent (m : nn_module) :
  is_parallel_wrapper (unwrap_model m) = false
  /\ unwrap_model (unwrap_model m) = unwrap_model m.
Proof. induction m as [m IH|m IH|m _|cls ps]; simpl; auto. Qed.

End ModulesFacts.

(* ------------------------------------------------------------------ *)
(** ** [update_backbone_config] *)

Module BackboneConfigFacts.
Import Py BackboneConfig.

Lemma update_dropout_keeps_ids (config : hf_config) (cfg : llm_cfg) :
  let '(c, _, logs) := update_dropout config cfg in
  eos_token_id c = eos_token_id config
  /\ pad_token_id c = pad_token_id config
  /\ bos_token_id c = bos_token_id config
  /\ (forall e, In e logs -> e = Warning dropout_warning).
Proof.
  unfold update_dropout.
  destruct config as [h a eos pad bos dev tp]; simpl.
  destruct h, a; simpl; try destruct (Qle_bool _ 0); simpl;
    repeat split; intros e He; simpl in He; intuition congruence.
Qed.

Lemma update_token_ids_spec (c : hf_config) (tok : tokenizer) logs0 :
  let '(c', logs) := update_token_ids c tok logs0 in
  eos_token_id c' = tok_eos_token_id tok
  /\ pad_token_id c' = tok_pad_token_id tok
  /\ bos_token_id c' = tok_bos_token_id tok
  /\ logs = logs0 ++ (if token_id_eq_dec (eos_token_id c) (tok_eos_token_id tok)
                      then [] else [Warning eos_warning])
                  ++ (if token_id_eq_dec (pad_token_id c) (tok_pad_token_id tok)
                      then [] else [Warning pad_warning]).
Proof.
  unfold update_token_ids.
  destruct (token_id_eq_dec (eos_token_id c) (tok_eos_token_id tok)) as [E|E];
  destruct (token_id_eq_dec (pad_token_id c) (tok_pad_token_id tok)) as [P|P];
  destruct (token_id_eq_dec (bos_token_id c) (tok_bos_token_id tok)) as [B|B];
  simpl;
  repeat match goal with
         | |- context [token_id_eq_dec ?a ?b] => destruct (token_id_eq_dec a b)
         end; simpl in *; try contradiction;
  repeat split; auto; rewrite ?app_nil_r, <- ?app_assoc; reflexivity.
Qed.

Lemma update_device_tp_spec (c : hf_config) (cfg : llm_cfg) logs0 :
  let '(c', logs) := update_device_tp c cfg logs0 in
  eos_token_id c' = eos_token_id c
  /\ pad_token_id c' = pad_token_id c
  /\ bos_token_id c' = bos_token_id c
  /\ (logs = logs0 \/ logs = logs0 ++ [Info tp_info]).
Proof.
  unfold update_device_tp.
  destruct (str_contains "mpt-" (llm_backbone cfg));
  destruct (pretraining_tp c); try destruct (lora cfg); simpl; auto.
Qed.

Lemma warnings_distinct :
  eos_warning <> pad_warning /\ eos_warning <> dropout_warning
  /\ pad_warning <> dropout_warning.
Proof. repeat split; discriminate. Qed.

(** C7: after [update_backbone_config], the config's EOS, PAD and BOS ids are
    the tokenizer's; an EOS (PAD) warning is logged exactly when the config's
    EOS (PAD) id differed; and the only warnings logged are these two and the
    dropout one: none for BOS. *)
Theorem update_backbone_config_token_ids (config : hf_config) (cfg : llm_cfg)
    (tok : tokenizer) :
  let '(c, _, logs) := update_backbone_config config cfg tok in
  eos_token_id c = tok_eos_token_id tok
  /\ pad_token_id c = tok_pad_token_id tok
  /\ bos_token_id c = tok_bos_token_id tok
  /\ (In (Warning eos_warning) logs <-> eos_token_id config <> tok_eos_token_id tok)
  /\ (In (Warning pad_warning) logs <-> pad_token_id config <> tok_pad_token_id tok)
  /\ (forall msg, In (Warning msg) logs ->
        msg = eos_warning \/ msg = pad_warning \/ msg = dropout_warning).
Proof.
  unfold update_backbone_config.
  pose proof (update_dropout_keeps_ids config cfg) as Hd.
  destruct (update_dropout config cfg) as [[c1 cfg1] logs0].
  destruct Hd as (He1 & Hp1 & Hb1 & Hl0).
  pose proof (update_token_ids_spec c1 tok logs0) as Ht.
  destruct (update_token_ids c1 tok logs0) as [c2 logs1].
  destruct Ht as (He2 & Hp2 & Hb2 & Hl1).
  pose proof (update_device_tp_spec c2 cfg1 logs1) as Hx.
  destruct (update_device_tp c2 cfg1 logs1) as [c3 logs2].
  destruct Hx as (He3 & Hp3 & Hb3 & Hl2).
  pose proof warnings_distinct as (D1 & D2 & D3).
  rewrite He1 in Hl1; rewrite Hp1 in Hl1.
  assert (Hinc : forall e, In e logs1 -> In e logs2).
  { intros e H. destruct Hl2 as [->| ->]; [exact H|apply in_or_app; left; exact H]. }
  assert (Hsub : forall e, In e logs2 ->
            In e logs0
            \/ (e = Warning eos_warning /\ eos_token_id config <> tok_eos_token_id tok)
            \/ (e = Warning pad_warning /\ pad_token_id config <> tok_pad_token_id tok)
            \/ e = Info tp_info).
  { intros e H.
    assert (H1 : In e logs1 \/ e = Info tp_info).
    { destruct Hl2 as [->| ->]; [left; exact H|].
      apply in_app_or in H. destruct H as [H|[H|[]]]; auto. }
    destruct H1 as [H1|H1]; [|auto].
    rewrite Hl1 in H1. apply in_app_or in H1. destruct H1 as [H1|H1]; [auto|].
    apply in_app_or in H1.
    destruct (token_id_eq_dec (eos_token_id config) (tok_eos_token_id tok));
    destruct (token_id_eq_dec (pad_token_id config) (tok_pad_token_id tok));
    simpl in H1; intuition (subst; auto). }
  repeat split; try congruence.
  - intros Hin. apply Hsub in Hin.
    destruct Hin as [Hin|[[_ H]|[[H _]|H]]]; auto.
    + apply Hl0 in Hin. injection Hin; intros; congruence.
    + injection H; intros; congruence.
    + discriminate.
  - intros Hne. apply Hinc. rewrite Hl1. apply in_or_app; right.
    apply in_or_app; left.
    destruct (token_id_eq_dec (eos_token_id config) (tok_eos_token_id tok));
      [contradiction|left; reflexivity].
  - intros Hin. apply Hsub in Hin.
    destruct Hin as [Hin|[[H _]|[[_ H]|H]]]; auto.
    + apply Hl0 in Hin. injection Hin; intros; congruence.
    + injection H; intros; congruence.
    + discriminate.
  - intros Hne. apply Hinc. rewrite Hl1. apply in_or_app; right.
    apply in_or_app; right.
    destruct (token_id_eq_dec (pad_token_id config) (tok_pad_token_id tok));
      [contradiction|left; reflexivity].
  - intros msg Hin. apply Hsub in Hin.
    destruct Hin as [Hin|[[H _]|[[H _]|H]]].
    + apply Hl0 in Hin. injection Hin; auto.
    + injection H; auto.
    + injection H; auto.
    + discriminate.
Qed.

End BackboneConfigFacts.

(* ------------------------------------------------------------------ *)
(** ** [check_disk_space] *)

Module DiskFacts.
Import Py Disk.

Lemma model_size_in_bytes_sum (params : list tensor) :
  fst (model_size_in_bytes params)
  = fold_right Nat.add 0 (map (fun p => numel p * bytewidth (dtype p)) params).
Proof.
  induction params as [|p ps IH]; simpl; [reflexivity|].
  destruct (param_bytes p) as [b w] eqn:Hb.
  destruct (model_size_in_bytes ps) as [b' w'] eqn:Hs. simpl in *.
  rewrite <- IH. f_equal.
  unfold param_bytes in Hb.
  destruct (dtype p); injection Hb; intros; subst; reflexivity.
Qed.

(** C3 (the boundary): 25 float32 elements need 100 bytes; with 103 bytes
    free, [100 * 1.03 > 103] is false, yet [check_disk_space] raises, since
    it only passes when [100 * 1.03 < 103]. (In double precision
    [100 * 1.03] is also exactly [103.0].) *)
Lemma check_disk_space_raises_at_equality :
  (exists r a logs,
     check_disk_space [Tensor float32 [25%nat] 0%Z] 103 false = NotEnough r a logs)
  /\ ~ (inject_Z 103 < with_margin (required_bytes [Tensor float32 [25%nat] 0%Z] false))%Q.
Proof.
  split.
  - do 3 eexists. vm_compute. reflexivity.
  - unfold with_margin, required_bytes, Qlt. simpl. lia.
Qed.

(** C3, as the code does it: the required bytes are the sum over the
    parameters of element count times byte width (1 for int8/uint8, 2 for
    float16/bfloat16, 4 for float32 and any other dtype), doubled under
    DeepSpeed; the check raises iff [required * 1.03 >= free], and then
    reports [required * 1.03] and [free], both in MB. *)
Theorem check_disk_space_spec (params : list tensor) (free : nat)
    (use_deepspeed : bool) :
  let req := required_bytes params use_deepspeed in
  match check_disk_space params free use_deepspeed with
  | Enough _ => (with_margin req < inject_Z (Z.of_nat free))%Q
  | NotEnough r a _ =>
      (inject_Z (Z.of_nat free) <= with_margin req)%Q
      /\ r = (with_margin req / MB)%Q
      /\ a = (inject_Z (Z.of_nat free) / MB)%Q
  end.
Proof.
  cbv zeta. unfold check_disk_space.
  pose proof (model_size_in_bytes_sum params) as Hs.
  destruct (model_size_in_bytes params) as [size0 warns]. simpl in Hs.
  assert (Hr : (if use_deepspeed then size0 * 2 else size0)
               = required_bytes params use_deepspeed).
  { unfold required_bytes. rewrite <- Hs. destruct use_deepspeed; lia. }
  rewrite Hr.
  destruct (Qle_bool (inject_Z (Z.of_nat free))
                     (with_margin (required_bytes params use_deepspeed))) eqn:Hq.
  - apply Qle_bool_iff in Hq. auto.
  - apply Qnot_le_lt. intros H. apply Qle_bool_iff in H. congruence.
Qed.

End DiskFacts.

(* ------------------------------------------------------------------ *)
(** ** Dictionaries and strings: lemmas *)

Module PyFacts.
Import Py.

Lemma lookup_In {A} (k : string) (v : A) (l : list (string * A)) :
  lookup k l = Some v -> In (k, v) l.
Proof.
  induction l as [|[k' v'] l IH]; simpl; [discriminate|].
  destruct (String.eqb_spec k k') as [->|_]; [intros H; injection H; intros ->; auto|].
  intros H; right; auto.
Qed.

Lemma In_lookup {A} (k : string) (v : A) (l : list (string * A)) :
  NoDup (map fst l) -> In (k, v) l -> lookup k l = Some v.
Proof.
  induction l as [|[k' v'] l IH]; simpl; [intros _ []|].
  intros Hnd Hin. inversion Hnd as [|? ? Hnot Hnd']; subst.
  destruct (String.eqb_spec k k') as [->|Hne].
  - destruct Hin as [Heq|Hin]; [injection Heq; intros ->; reflexivity|].
    exfalso; apply Hnot. apply (in_map fst) in Hin. exact Hin.
  - destruct Hin as [Heq|Hin]; [injection Heq; intros; congruence|].
    apply IH; assumption.
Qed.

Lemma lookup_key_In {A} (k : string) (l : list (string * A)) :
  In k (map fst l) -> exists v, lookup k l = Some v.
Proof.
  induction l as [|[k' v'] l IH]; simpl; [intros []|].
  destruct (String.eqb_spec k k') as [->|Hne]; [eauto|].
  intros [H|H]; [congruence|auto].
Qed.

Lemma lookup_None {A} (k : string) (l : list (string * A)) :
  lookup k l = None -> ~ In k (map fst l).
Proof.
  intros H Hin. apply lookup_key_In in Hin. destruct Hin; congruence.
Qed.

Lemma dict_insert_fresh {A} (k : string) (v : A) (d : list (string * A)) :
  ~ In k (map fst d) -> dict_insert k v d = d ++ [(k, v)].
Proof.
  induction d as [|[k' v'] d IH]; simpl; [reflexivity|].
  intros Hn. destruct (String.eqb_spec k k') as [->|_]; [tauto|].
  rewrite IH; auto.
Qed.

Lemma fold_insert_nodup {A} (l acc : list (string * A)) :
  NoDup (map fst acc ++ map fst l) ->
  fold_left (fun d '(k, v) => dict_insert k v d) l acc = acc ++ l.
Proof.
  revert acc; induction l as [|[k v] l IH]; intros acc Hnd; simpl;
    [rewrite app_nil_r; reflexivity|].
  simpl in Hnd. pose proof Hnd as Hnd0. apply NoDup_remove in Hnd as [_ Hn].
  rewrite dict_insert_fresh.
  - rewrite IH; [rewrite <- app_assoc; reflexivity|].
    rewrite map_app, <- app_assoc. exact Hnd0.
  - intros H; apply Hn, in_or_app; left; exact H.
Qed.

Lemma dict_of_list_nodup {A} (l : list (string * A)) :
  NoDup (map fst l) -> dict_of_list l = l.
Proof. intros Hnd. apply (fold_insert_nodup l []). exact Hnd. Qed.

Lemma str_contains_prefix (pat s : string) :
  str_contains pat s = false -> String.prefix pat s = false.
Proof. destruct s; simpl; rewrite orb_false_iff; tauto. Qed.

Lemma replace_fuel_absent (pat rep : string) (fuel : nat) (s : string) :
  str_contains pat s = false -> replace_fuel fuel pat rep s = s.
Proof.
  revert s; induction fuel as [|f IH]; intros s H; simpl; [reflexivity|].
  rewrite (str_contains_prefix _ _ H).
  destruct s as [|c s']; [reflexivity|].
  simpl in H. apply orb_false_iff in H as [_ H].
  rewrite IH; auto.
Qed.

Lemma str_replace_absent (pat rep s : string) :
  str_contains pat s = false -> str_replace pat rep s = s.
Proof. apply replace_fuel_absent. Qed.

End PyFacts.

(* ------------------------------------------------------------------ *)
(** ** Weight reconciliation and checkpoints: lemmas *)

Module CheckpointFacts.
Import Py Modules TorchLoad Regex Checkpoint CheckpointSpec PyFacts.

Lemma keys_key_shape (l : state_dict) : map fst (map key_shape l) = keys l.
Proof. unfold keys. rewrite map_map. reflexivity. Qed.

Lemma filter_weights_keys (cfg : config) (msd mw f : state_dict) :
  (forall k, In k (keys mw) -> dropped_by_filter cfg k = false) ->
  filter_weights cfg msd mw = inr f -> keys f = keys mw.
Proof.
  revert f; induction mw as [|[k v] mw IH]; intros f Hk Hf; simpl in Hf.
  - injection Hf; intros <-; reflexivity.
  - rewrite (Hk k (or_introl eq_refl)) in Hf.
    destruct (if negb (quantized cfg) && is_int8_tensor v
              then lookup k msd else Some v) as [v'|]; [|discriminate].
    destruct (filter_weights cfg msd mw) as [e|r] eqn:Hr; [discriminate|].
    injection Hf; intros <-. simpl. f_equal.
    apply IH; [|reflexivity]. intros k' H'. apply Hk. right; exact H'.
Qed.

Lemma filter_weights_keep (cfg : config) (msd mw : state_dict) :
  (forall k v, In (k, v) mw ->
     dropped_by_filter cfg k = false
     /\ (quantized cfg = true \/ is_int8_tensor v = false)) ->
  filter_weights cfg msd mw = inr mw.
Proof.
  induction mw as [|[k v] mw IH]; intros H; simpl; [reflexivity|].
  destruct (H k v (or_introl eq_refl)) as [Hd Hq]. rewrite Hd.
  assert (Hv : (if negb (quantized cfg) && is_int8_tensor v
                then lookup k msd else Some v) = Some v).
  { destruct Hq as [Hq|Hq]; rewrite Hq; [reflexivity|].
    rewrite andb_false_r; reflexivity. }
  rewrite Hv, IH; [reflexivity|].
  intros k' v' H'. apply H. right; exact H'.
Qed.

Lemma map_strip_id (l : state_dict) :
  (forall k, In k (keys l) -> String.prefix "module." k = false) ->
  map (fun '(k, v) => (strip_module_prefix k, v)) l = l.
Proof.
  induction l as [|[k v] l IH]; intros H; simpl; [reflexivity|].
  unfold strip_module_prefix at 1. rewrite (H k (or_introl eq_refl)).
  rewrite IH; [reflexivity|]. intros k' H'; apply H; right; exact H'.
Qed.

Lemma map_replace_id (l : state_dict) :
  (forall k, In k (keys l) -> str_contains "_orig_mod." k = false) ->
  map (fun '(k, v) => (str_replace "_orig_mod." "" k, v)) l = l.
Proof.
  induction l as [|[k v] l IH]; intros H; simpl; [reflexivity|].
  rewrite (str_replace_absent _ _ _ (H k (or_introl eq_refl))).
  rewrite IH; [reflexivity|]. intros k' H'; apply H; right; exact H'.
Qed.

(** When the first comprehension drops nothing, the effective strictness is
    the caller's. *)
Lemma prepare_weights_strict (cfg : config) (live mw sd' : state_dict)
    (strict strict' : bool) :
  NoDup (keys mw) ->
  (forall k, In k (keys mw) -> dropped_by_filter cfg k = false) ->
  prepare_weights cfg live mw strict = inr (sd', strict') -> strict' = strict.
Proof.
  intros Hnd Hk. unfold prepare_weights.
  destruct (filter_weights cfg live mw) as [e|f] eqn:Hf; [discriminate|].
  pose proof (filter_weights_keys cfg live mw f Hk Hf) as Hkeys.
  rewrite (dict_of_list_nodup f) by (unfold keys in Hkeys; rewrite Hkeys; exact Hnd).
  assert (Hlen : length f = length mw).
  { rewrite <- (length_map fst f), <- (length_map fst mw).
    unfold keys in Hkeys. rewrite Hkeys. reflexivity. }
  rewrite Hlen, Nat.eqb_refl. intros H; injection H; auto.
Qed.

Lemma filter_nil_all {A} (f : A -> bool) (l : list A) :
  (forall x, In x l -> f x = false) -> filter f l = [].
Proof.
  induction l as [|x l IH]; intros H; simpl; [reflexivity|].
  rewrite (H x (or_introl eq_refl)). apply IH. intros y Hy; apply H; right; exact Hy.
Qed.

Lemma flat_map_nil_all {A B} (f : A -> list B) (l : list A) :
  (forall x, In x l -> f x = []) -> flat_map f l = [].
Proof.
  induction l as [|x l IH]; intros H; simpl; [reflexivity|].
  rewrite (H x (or_introl eq_refl)). apply IH. intros y Hy; apply H; right; exact Hy.
Qed.

Lemma list_nat_eqb_refl (a : list nat) : list_nat_eqb a a = true.
Proof. unfold list_nat_eqb. destruct (list_eq_dec Nat.eq_dec a a); congruence. Qed.

Lemma perm_keys (live mw : state_dict) :
  Permutation (map key_shape mw) (map key_shape live) -> Permutation (keys mw) (keys live).
Proof.
  intros Hal. rewrite <- (keys_key_shape mw), <- (keys_key_shape live).
  apply Permutation_map. exact Hal.
Qed.

Lemma aligned_lookup (live mw : state_dict) (k : string) (p : tensor) :
  NoDup (keys mw) ->
  Permutation (map key_shape mw) (map key_shape live) ->
  In (k, p) live ->
  exists v, lookup k mw = Some v /\ In (k, v) mw /\ shape v = shape p.
Proof.
  intros Hnd Hal Hin.
  apply (in_map key_shape) in Hin.
  apply (Permutation_in _ (Permutation_sym Hal)) in Hin.
  apply in_map_iff in Hin as [[k' v] [Heq Hin]].
  unfold key_shape in Heq; simpl in Heq. injection Heq; intros Hs ->.
  exists v. split; [apply In_lookup; assumption|]. auto.
Qed.

(** A snapshot with the live model's keys and shapes, in any order, loads
    strictly without error, each parameter taking the snapshot's content. *)
Lemma load_state_dict_matching (live mw : state_dict) :
  NoDup (keys live) ->
  Permutation (map key_shape mw) (map key_shape live) ->
  load_state_dict live mw true = (map (load_param mw) live, []).
Proof.
  intros Hnd Hal.
  pose proof (perm_keys live mw Hal) as Hk.
  assert (Hndm : NoDup (keys mw))
    by (apply (Permutation_NoDup (Permutation_sym Hk)); exact Hnd).
  unfold load_state_dict, load_errors. f_equal.
  assert (Hm : missing_keys live mw = []).
  { apply filter_nil_all. intros k Hin.
    apply (Permutation_in _ (Permutation_sym Hk)) in Hin.
    apply lookup_key_In in Hin as [v Hv]. unfold in_keys. rewrite Hv. reflexivity. }
  assert (Hu : unexpected_keys live mw = []).
  { apply filter_nil_all. intros k Hin. apply (Permutation_in _ Hk) in Hin.
    apply lookup_key_In in Hin as [v Hv]. unfold in_keys. rewrite Hv. reflexivity. }
  assert (Hs : size_errors live mw = []).
  { unfold size_errors. apply flat_map_nil_all. intros [k p] Hin.
    destruct (aligned_lookup live mw k p Hndm Hal Hin) as [v [Hv [_ Hsh]]].
    rewrite Hv, Hsh, list_nat_eqb_refl. reflexivity. }
  rewrite Hm, Hu, Hs. reflexivity.
Qed.

Lemma load_param_matching (live mw : state_dict) :
  NoDup (keys mw) ->
  Permutation (map key_shape mw) (map key_shape live) ->
  keys (map (load_param mw) live) = keys live
  /\ (forall k t, In (k, t) (map (load_param mw) live) ->
        exists p v, In (k, p) live /\ In (k, v) mw /\ t = copy_into p v).
Proof.
  intros Hndm Hal. split.
  - unfold keys. rewrite map_map. apply map_ext_in. intros [k p] Hin.
    destruct (aligned_lookup live mw k p Hndm Hal Hin) as [v [Hv [_ Hsh]]].
    simpl. rewrite Hv, Hsh, list_nat_eqb_refl. reflexivity.
  - intros k t Hin. apply in_map_iff in Hin as [[k' p] [Heq Hin]].
    destruct (aligned_lookup live mw k' p Hndm Hal Hin) as [v [Hv [Hv' Hsh]]].
    simpl in Heq. rewrite Hv, Hsh, list_nat_eqb_refl in Heq.
    injection Heq; intros <- <-. exists p, v. auto.
Qed.

Lemma matching_nodup (live mw : state_dict) :
  NoDup (keys live) ->
  Permutation (map key_shape mw) (map key_shape live) ->
  NoDup (keys mw).
Proof.
  intros Hnd Hal.
  apply (Permutation_NoDup (Permutation_sym (perm_keys live mw Hal))). exact Hnd.
Qed.

Lemma reconcile_matching (cls : string) (live mw : state_dict) (cfg : config) :
  NoDup (keys live) ->
  Permutation (map key_shape mw) (map key_shape live) ->
  (forall k v, In (k, v) mw -> untouched_entry cfg k v) ->
  load_model_weights cls live mw true cfg = Ok (map (load_param mw) live) [].
Proof.
  intros Hnd Hal Hu.
  pose proof (matching_nodup live mw Hnd Hal) as Hndm.
  assert (Hkey : forall k, In k (keys mw) -> exists v, In (k, v) mw).
  { intros k Hin. unfold keys in Hin. apply in_map_iff in Hin as [[k' v] [Heq Hin]].
    simpl in Heq; subst k'. eauto. }
  unfold load_model_weights, prepare_weights.
  rewrite filter_weights_keep.
  2:{ intros k v Hin. destruct (Hu k v Hin) as (_ & _ & [Hq|[Hm Hi]]).
      - unfold dropped_by_filter. rewrite Hq, andb_false_r. auto.
      - unfold dropped_by_filter. rewrite Hm. auto. }
  rewrite (dict_of_list_nodup mw Hndm), Nat.eqb_refl.
  rewrite map_strip_id.
  2:{ intros k Hin. destruct (Hkey k Hin) as [v Hv]. apply (Hu k v Hv). }
  rewrite (dict_of_list_nodup mw Hndm).
  rewrite map_replace_id.
  2:{ intros k Hin. destruct (Hkey k Hin) as [v Hv]. apply (Hu k v Hv). }
  rewrite (dict_of_list_nodup mw Hndm).
  rewrite (load_state_dict_matching live mw Hnd Hal). reflexivity.
Qed.

Lemma lookup_insert_same {A} (k : string) (v : A) (d : list (string * A)) :
  lookup k (dict_insert k v d) = Some v.
Proof.
  induction d as [|[k' v'] d IH]; simpl.
  - rewrite String.eqb_refl. reflexivity.
  - destruct (String.eqb_spec k k') as [->|Hne]; simpl.
    + rewrite String.eqb_refl. reflexivity.
    + apply String.eqb_neq in Hne. rewrite Hne. exact IH.
Qed.

(** Loading a checkpoint file that holds a matching snapshot, on rank 0. *)
Lemma load_checkpoint_matching (cfg : config) (cls ckpt : string)
    (params fresh : state_dict) (fs : filesystem) :
  lookup ckpt fs = Some (CheckpointFile params) ->
  local_rank cfg = 0 ->
  NoDup (keys fresh) ->
  Permutation (map key_shape params) (map key_shape fresh) ->
  (forall k v, In (k, v) params -> untouched_entry cfg k v) ->
  load_checkpoint cfg cls fresh true (Some ckpt) fs
  = Ok (map (load_param params) fresh) [Info ("Weights loaded from: " ++ ckpt)].
Proof.
  intros Hl Hr Hnd Hal Hu. unfold load_checkpoint. rewrite Hl.
  rewrite (reconcile_matching cls fresh params cfg Hnd Hal Hu).
  rewrite Hr. reflexivity.
Qed.

(** C9: with [path=None], on the coordinating rank and for the
    classification-head task, [save_checkpoint] raises, for every model,
    either strategy and any file system, and writes nothing. *)
Theorem save_checkpoint_none_path_classification_raises (m : nn_module)
    (cfg : config) (fs : filesystem) :
  local_rank cfg = 0 -> problem_type cfg = classification_problem ->
  exists e, save_checkpoint m None cfg fs = Exc e fs [].
Proof.
  intros Hr Hpt. unfold save_checkpoint, save_main. rewrite Hr, Hpt.
  destruct (use_deepspeed cfg); simpl; try rewrite String.eqb_refl; simpl.
  - eexists; reflexivity.
  - destruct (lookup "classification_head.weight" (module_state_dict (unwrap_model m)));
      eexists; reflexivity.
Qed.

Lemma save_checkpoint_none_path_classification_raises_witness :
  exists e,
    save_checkpoint (DataParallel (Net "Net" [])) None
      (Config "float32" 0 false classification_problem "w") [] = Exc e [] [].
Proof.
  apply save_checkpoint_none_path_classification_raises; reflexivity.
Defined.

(** C2 (the gate): the caller passes [strict=true] and the snapshot holds a
    wrong-shaped [x]; a key [x.SCB] is dropped by the first comprehension,
    which turns strictness off, so the failed strict load is followed by a
    non-strict retry that returns normally. *)
Lemma load_model_weights_strict_overridden :
  (exists st logs,
     load_model_weights "Net" [("x", Tensor float32 [2] 0%Z)]
       [("x", Tensor float32 [3] 1%Z); ("x.SCB", Tensor float32 [1] 2%Z)]
       true cfg_fp32 = Ok st logs)
  /\ snd (load_state_dict [("x", Tensor float32 [2] 0%Z)]
            [("x", Tensor float32 [3] 1%Z)] true) <> [].
Proof.
  split.
  - do 2 eexists. vm_compute. reflexivity.
  - vm_compute. discriminate.
Qed.

(** C2, as the code does it: when the caller passes [strict=true] and the
    first comprehension drops no entry (no key carries a quantization marker,
    or the backbone dtype is int4/int8), a failed strict load is propagated:
    the call raises the [RuntimeError] of that load, without retrying. *)
Theorem load_model_weights_strict_propagates (cls : string)
    (live mw sd' st : state_dict) (cfg : config) (strict' : bool)
    (errs : list load_error) :
  NoDup (keys mw) ->
  (forall k, In k (keys mw) -> dropped_by_filter cfg k = false) ->
  prepare_weights cfg live mw true = inr (sd', strict') ->
  load_state_dict live sd' true = (st, errs) ->
  errs <> [] ->
  load_model_weights cls live mw true cfg
  = Exc (RuntimeError (error_message cls errs)) st [].
Proof.
  intros Hnd Hk Hp Hl Hne.
  pose proof (prepare_weights_strict cfg live mw sd' true strict' Hnd Hk Hp) as ->.
  unfold load_model_weights. rewrite Hp, Hl.
  destruct errs as [|e errs]; [congruence|reflexivity].
Qed.

Lemma load_model_weights_strict_propagates_witness :
  exists st errs,
    load_model_weights "Net" [("x", Tensor float32 [2] 0%Z)]
      [("x", Tensor float32 [3] 1%Z)] true cfg_fp32
    = Exc (RuntimeError (error_message "Net" errs)) st [].
Proof.
  do 2 eexists.
  apply (load_model_weights_strict_propagates "Net" [("x", Tensor float32 [2] 0%Z)]
           [("x", Tensor float32 [3] 1%Z)] [("x", Tensor float32 [3] 1%Z)]
           [("x", Tensor float32 [2] 0%Z)] cfg_fp32 true
           [SizeMismatch "x" [3] [2]]).
  - repeat constructor; simpl; tauto.
  - intros k [<-|[]]. reflexivity.
  - reflexivity.
  - reflexivity.
  - discriminate.
Defined.

(** C4 (code_bug): the model has parameters [a] and [a:b], the snapshot a
    well-shaped [a] and a wrong-shaped [a:b]. The failed strict load reports
    a size mismatch for [a:b] only, but the pattern ["size mismatch for
    (.*?):"] stops at the colon inside the key and yields [a]: the fallback
    removes [a], which was not reported, keeps [a:b], which was, and the
    non-strict retry raises again. *)
Theorem fallback_removes_unreported_key :
  prepare_weights cfg_fp32 live_colon snap_colon false = inr (snap_colon, false)
  /\ size_mismatch_keys (snd (load_state_dict live_colon snap_colon true)) = ["a:b"]
  /\ findall_size_mismatch
       (error_message "Net" (snd (load_state_dict live_colon snap_colon true))) = ["a"]
  /\ keys (retry_weights
             (error_message "Net" (snd (load_state_dict live_colon snap_colon true)))
             snap_colon) = ["a:b"]
  /\ exists e st logs,
       load_model_weights "Net" live_colon snap_colon false cfg_fp32 = Exc e st logs.
Proof.
  repeat split; [vm_compute; reflexivity..|].
  do 3 eexists. vm_compute. reflexivity.
Qed.

(** With ordinary keys the fallback removes exactly the reported key. *)
Example fallback_plain_key :
  let live := [("fc.weight", Tensor float32 [2; 3] 0%Z); ("fc.bias", Tensor float32 [2] 0%Z)] in
  let snap := [("fc.weight", Tensor float32 [4; 3] 1%Z); ("fc.bias", Tensor float32 [2] 1%Z)] in
  size_mismatch_keys (snd (load_state_dict live snap true)) = ["fc.weight"]
  /\ keys (retry_weights (error_message "Net" (snd (load_state_dict live snap true))) snap)
     = ["fc.bias"]
  /\ load_model_weights "Net" live snap false cfg_fp32
     = Ok [("fc.weight", Tensor float32 [2; 3] 0%Z); ("fc.bias", Tensor float32 [2] 1%Z)]
          [Warning (partial_load_warning
                      (error_message "Net" (snd (load_state_dict live snap true))))].
Proof. vm_compute. repeat split; reflexivity. Qed.

(** C5 (by design): a model holding a [uint8] tensor, saved and loaded back
    into a fresh model with a float32 backbone dtype: the first comprehension
    replaces the saved value 5 by the fresh model's value 0. *)
Lemma roundtrip_int8_value_replaced :
  save_checkpoint (Net "Net" [("mask", Tensor uint8 [2] 5%Z)]) (Some "out") cfg_fp32 []
  = Ok [("out/checkpoint.pth", CheckpointFile [("mask", Tensor uint8 [2] 5%Z)])] []
  /\ load_checkpoint cfg_fp32 "Net" [("mask", Tensor uint8 [2] 0%Z)] true
       (Some "out/checkpoint.pth")
       [("out/checkpoint.pth", CheckpointFile [("mask", Tensor uint8 [2] 5%Z)])]
     = Ok [("mask", Tensor uint8 [2] 0%Z)] [Info "Weights loaded from: out/checkpoint.pth"].
Proof. split; vm_compute; reflexivity. Qed.

End CheckpointFacts.

(* ------------------------------------------------------------------ *)
(** ** Dict helpers *)

Module DictFacts.
Import Py.

Lemma lookup_insert_other {A} (k k' : string) (v : A) (d : list (string * A)) :
  k' <> k -> lookup k' (dict_insert k v d) = lookup k' d.
Proof.
  intros Hne. induction d as [|[k0 v0] d IH]; simpl.
  - apply String.eqb_neq in Hne. rewrite Hne. reflexivity.
  - destruct (String.eqb_spec k k0) as [->|_]; simpl.
    + apply String.eqb_neq in Hne. rewrite Hne. reflexivity.
    + rewrite IH. reflexivity.
Qed.

Lemma lookup_pop_same {A} (k : string) (d : list (string * A)) :
  NoDup (map fst d) -> lookup k (dict_pop k d) = None.
Proof.
  induction d as [|[k0 v0] d IH]; simpl; intros Hnd; [reflexivity|].
  inversion Hnd as [|? ? Hn Hnd']; subst.
  destruct (String.eqb_spec k k0) as [->|Hne]; simpl.
  - destruct (lookup k0 d) eqn:E; [|reflexivity].
    exfalso. apply Hn. apply PyFacts.lookup_In in E. apply (in_map fst) in E. exact E.
  - apply String.eqb_neq in Hne. rewrite Hne. apply IH. exact Hnd'.
Qed.

End DictFacts.

(* ------------------------------------------------------------------ *)
(** ** Optimizer parameter groups ([get_optimizer]) *)

Module OptimizerFacts.
Import Py Optimizer.

Lemma any_in_all_not_in (xs : list string) (name : string) :
  any_in xs name = negb (all_not_in xs name).
Proof.
  unfold any_in, all_not_in. induction xs as [|x xs IH]; simpl; [reflexivity|].
  rewrite IH. destruct (str_contains x name); reflexivity.
Qed.

Lemma filter4_perm {A} (a b r : A -> bool) (l : list A) :
  Permutation.Permutation
    (filter (fun x => a x && b x && r x) l
     ++ filter (fun x => a x && negb (b x) && r x) l
     ++ filter (fun x => negb (a x) && b x && r x) l
     ++ filter (fun x => negb (a x) && negb (b x) && r x) l)
    (filter r l).
Proof.
  induction l as [|x l IH]; simpl; [constructor|].
  destruct (a x), (b x), (r x); simpl; try exact IH.
  - constructor. exact IH.
  - symmetry. apply Permutation.Permutation_cons_app. symmetry. exact IH.
  - symmetry. rewrite app_assoc. apply Permutation.Permutation_cons_app.
    rewrite <- app_assoc. symmetry. exact IH.
  - symmetry. rewrite (app_assoc _ (filter _ l)), app_assoc.
    apply Permutation.Permutation_cons_app. rewrite <- !app_assoc. symmetry. exact IH.
Qed.

(** The four groups of [get_optimizer] together hold every trainable
    parameter exactly once, and no frozen one. *)
Theorem get_optimizer_groups_partition (params : list named_param) (cfg : train_cfg) :
  Permutation.Permutation
    (flat_map group_params (get_optimizer_groups params cfg))
    (filter requires_grad params).
Proof.
  unfold get_optimizer_groups. simpl. rewrite app_nil_r.
  set (dl := differential_learning_rate_layers cfg).
  rewrite (filter_ext (fun p => all_not_in dl (pname p) && any_in no_decay (pname p) && requires_grad p)
             (fun p => all_not_in dl (pname p) && negb (all_not_in no_decay (pname p)) && requires_grad p))
    by (intros p; rewrite any_in_all_not_in; reflexivity).
  rewrite (filter_ext (fun p => any_in dl (pname p) && all_not_in no_decay (pname p) && requires_grad p)
             (fun p => negb (all_not_in dl (pname p)) && all_not_in no_decay (pname p) && requires_grad p))
    by (intros p; rewrite any_in_all_not_in; reflexivity).
  rewrite (filter_ext (fun p => any_in dl (pname p) && any_in no_decay (pname p) && requires_grad p)
             (fun p => negb (all_not_in dl (pname p)) && negb (all_not_in no_decay (pname p)) && requires_grad p))
    by (intros p; rewrite !any_in_all_not_in; reflexivity).
  apply (filter4_perm (fun p => all_not_in dl (pname p))
                      (fun p => all_not_in no_decay (pname p)) requires_grad).
Qed.

(** Each parameter's group gives it weight decay 0 exactly when its name
    contains ["bias"] or ["LayerNorm.weight"], and the differential learning
    rate exactly when its name contains one of the differential layers. *)
Theorem get_optimizer_groups_hyperparameters (params : list named_param)
    (cfg : train_cfg) (g : param_group) (p : named_param) :
  In g (get_optimizer_groups params cfg) -> In p (group_params g) ->
  requires_grad p = true
  /\ group_weight_decay g
     = (if any_in no_decay (pname p) then 0%Q else weight_decay cfg)
  /\ group_lr g
     = (if any_in (differential_learning_rate_layers cfg) (pname p)
        then differential_learning_rate cfg else learning_rate cfg).
Proof.
  unfold get_optimizer_groups. rewrite !any_in_all_not_in.
  intros Hg Hp.
  destruct Hg as [<-|[<-|[<-|[<-|[]]]]]; cbn [group_params] in Hp; apply filter_In in Hp as [_ Hp]; cbv beta in Hp;
    rewrite ?any_in_all_not_in in Hp;
    destruct (all_not_in (differential_learning_rate_layers cfg) (pname p)),
             (all_not_in no_decay (pname p)), (requires_grad p);
    cbn [andb negb group_lr group_weight_decay] in *; try discriminate; auto.
Qed.

Lemma get_optimizer_groups_hyperparameters_witness :
  let p := NamedParam "encoder.layer.0.bias" true (Tensor float32 [4] 0%Z) in
  let cfg := TrainCfg ["encoder"] (1 # 1000) (1 # 100) (1 # 10) in
  let g := ParamGroup [p] (1 # 100) 0 in
  In g (get_optimizer_groups [p] cfg) /\ In p (group_params g)
  /\ (requires_grad p = true
      /\ group_weight_decay g
         = (if any_in no_decay (pname p) then 0%Q else weight_decay cfg)
      /\ group_lr g
         = (if any_in (differential_learning_rate_layers cfg) (pname p)
            then differential_learning_rate cfg else learning_rate cfg)).
Proof.
  intros p cfg g.
  assert (Hg : In g (get_optimizer_groups [p] cfg))
    by (right; right; right; left; reflexivity).
  assert (Hp : In p (group_params g)) by (left; reflexivity).
  split; [exact Hg|]. split; [exact Hp|].
  exact (get_optimizer_groups_hyperparameters [p] cfg g p Hg Hp).
Defined.
End OptimizerFacts.

(* ------------------------------------------------------------------ *)
(** ** Disk space check, further facts *)

Module DiskMoreFacts.
Import Py Disk DiskFacts.

Lemma check_disk_space_enough_iff (params : list tensor) (free : nat) (ds : bool) :
  (exists logs, check_disk_space params free ds = Enough logs)
  <-> (with_margin (required_bytes params ds) < inject_Z (Z.of_nat free))%Q.
Proof.
  unfold check_disk_space.
  pose proof (model_size_in_bytes_sum params) as Hs.
  destruct (model_size_in_bytes params) as [size0 warns]. simpl in Hs.
  assert (Hr : (if ds then size0 * 2 else size0) = required_bytes params ds).
  { unfold required_bytes. rewrite <- Hs. destruct ds; lia. }
  rewrite Hr.
  destruct (Qle_bool (inject_Z (Z.of_nat free))
                     (with_margin (required_bytes params ds))) eqn:Hq.
  - apply Qle_bool_iff in Hq. split; [intros [l H]; discriminate|].
    intros H. exfalso. apply (Qlt_not_le _ _ H Hq).
  - split; [|eexists; reflexivity]. intros _.
    apply Qnot_le_lt. intros H. apply Qle_bool_iff in H. congruence.
Qed.

Lemma required_bytes_app (a b : list tensor) (ds : bool) :
  required_bytes (a ++ b) ds = required_bytes a ds + required_bytes b ds.
Proof.
  unfold required_bytes. rewrite map_app.
  induction (map _ a) as [|x l IH]; simpl; lia.
Qed.

Lemma with_margin_le (a b : nat) : a <= b -> (with_margin a <= with_margin b)%Q.
Proof.
  intros H. unfold with_margin. apply Qmult_le_compat_r.
  - rewrite <- Zle_Qle. lia.
  - unfold Qle; simpl; lia.
Qed.

(** The disk check is monotone: if it passes for a model, it passes for any
    sub-list of its parameters, with at least as much free space, and
    without DeepSpeed when it passed with it. *)
Theorem check_disk_space_monotone (params extra : list tensor) (free free' : nat)
    (ds ds' : bool) :
  free <= free' -> (ds' = true -> ds = true) ->
  (exists logs, check_disk_space (params ++ extra) free ds = Enough logs) ->
  exists logs, check_disk_space params free' ds' = Enough logs.
Proof.
  intros Hf Hd H. apply check_disk_space_enough_iff in H.
  apply check_disk_space_enough_iff.
  rewrite required_bytes_app in H.
  assert (Hle : required_bytes params ds' <= required_bytes params ds + required_bytes extra ds).
  { unfold required_bytes. destruct ds', ds; try (specialize (Hd eq_refl); discriminate); lia. }
  eapply Qle_lt_trans; [apply with_margin_le; exact Hle|].
  eapply Qlt_le_trans; [exact H|]. rewrite <- Zle_Qle. lia.
Qed.

Lemma check_disk_space_monotone_witness :
  (300 <= 400 /\ (false = true -> true = true)
   /\ exists logs, check_disk_space ([Tensor float32 [25] 0%Z] ++ [Tensor int8 [10] 0%Z]) 300 true
                   = Enough logs)
  /\ exists logs, check_disk_space [Tensor float32 [25] 0%Z] 400 false = Enough logs.
Proof.
  assert (H1 : 300 <= 400) by lia.
  assert (H2 : false = true -> true = true) by (intros _; reflexivity).
  assert (H3 : exists logs, check_disk_space ([Tensor float32 [25] 0%Z] ++ [Tensor int8 [10] 0%Z]) 300 true
                   = Enough logs) by (eexists; vm_compute; reflexivity).
  split; [split; [exact H1|split; [exact H2|exact H3]]|].
  exact (check_disk_space_monotone [Tensor float32 [25] 0%Z] [Tensor int8 [10] 0%Z]
           300 400 true false H1 H2 H3).
Defined.

End DiskMoreFacts.

(* ------------------------------------------------------------------ *)
(** ** Stopping criterion, witnesses *)

Module StoppingMoreFacts.
Import Stopping StoppingFacts.

Lemma call_nonempty_spec_witness :
  rows (slice_cols (Matrix 4 [[1; 7; 8; 2]; [3; 7; 8; 9]]%Z) 1) <> []
  /\ (fst (call [Vector [7; 8]%Z] 1 (Matrix 4 [[1; 7; 8; 2]; [3; 7; 8; 9]]%Z)) = true
      <-> spec_fires [Vector [7; 8]%Z] (slice_cols (Matrix 4 [[1; 7; 8; 2]; [3; 7; 8; 9]]%Z) 1)).
Proof.
  assert (H : rows (slice_cols (Matrix 4 [[1; 7; 8; 2]; [3; 7; 8; 9]]%Z) 1) <> [])
    by (simpl; discriminate).
  split; [exact H|]. exact (call_nonempty_spec _ _ _ H).
Defined.

Lemma should_stop_scalar_vector_nonempty_witness :
  rows (Matrix 2 [[5; 6]; [6; 0]]%Z) <> []
  /\ should_stop (Matrix 2 [[5; 6]; [6; 0]]%Z) (Scalar 6)
     = should_stop (Matrix 2 [[5; 6]; [6; 0]]%Z) (Vector [6%Z]).
Proof.
  assert (H : rows (Matrix 2 [[5; 6]; [6; 0]]%Z) <> []) by (simpl; discriminate).
  split; [exact H|]. exact (should_stop_scalar_vector_nonempty _ _ H).
Defined.

End StoppingMoreFacts.

(* ------------------------------------------------------------------ *)
(** ** Checkpoints under wrappers and DeepSpeed *)

Module CheckpointMoreFacts.
Import Py Modules TorchLoad Regex Checkpoint CheckpointSpec PyFacts CheckpointFacts DictFacts.

Lemma module_state_dict_ddp (c : string) (sd : state_dict) :
  module_state_dict (DistributedDataParallel (Net c sd)) = map add_module_prefix sd.
Proof. reflexivity. Qed.

Lemma eqb_module_prefix (a b : string) :
  String.eqb ("module." ++ a) ("module." ++ b) = String.eqb a b.
Proof. reflexivity. Qed.

Lemma is_quant_marker_module_prefix (k : string) :
  is_quant_marker ("module." ++ k) = is_quant_marker k.
Proof. reflexivity. Qed.

Lemma substring_0_all (s : string) (m : nat) :
  String.length s <= m -> substring 0 m s = s.
Proof.
  revert m; induction s as [|c s IH]; intros m H; destruct m; simpl in *;
    try reflexivity; try lia.
  rewrite IH by lia. reflexivity.
Qed.

Lemma strip_add_module_prefix (k : string) :
  strip_module_prefix ("module." ++ k) = k.
Proof.
  unfold strip_module_prefix. simpl.
  destruct k as [|c k]; simpl; [reflexivity|].
  f_equal. apply substring_0_all. lia.
Qed.

Lemma dict_insert_prefix (k : string) (v : tensor) (d : state_dict) :
  dict_insert ("module." ++ k) v (map add_module_prefix d)
  = map add_module_prefix (dict_insert k v d).
Proof.
  induction d as [|[k' v'] d IH]; [reflexivity|].
  simpl in *. destruct (String.eqb k k'); [reflexivity|]. rewrite IH. reflexivity.
Qed.

Lemma dict_of_list_prefix (l : state_dict) :
  dict_of_list (map add_module_prefix l) = map add_module_prefix (dict_of_list l).
Proof.
  unfold dict_of_list.
  change (@nil (string * tensor)) with (map add_module_prefix []) at 1.
  generalize (@nil (string * tensor)) as acc.
  induction l as [|[k v] l IH]; intros acc; [reflexivity|].
  cbn [map fold_left]. rewrite <- IH. f_equal.
  exact (dict_insert_prefix k v acc).
Qed.

Lemma dict_insert_keys {A} (k : string) (v : A) (d : list (string * A)) (k' : string) :
  In k' (map fst (dict_insert k v d)) -> k' = k \/ In k' (map fst d).
Proof.
  induction d as [|[k0 v0] d IH]; simpl; [intuition|].
  destruct (String.eqb k k0) eqn:E; simpl.
  - apply String.eqb_eq in E; subst. intuition.
  - intros [H|H]; [auto|]. destruct (IH H); auto.
Qed.

Lemma dict_of_list_keys {A} (l : list (string * A)) (k : string) :
  In k (map fst (dict_of_list l)) -> In k (map fst l).
Proof.
  unfold dict_of_list.
  assert (G : forall acc, In k (map fst (fold_left (fun d '(k, v) => dict_insert k v d) l acc))
                          -> In k (map fst acc) \/ In k (map fst l)).
  { induction l as [|[k0 v0] l IH]; intros acc H; simpl in *; [auto|].
    apply IH in H as [H|H]; [|auto]. apply dict_insert_keys in H. intuition. }
  intros H. apply G in H as [[]|H]. exact H.
Qed.

Lemma filter_weights_keys_incl (cfg : config) (msd mw f : state_dict) (k : string) :
  filter_weights cfg msd mw = inr f -> In k (map fst f) -> In k (map fst mw).
Proof.
  revert f; induction mw as [|[k0 v0] mw IH]; intros f Hf Hk; simpl in Hf.
  - injection Hf; intros <-. exact Hk.
  - destruct (dropped_by_filter cfg k0); [right; eapply IH; eauto|].
    destruct (if negb (quantized cfg) && is_int8_tensor v0
              then lookup k0 msd else Some v0) as [v'|]; [|discriminate].
    destruct (filter_weights cfg msd mw) as [e|r] eqn:Hr; [discriminate|].
    injection Hf; intros <-. destruct Hk as [Hk|Hk]; [left; exact Hk|].
    right. eapply IH; eauto.
Qed.

Lemma filter_weights_prefix (cfg : config) (msd mw : state_dict) :
  (forall k v, In (k, v) mw -> quantized cfg = true \/ is_int8_tensor v = false) ->
  filter_weights cfg msd (map add_module_prefix mw)
  = match filter_weights cfg msd mw with
    | inl e => inl e
    | inr f => inr (map add_module_prefix f)
    end.
Proof.
  induction mw as [|[k v] mw IH]; intros H; [reflexivity|].
  change (map add_module_prefix ((k, v) :: mw))
    with ((("module." ++ k)%string, v) :: map add_module_prefix mw).
  cbn [filter_weights].
  replace (dropped_by_filter cfg ("module." ++ k)) with (dropped_by_filter cfg k)
    by (unfold dropped_by_filter; rewrite is_quant_marker_module_prefix; reflexivity).
  assert (Hv : forall kk, (if negb (quantized cfg) && is_int8_tensor v
                then lookup kk msd else Some v) = Some v).
  { intros kk. destruct (H k v (or_introl eq_refl)) as [Hq|Hq]; rewrite Hq;
      [reflexivity|rewrite andb_false_r; reflexivity]. }
  rewrite !Hv.
  assert (IH' := IH (fun k' v' Hin => H k' v' (or_intror Hin))).
  destruct (dropped_by_filter cfg k); [exact IH'|]. rewrite IH'.
  destruct (filter_weights cfg msd mw); reflexivity.
Qed.

Lemma prepare_weights_prefix (cfg : config) (live mw : state_dict) (strict : bool) :
  (forall k v, In (k, v) mw ->
     String.prefix "module." k = false
     /\ (quantized cfg = true \/ is_int8_tensor v = false)) ->
  prepare_weights cfg live (map add_module_prefix mw) strict
  = prepare_weights cfg live mw strict.
Proof.
  intros H. unfold prepare_weights.
  rewrite (filter_weights_prefix cfg live mw) by (intros k v Hin; apply (H k v Hin)).
  destruct (filter_weights cfg live mw) as [e|f] eqn:Hf; [reflexivity|].
  rewrite dict_of_list_prefix, !length_map.
  rewrite map_map.
  rewrite (map_ext_in (fun x => let '(k, v) := add_module_prefix x in (strip_module_prefix k, v))
             (fun x => x)).
  2:{ intros [k v] _. unfold add_module_prefix.
      exact (f_equal (fun s => (s, v)) (strip_add_module_prefix k)). }
  rewrite map_id.
  rewrite (map_strip_id (dict_of_list f)).
  2:{ intros k Hk. apply dict_of_list_keys in Hk.
      apply (filter_weights_keys_incl cfg live mw f k Hf) in Hk.
      apply in_map_iff in Hk as [[k' v] [Heq Hin]]. simpl in Heq; subst k'.
      apply (H k v Hin). }
  reflexivity.
Qed.

(** A snapshot taken from a [DistributedDataParallel]-wrapped model, whose
    keys carry the [module.] prefix, is reconciled exactly like the bare
    model's snapshot, as long as no 8-bit tensor has to be replaced. *)
Theorem load_model_weights_ddp_snapshot (cls c : string) (live mw : state_dict)
    (strict : bool) (cfg : config) :
  (forall k v, In (k, v) mw ->
     String.prefix "module." k = false
     /\ (quantized cfg = true \/ is_int8_tensor v = false)) ->
  load_model_weights cls live (module_state_dict (DistributedDataParallel (Net c mw)))
    strict cfg
  = load_model_weights cls live mw strict cfg.
Proof.
  intros H. unfold load_model_weights. rewrite module_state_dict_ddp.
  rewrite (prepare_weights_prefix cfg live mw strict H). reflexivity.
Qed.

Lemma load_model_weights_ddp_snapshot_witness :
  (forall k v, In (k, v) [("w", Tensor float16 [2] 7%Z)] ->
     String.prefix "module." k = false
     /\ (quantized cfg_fp32 = true \/ is_int8_tensor v = false))
  /\ load_model_weights "Net" [("w", Tensor float32 [2] 0%Z)]
       (module_state_dict (DistributedDataParallel (Net "Net" [("w", Tensor float16 [2] 7%Z)])))
       true cfg_fp32
     = load_model_weights "Net" [("w", Tensor float32 [2] 0%Z)]
         [("w", Tensor float16 [2] 7%Z)] true cfg_fp32.
Proof.
  assert (H : forall k v, In (k, v) [("w", Tensor float16 [2] 7%Z)] ->
     String.prefix "module." k = false
     /\ (quantized cfg_fp32 = true \/ is_int8_tensor v = false)).
  { intros k v [Hk|[]]. injection Hk; intros <- <-. split; [reflexivity|right; reflexivity]. }
  split; [exact H|]. exact (load_model_weights_ddp_snapshot _ _ _ _ _ _ H).
Defined.

Lemma lookup_module_prefix_absent {A} (k : string) (d : list (string * A)) :
  (forall k', In k' (map fst d) -> String.prefix "module." k' = false) ->
  lookup ("module." ++ k) d = None.
Proof.
  induction d as [|[k' v] d IH]; intros H; [reflexivity|].
  cbn [lookup].
  destruct (String.eqb_spec ("module." ++ k) k') as [E|_].
  - exfalso. specialize (H k' (or_introl eq_refl)). rewrite <- E in H.
    simpl in H. destruct k; discriminate H.
  - apply IH. intros k'' Hk; apply H; right; exact Hk.
Qed.

Lemma filter_weights_missing_int8 (cfg : config) (msd mw : state_dict) (k : string)
    (v : tensor) :
  quantized cfg = false -> In (k, v) mw -> is_int8_tensor v = true ->
  is_quant_marker k = false -> lookup k msd = None ->
  exists k', filter_weights cfg msd mw = inl (KeyError k').
Proof.
  intros Hq Hin Hi Hm Hl. induction mw as [|[k0 v0] mw IH]; [destruct Hin|].
  simpl. destruct Hin as [E|Hin].
  - injection E; intros -> ->. unfold dropped_by_filter. rewrite Hm, Hq, Hi, Hl.
    simpl. eauto.
  - destruct (dropped_by_filter cfg k0); [apply IH; exact Hin|].
    destruct (if negb (quantized cfg) && is_int8_tensor v0
              then lookup k0 msd else Some v0) as [v'|]; [|eauto].
    destruct (IH Hin) as [k' Hk']. rewrite Hk'. eauto.
Qed.

(** Under a float backbone dtype, a snapshot with the [module.] prefix that
    holds an 8-bit integer tensor (under a key without a quantization
    marker) cannot be loaded into a model without the prefix: the
    replacement looks up the prefixed key in the live model and raises a
    [KeyError], leaving the model untouched. *)
Theorem load_model_weights_ddp_int8_keyerror (cls c : string) (live mw : state_dict)
    (strict : bool) (cfg : config) (k : string) (v : tensor) :
  quantized cfg = false -> In (k, v) mw -> is_int8_tensor v = true ->
  is_quant_marker k = false ->
  (forall k', In k' (keys live) -> String.prefix "module." k' = false) ->
  exists k', load_model_weights cls live
               (module_state_dict (DistributedDataParallel (Net c mw))) strict cfg
             = Exc (KeyError k') live [].
Proof.
  intros Hq Hin Hi Hm Hl. unfold load_model_weights, prepare_weights.
  rewrite module_state_dict_ddp.
  destruct (filter_weights_missing_int8 cfg live (map add_module_prefix mw)
              ("module." ++ k) v Hq) as [k' Hk'].
  - apply in_map_iff. exists (k, v). auto.
  - exact Hi.
  - rewrite is_quant_marker_module_prefix. exact Hm.
  - apply lookup_module_prefix_absent. exact Hl.
  - rewrite Hk'. eauto.
Qed.

Lemma load_model_weights_ddp_int8_keyerror_witness :
  exists k', load_model_weights "Net" [("w", Tensor float32 [2] 0%Z)]
               (module_state_dict (DistributedDataParallel (Net "Net" [("w", Tensor int8 [2] 3%Z)])))
               true cfg_fp32
             = Exc (KeyError k') [("w", Tensor float32 [2] 0%Z)] [].
Proof.
  apply (load_model_weights_ddp_int8_keyerror "Net" "Net" [("w", Tensor float32 [2] 0%Z)]
           [("w", Tensor int8 [2] 3%Z)] true cfg_fp32 "w" (Tensor int8 [2] 3%Z)).
  - reflexivity.
  - left; reflexivity.
  - reflexivity.
  - reflexivity.
  - intros k' [<-|[]]. reflexivity.
Defined.

(** Under the standard strategy, a rank other than 0 writes nothing, for any
    path and any task. *)
Theorem save_checkpoint_nonzero_rank_writes_nothing (m : nn_module)
    (path : option string) (cfg : config) (fs : filesystem) :
  use_deepspeed cfg = false -> local_rank cfg <> 0 ->
  save_checkpoint m path cfg fs = Ok fs [].
Proof.
  intros Hd Hr. unfold save_checkpoint, save_main. rewrite Hd.
  apply Nat.eqb_neq in Hr. rewrite Hr. reflexivity.
Qed.

Lemma save_checkpoint_nonzero_rank_writes_nothing_witness :
  save_checkpoint (DistributedDataParallel (Net "Net" [])) None
    (Config "float32" 1 false classification_problem "w") [] = Ok [] [].
Proof.
  apply save_checkpoint_nonzero_rank_writes_nothing; simpl; [reflexivity|discriminate].
Defined.

Lemma app_inj_l (p a b : string) : (p ++ a = p ++ b)%string -> a = b.
Proof.
  induction p as [|c p IH]; simpl; [auto|]. intros H. injection H. exact IH.
Qed.

Lemma string_app_assoc (a b c : string) : (a ++ b ++ c = (a ++ b) ++ c)%string.
Proof. induction a as [|x a IH]; simpl; [reflexivity|]. rewrite IH. reflexivity. Qed.

Lemma path_join_some (p name : string) :
  exists pre, path_join (Some p) name = inr (pre ++ name)%string
              /\ forall name', path_join (Some p) name' = inr (pre ++ name')%string.
Proof.
  unfold path_join. destruct (String.eqb p "").
  - exists "". split; reflexivity.
  - destruct (String.get (String.length p - 1) p) as [c|].
    + destruct (Ascii.ascii_dec c "/"%char) as [->|Hc].
      * exists p. split; reflexivity.
      * exists (p ++ "/")%string.
        assert (E : forall n, match c with
                              | "/"%char => inr (p ++ n)%string
                              | _ => inr (p ++ "/" ++ n)%string
                              end = @inr exn string ((p ++ "/") ++ n)%string).
        { intros n. rewrite <- string_app_assoc.
          destruct c as [[] [] [] [] [] [] [] []]; try reflexivity. contradiction. }
        split; [apply E|]. intros n. apply E.
    + exists (p ++ "/")%string. split; [|intros n]; rewrite string_app_assoc; reflexivity.
Qed.





(** C5, as the code does it.
    (1) [load_model_weights] with [strict=true] on a snapshot with the live
    model's keys and shapes, in any order, where no key has the [module.]
    prefix or the [_orig_mod.] infix and, unless the backbone dtype is
    int4/int8, no key holds a quantization marker and no tensor is
    int8/uint8, returns after the first strict load with no warning, every
    live parameter taking the snapshot's value for its key.
    (2) Under the standard strategy, a model whose parameters meet these
    conditions, saved by [save_checkpoint] on rank 0 (for the classification
    task the model holds its [classification_head.weight]), loads back from
    [checkpoint.pth] with [strict=true] into a fresh model with the same keys
    and shapes, every parameter taking the saved value. *)
Theorem load_model_weights_exact_match :
  (forall (cls : string) (live mw : state_dict) (cfg : config),
     NoDup (keys live) ->
     Permutation (map key_shape mw) (map key_shape live) ->
     (forall k v, In (k, v) mw -> untouched_entry cfg k v) ->
     exists st,
       load_model_weights cls live mw true cfg = Ok st []
       /\ keys st = keys live
       /\ (forall k t, In (k, t) st ->
             exists p v, In (k, p) live /\ In (k, v) mw /\ t = copy_into p v))
  /\ (forall (m : nn_module) (cls : string) (params fresh : state_dict) (p : string)
             (cfg : config) (fs : filesystem),
        unwrap_model m = Net cls params ->
        use_deepspeed cfg = false -> local_rank cfg = 0 ->
        (problem_type cfg = classification_problem ->
           lookup "classification_head.weight" params <> None) ->
        NoDup (keys fresh) ->
        Permutation (map key_shape params) (map key_shape fresh) ->
        (forall k v, In (k, v) params -> untouched_entry cfg k v) ->
        exists ckpt fs' st,
          path_join (Some p) "checkpoint.pth" = inr ckpt
          /\ save_checkpoint m (Some p) cfg fs = Ok fs' []
          /\ load_checkpoint cfg cls fresh true (Some ckpt) fs'
             = Ok st [Info ("Weights loaded from: " ++ ckpt)]
          /\ keys st = keys fresh
          /\ (forall k t, In (k, t) st ->
                exists q v, In (k, q) fresh /\ In (k, v) params /\ t = copy_into q v)).
Proof.
  split.
  - intros cls live mw cfg Hnd Hal Hu.
    exists (map (load_param mw) live). split.
    + apply reconcile_matching; assumption.
    + apply load_param_matching; [apply (matching_nodup live mw Hnd Hal)|exact Hal].
  - intros m cls params fresh p cfg fs Hun Hds Hr Hhead Hnd Hal Hu.
    destruct (path_join_some p "checkpoint.pth") as [pre [Hj Hall]].
    set (ckpt := (pre ++ "checkpoint.pth")%string) in *.
    set (fs1 := dict_insert ckpt (CheckpointFile params) fs).
    assert (Hmain : save_main m (Some p) cfg fs = inr (fs1, Some params)).
    { unfold save_main. rewrite Hds, Hr, Hun, Hj. reflexivity. }
    assert (Hsave : exists fs', save_checkpoint m (Some p) cfg fs = Ok fs' []
                                /\ lookup ckpt fs' = Some (CheckpointFile params)).
    { unfold save_checkpoint. rewrite Hmain, Hr. simpl Nat.eqb. cbv iota.
      destruct (String.eqb_spec (problem_type cfg) classification_problem) as [Hpt|Hpt];
        simpl andb; cbv iota.
      - destruct (lookup "classification_head.weight" params) as [h|] eqn:Eh;
          [|exfalso; exact (Hhead Hpt eq_refl)].
        rewrite (Hall "classification_head.pth").
        eexists. split; [reflexivity|].
        rewrite lookup_insert_other.
        + apply lookup_insert_same.
        + intros E. apply app_inj_l in E. discriminate.
      - exists fs1. split; [reflexivity|]. apply lookup_insert_same. }
    destruct Hsave as [fs' [Hsave Hl]].
    exists ckpt, fs', (map (load_param params) fresh).
    split; [exact Hj|]. split; [exact Hsave|]. split.
    + apply load_checkpoint_matching; assumption.
    + apply load_param_matching; [apply (matching_nodup fresh params Hnd Hal)|exact Hal].
Qed.

Local Abbreviation live_ab :=
  [("a", Tensor float32 [2] 0%Z); ("b", Tensor float32 [3] 0%Z)].
Local Abbreviation snap_ba :=
  [("b", Tensor float16 [3] 8%Z); ("a", Tensor float16 [2] 7%Z)].
Local Abbreviation head_params :=
  [("classification_head.weight", Tensor float16 [1; 2] 5%Z); ("a", Tensor float16 [2] 7%Z)].
Local Abbreviation fresh_head :=
  [("a", Tensor float32 [2] 0%Z); ("classification_head.weight", Tensor float32 [1; 2] 0%Z)].
Local Abbreviation cfg_cls := (Config "float32" 0 false classification_problem "w").

Lemma load_model_weights_exact_match_witness :
  (exists st,
     load_model_weights "Net" live_ab snap_ba true cfg_fp32 = Ok st []
     /\ keys st = keys live_ab
     /\ (forall k t, In (k, t) st ->
           exists p v, In (k, p) live_ab /\ In (k, v) snap_ba /\ t = copy_into p v))
  /\ (exists ckpt fs' st,
        path_join (Some "out") "checkpoint.pth" = inr ckpt
        /\ save_checkpoint (DistributedDataParallel (Net "Net" head_params)) (Some "out")
             cfg_cls [] = Ok fs' []
        /\ load_checkpoint cfg_cls "Net" fresh_head true (Some ckpt) fs'
           = Ok st [Info ("Weights loaded from: " ++ ckpt)]
        /\ keys st = keys fresh_head
        /\ (forall k t, In (k, t) st ->
              exists q v, In (k, q) fresh_head /\ In (k, v) head_params
                          /\ t = copy_into q v)).
Proof.
  split.
  - apply (proj1 load_model_weights_exact_match "Net" live_ab snap_ba cfg_fp32).
    + repeat constructor; simpl; intuition discriminate.
    + simpl. apply perm_swap.
    + intros k v [H|[H|[]]]; injection H; intros <- <-;
        unfold untouched_entry; repeat split; right; split; reflexivity.
  - apply (proj2 load_model_weights_exact_match
             (DistributedDataParallel (Net "Net" head_params)) "Net" head_params fresh_head
             "out" cfg_cls []).
    + reflexivity.
    + reflexivity.
    + reflexivity.
    + intros _. vm_compute. discriminate.
    + repeat constructor; simpl; intuition discriminate.
    + simpl. apply perm_swap.
    + intros k v [H|[H|[]]]; injection H; intros <- <-;
        unfold untouched_entry; repeat split; right; split; reflexivity.
Defined.

End CheckpointMoreFacts.

(* ------------------------------------------------------------------ *)
(** ** LoRA target modules ([prepare_lora]) *)

Module LoraFacts.
Import Py Lora.

Lemma auto_fold_spec (mods : list (string * module_kind)) (acc : list string) :
  NoDup acc ->
  let res := fold_left
    (fun target_modules '(name, module) =>
       if is_linear_or_conv module && negb (str_contains "head" name) then
         let name := last_segment name in
         if existsb (String.eqb name) target_modules then target_modules
         else app target_modules [name]
       else target_modules) mods acc in
  NoDup res
  /\ forall s, In s res <->
       In s acc
       \/ exists name kind, In (name, kind) mods /\ is_linear_or_conv kind = true
                          /\ str_contains "head" name = false /\ last_segment name = s.
Proof.
  revert acc; induction mods as [|[name kind] mods IH]; intros acc Hnd; simpl.
  - split; [exact Hnd|]. intros s. split; [auto|]. intros [H|[? [? [[] _]]]]. exact H.
  - destruct (is_linear_or_conv kind && negb (str_contains "head" name)) eqn:Hsel.
    + apply andb_true_iff in Hsel as [Hk Hh]. apply negb_true_iff in Hh.
      destruct (existsb (String.eqb (last_segment name)) acc) eqn:Hex.
      * destruct (IH acc Hnd) as [Hnd' Hin]. split; [exact Hnd'|]. intros s.
        rewrite Hin. split.
        -- intros [H|(n & k & H1 & H2 & H3 & H4)]; [auto|right; exists n, k; auto].
        -- intros [H|(n & k & [E|H1] & H2 & H3 & H4)]; [auto| |right; exists n, k; auto].
           injection E; intros -> ->. left. subst s.
           apply existsb_exists in Hex as [x [Hx Hx']]. apply String.eqb_eq in Hx'.
           subst x. exact Hx.
      * assert (Hnd2 : NoDup (app acc [last_segment name])).
        { apply NoDup_app; [exact Hnd|repeat constructor; auto|].
          intros x Hx [<-|[]]. assert (existsb (String.eqb (last_segment name)) acc = true)
            by (apply existsb_exists; exists (last_segment name); split;
                [exact Hx|apply String.eqb_refl]). congruence. }
        destruct (IH _ Hnd2) as [Hnd' Hin]. split; [exact Hnd'|]. intros s.
        rewrite Hin. rewrite in_app_iff. simpl. split.
        -- intros [[H|[H|[]]]|(n & k & H1 & H2 & H3 & H4)].
           ++ auto.
           ++ right. exists name, kind. auto.
           ++ right. exists n, k. auto.
        -- intros [H|(n & k & [E|H1] & H2 & H3 & H4)].
           ++ auto.
           ++ injection E; intros -> ->. auto.
           ++ right. exists n, k. auto.
    + destruct (IH acc Hnd) as [Hnd' Hin]. split; [exact Hnd'|]. intros s.
      rewrite Hin. split.
      * intros [H|(n & k & H1 & H2 & H3 & H4)]; [auto|right; exists n, k; auto].
      * intros [H|(n & k & [E|H1] & H2 & H3 & H4)]; [auto| |right; exists n, k; auto].
        injection E; intros -> ->. rewrite H2, H3 in Hsel. discriminate.
Qed.

(** Without an explicit setting, the LoRA target modules are the last name
    segments of the [Linear] / [Conv1d] modules whose full name does not
    contain ["head"], each listed once. *)
Theorem auto_target_modules_spec (mods : list (string * module_kind)) :
  NoDup (auto_target_modules mods)
  /\ forall s, In s (auto_target_modules mods) <->
       exists name kind, In (name, kind) mods /\ is_linear_or_conv kind = true
                       /\ str_contains "head" name = false /\ last_segment name = s.
Proof.
  destruct (auto_fold_spec mods [] (NoDup_nil _)) as [Hnd Hin].
  split; [exact Hnd|]. intros s. unfold auto_target_modules. rewrite Hin.
  split; [intros [[]|H]; exact H|auto].
Qed.

Lemma str_contains_comma_cons (x : ascii) (s : string) :
  str_contains "," (String x s) = Ascii.eqb x "," || str_contains "," s.
Proof.
  change (str_contains "," (String x s)) with (String.prefix "," (String x s) || str_contains "," s).
  f_equal. destruct (Ascii.eqb_spec x ",") as [->|Hne].
  - destruct s; reflexivity.
  - cbn [String.prefix]. destruct (Ascii.ascii_dec "," x); congruence.
Qed.

Lemma split_on_nonempty (sep : ascii) (s : string) : split_on sep s <> [].
Proof.
  destruct s as [|c s]; simpl; [discriminate|].
  destruct (Ascii.eqb c sep); [discriminate|]. destruct (split_on sep s); discriminate.
Qed.

Lemma split_on_length (sep : ascii) (s : string) :
  length (split_on sep s)
  = S (length (filter (fun x => Ascii.eqb x sep) (list_ascii_of_string s))).
Proof.
  induction s as [|c s IH]; [reflexivity|]. cbn [split_on list_ascii_of_string filter].
  destruct (Ascii.eqb c sep); cbn [length]; [rewrite IH; reflexivity|].
  destruct (split_on sep s) as [|p ps] eqn:Hs; [destruct (split_on_nonempty sep s Hs)|].
  exact IH.
Qed.

Lemma split_comma_parts (s t : string) :
  In t (split_on "," s) -> str_contains "," t = false.
Proof.
  revert t; induction s as [|c s IH]; intros t Ht; simpl in Ht.
  - destruct Ht as [<-|[]]. reflexivity.
  - destruct (Ascii.eqb c ",") eqn:Hc.
    + destruct Ht as [<-|Ht]; [reflexivity|]. apply IH. exact Ht.
    + destruct (split_on "," s) as [|p ps] eqn:Hs; [destruct (split_on_nonempty "," s Hs)|].
      destruct Ht as [<-|Ht].
      * rewrite str_contains_comma_cons, Hc. apply IH. left; reflexivity.
      * apply IH. right; exact Ht.
Qed.

Lemma rstrip_cons (c : ascii) (s : string) :
  rstrip (String c s)
  = match rstrip s with
    | EmptyString => if is_space c then EmptyString else String c EmptyString
    | r => String c r
    end.
Proof. reflexivity. Qed.

Lemma lstrip_comma (s : string) :
  str_contains "," s = false -> str_contains "," (lstrip s) = false.
Proof.
  induction s as [|c s IH]; [auto|]. intros H. simpl lstrip.
  rewrite str_contains_comma_cons in H. apply orb_false_iff in H as [Hc H].
  destruct (is_space c); [apply IH; exact H|].
  rewrite str_contains_comma_cons, Hc, H. reflexivity.
Qed.

Lemma rstrip_comma (s : string) :
  str_contains "," s = false -> str_contains "," (rstrip s) = false.
Proof.
  induction s as [|c s IH]; [auto|]. intros H. rewrite rstrip_cons.
  rewrite str_contains_comma_cons in H. apply orb_false_iff in H as [Hc H].
  destruct (rstrip s) as [|a r] eqn:E.
  - destruct (is_space c); [reflexivity|]. rewrite str_contains_comma_cons, Hc. reflexivity.
  - rewrite str_contains_comma_cons, Hc. cbn [orb]. apply IH. exact H.
Qed.

Lemma lstrip_idem (s : string) : lstrip (lstrip s) = lstrip s.
Proof.
  induction s as [|c s IH]; [reflexivity|]. simpl lstrip.
  destruct (is_space c) eqn:Hc; [exact IH|]. simpl. rewrite Hc. reflexivity.
Qed.

Lemma rstrip_idem (s : string) : rstrip (rstrip s) = rstrip s.
Proof.
  induction s as [|c s IH]; [reflexivity|]. rewrite rstrip_cons.
  destruct (rstrip s) as [|a r] eqn:E.
  - destruct (is_space c) eqn:Hc; [reflexivity|]. rewrite rstrip_cons. simpl. rewrite Hc.
    reflexivity.
  - rewrite rstrip_cons, IH. reflexivity.
Qed.

Lemma lstrip_head (s : string) :
  match lstrip s with String c _ => is_space c = false | EmptyString => True end.
Proof.
  induction s as [|c s IH]; [exact I|]. simpl lstrip.
  destruct (is_space c) eqn:Hc; [exact IH|exact Hc].
Qed.

Lemma lstrip_rstrip (s : string) :
  match s with String c _ => is_space c = false | EmptyString => True end ->
  lstrip (rstrip s) = rstrip s.
Proof.
  destruct s as [|c s]; [reflexivity|]. intros Hc. rewrite rstrip_cons.
  destruct (rstrip s); [rewrite Hc|]; simpl; rewrite Hc; reflexivity.
Qed.

Lemma strip_idem (s : string) : strip (strip s) = strip s.
Proof.
  unfold strip. rewrite (lstrip_rstrip (lstrip s) (lstrip_head s)). apply rstrip_idem.
Qed.

(** An explicit [lora_target_modules] setting gives one module name per
    comma of the stripped setting plus one; each name is stripped and holds
    no comma. *)
Theorem explicit_target_modules_spec (s : string) :
  length (explicit_target_modules s)
  = S (length (filter (fun x => Ascii.eqb x ",") (list_ascii_of_string (strip s))))
  /\ forall t, In t (explicit_target_modules s) ->
       strip t = t /\ str_contains "," t = false.
Proof.
  unfold explicit_target_modules. split.
  - rewrite length_map. apply split_on_length.
  - intros t Ht. apply in_map_iff in Ht as [u [<- Hu]]. split; [apply strip_idem|].
    unfold strip. apply rstrip_comma, lstrip_comma. exact (split_comma_parts _ _ Hu).
Qed.

(** A setting made only of whitespace is truthy, so the module scan is
    skipped and the single target name is the empty string. *)
Theorem whitespace_setting_empty_target (s : string)
    (mods : list (string * module_kind)) :
  s <> "" -> strip s = "" -> lora_target_modules_of (Some s) mods = [""].
Proof.
  intros Hne Hs. unfold lora_target_modules_of, truthy_str.
  apply String.eqb_neq in Hne. rewrite Hne. simpl.
  unfold explicit_target_modules. rewrite Hs. reflexivity.
Qed.

Lemma whitespace_setting_empty_target_witness :
  lora_target_modules_of (Some " , ") [("model.q_proj", Linear)] = [""; ""]
  /\ lora_target_modules_of (Some "  ") [("model.q_proj", Linear)] = [""].
Proof.
  split; [reflexivity|].
  apply whitespace_setting_empty_target; [discriminate|reflexivity].
Defined.

End LoraFacts.

(* ------------------------------------------------------------------ *)
(** ** Inference loop ([run_inference]) *)

Module InferenceFacts.
Import Py Inference DictFacts.

Lemma div_step (s m : nat) :
  0 < s ->
  s * (m / s) + (if Nat.eqb ((m + 1) mod s) 0 then s else 0) = s * ((m + 1) / s).
Proof.
  intros Hs.
  pose proof (Nat.div_mod_eq m s) as Hm. pose proof (Nat.mod_upper_bound m s ltac:(lia)) as Hr.
  set (q := m / s) in *. set (r := m mod s) in *.
  destruct (Nat.eq_dec (r + 1) s) as [E|E].
  - assert (Hq : (m + 1) / s = q + 1) by (symmetry; apply (Nat.div_unique _ _ _ 0); lia).
    assert (Hmod : (m + 1) mod s = 0) by (symmetry; apply (Nat.mod_unique _ _ (q + 1)); lia).
    rewrite Hmod, Hq. simpl. lia.
  - assert (Hq : (m + 1) / s = q) by (symmetry; apply (Nat.div_unique _ _ _ (r + 1)); lia).
    assert (Hmod : (m + 1) mod s = r + 1) by (symmetry; apply (Nat.mod_unique _ _ q); lia).
    rewrite Hmod, Hq. destruct (Nat.eqb_spec (r + 1) 0); [lia|]. lia.
Qed.

Lemma sum_multiples (s m : nat) :
  0 < s ->
  list_sum (map (fun i => if Nat.eqb ((i + 1) mod s) 0 then s else 0) (seq 0 m))
  = s * (m / s).
Proof.
  intros Hs. induction m as [|m IH].
  - simpl. rewrite Nat.Div0.div_0_l. lia.
  - rewrite seq_S, map_app, list_sum_app, IH. simpl.
    replace (S m) with (m + 1) by lia. rewrite <- (div_step s m Hs). lia.
Qed.

(** The progress-bar updates of [run_inference] add up to the number of
    batches. *)
Lemma progress_updates_total (n : nat) :
  list_sum (map (progress_update n) (seq 0 n)) = n.
Proof.
  destruct n as [|n]; [reflexivity|].
  set (s := Nat.max (S n / 20) 1).
  assert (Hs : 0 < s) by (unfold s; lia).
  rewrite seq_S, map_app, list_sum_app.
  rewrite (map_ext_in (progress_update (S n))
             (fun i => if Nat.eqb ((i + 1) mod s) 0 then s else 0)).
  2:{ intros i Hi. apply in_seq in Hi. unfold progress_update. fold s.
      destruct (Nat.eqb ((i + 1) mod s) 0); [reflexivity|].
      destruct (Nat.eqb_spec i (S n - 1)); [lia|reflexivity]. }
  rewrite sum_multiples by exact Hs. simpl list_sum.
  unfold progress_update. fold s.
  replace (n + 1) with (S n) by lia.
  replace (0 + n) with n by lia.
  pose proof (div_step s n Hs) as Hst. rewrite Nat.add_1_r in Hst.
  pose proof (Nat.div_mod_eq (S n) s) as Hm.
  destruct (Nat.eqb_spec (S n mod s) 0) as [E|E].
  - lia.
  - rewrite Nat.sub_1_r, Nat.pred_succ, Nat.eqb_refl in *. lia.
Qed.

Section Run.

Variable D R : Type.
Variable batch_to_device : D -> D.
Variable model_generate : bool -> D -> tensor.
Variable model_forward : bool -> D -> output.
Variable postprocess_batch_predictions : output -> output.
Variable val_batch_size : nat.
Variable cat_batches : list (string * list value) -> R.

Abbreviation step := (inference_step D batch_to_device model_generate model_forward
                    postprocess_batch_predictions val_batch_size).
Abbreviation loop := (inference_loop D batch_to_device model_generate model_forward
                    postprocess_batch_predictions val_batch_size).
Abbreviation run := (run_inference D R batch_to_device model_generate model_forward
                   postprocess_batch_predictions val_batch_size cat_batches).
Abbreviation cleaned := (cleaned_output D batch_to_device model_generate model_forward
                       postprocess_batch_predictions).
Abbreviation model_out := (model_output D model_generate model_forward).

Lemma loop_counters (cfg : inference_cfg) (n itr : nat) (bs : list (option D))
    (st st' : inference_state) :
  loop cfg n itr bs st = inr st' ->
  curr_val_step st' = curr_val_step st + length bs * (val_batch_size * world_size cfg)
  /\ progress st' = progress st
                    + (if Nat.eqb (local_rank cfg) 0
                       then list_sum (map (progress_update n) (seq itr (length bs)))
                       else 0).
Proof.
  revert itr st; induction bs as [|b bs IH]; intros itr st H; simpl in H.
  - injection H; intros <-. destruct (Nat.eqb (local_rank cfg) 0); simpl; lia.
  - destruct (step cfg n itr b st) as [e|st1] eqn:Hs; [discriminate|].
    destruct (IH _ _ H) as [H1 H2].
    unfold inference_step in Hs. destruct b as [data|]; [|discriminate].
    destruct (contains_nan _ && mixed_precision cfg); [discriminate|].
    destruct (Nat.eqb (local_rank cfg) 0);
      injection Hs; intros <-; simpl in *; split; lia.
Qed.

(** After a run that returns, [_curr_val_step] has grown by the batch size
    times the world size for every batch, and on rank 0 the progress bar has
    advanced by exactly the number of batches. *)
Theorem run_inference_counters (cfg : inference_cfg) (batches : list (option D))
    (mode : string) (step0 : nat) (res : R) (st : inference_state) :
  run cfg batches mode step0 = inr (res, st) ->
  curr_val_step st = step0 + length batches * (val_batch_size * world_size cfg)
  /\ progress st = (if Nat.eqb (local_rank cfg) 0 then length batches else 0).
Proof.
  unfold run_inference.
  destruct (loop cfg (length batches) 0 batches (initial_state cfg mode step0))
    as [e|st1] eqn:Hl; [discriminate|].
  intros H; injection H; intros <- _.
  destruct (loop_counters _ _ _ _ _ _ Hl) as [H1 H2].
  rewrite H1, H2. simpl. rewrite progress_updates_total. split; [reflexivity|].
  destruct (Nat.eqb (local_rank cfg) 0); reflexivity.
Qed.

Lemma loop_app (cfg : inference_cfg) (n itr : nat) (pre post : list (option D))
    (st : inference_state) :
  loop cfg n itr (pre ++ post) st
  = match loop cfg n itr pre st with
    | inl e => inl e
    | inr st' => loop cfg n (itr + length pre) post st'
    end.
Proof.
  revert itr st; induction pre as [|b pre IH]; intros itr st; simpl.
  - rewrite Nat.add_0_r. reflexivity.
  - destruct (step cfg n itr b st); [reflexivity|].
    rewrite IH. replace (S itr + length pre) with (itr + S (length pre)) by lia.
    reflexivity.
Qed.

(** Without mixed precision, a batch that cannot be read stops the run with
    [LLMDataException]; the step counter then counts the batches read
    before it. *)
Theorem run_inference_data_error (cfg : inference_cfg) (pre post : list (option D))
    (mode : string) (step0 : nat) :
  mixed_precision cfg = false ->
  (forall b, In b pre -> b <> None) ->
  exists st, run cfg (pre ++ None :: post) mode step0 = inl (LLMDataException data_error, st)
             /\ curr_val_step st = step0 + length pre * (val_batch_size * world_size cfg).
Proof.
  intros Hmp Hpre. unfold run_inference. rewrite loop_app.
  assert (G : forall n itr st, exists st', loop cfg n itr pre st = inr st').
  { clear -Hmp Hpre. revert Hpre.
    induction pre as [|b pre IH]; intros Hpre n itr st; [exists st; reflexivity|].
    destruct b as [data|]; [|destruct (Hpre None (or_introl eq_refl) eq_refl)].
    assert (Hpre' : forall b, In b pre -> b <> None)
      by (intros b' Hb'; apply Hpre; right; exact Hb').
    change (loop cfg n itr (Some data :: pre) st)
      with (match step cfg n itr (Some data) st with
            | inl e => inl e
            | inr st' => loop cfg n (S itr) pre st'
            end).
    unfold inference_step. rewrite Hmp, andb_false_r.
    destruct (Nat.eqb (local_rank cfg) 0); exact (IH Hpre' n (S itr) _). }
  destruct (G (length (pre ++ None :: post)) 0 (initial_state cfg mode step0)) as [st' Hst'].
  rewrite Hst'. simpl. eexists. split; [reflexivity|].
  destruct (loop_counters _ _ _ _ _ _ Hst') as [H1 _]. rewrite H1. reflexivity.
Qed.

Lemma loop_exn_if_bad (cfg : inference_cfg) (n itr : nat) (bs : list (option D))
    (st : inference_state) (d : D) :
  mixed_precision cfg = true -> In (Some d) bs ->
  contains_nan (model_out cfg (batch_to_device d)) = true ->
  exists e st', loop cfg n itr bs st = inl (e, st').
Proof.
  intros Hmp Hin Hnan. revert itr st; induction bs as [|b bs IH]; intros itr st;
    [destruct Hin|].
  destruct Hin as [->|Hin].
  - change (loop cfg n itr (Some d :: bs) st)
      with (match step cfg n itr (Some d) st with
            | inl e => inl e
            | inr st' => loop cfg n (S itr) bs st'
            end).
    unfold inference_step. rewrite Hnan, Hmp. simpl. eauto.
  - simpl. destruct (step cfg n itr b st) as [[e st1]|st1]; [eauto|]. apply IH. exact Hin.
Qed.

(** Under mixed precision, a batch whose model output holds a NaN tensor
    means the run never returns its outputs: it raises (the NaN error, or an
    earlier one). *)
Theorem run_inference_nan_raises (cfg : inference_cfg) (batches : list (option D))
    (mode : string) (step0 : nat) (d : D) :
  mixed_precision cfg = true -> In (Some d) batches ->
  contains_nan (model_out cfg (batch_to_device d)) = true ->
  exists e st, run cfg batches mode step0 = inl (e, st).
Proof.
  intros Hmp Hin Hnan. unfold run_inference.
  destruct (loop_exn_if_bad cfg (length batches) 0 batches (initial_state cfg mode step0) d
              Hmp Hin Hnan) as [e [st' H]].
  rewrite H. eauto.
Qed.

Lemma collect_spec (acc : list (string * list value)) (L : string -> list value)
    (k : string) (v : value) :
  (forall key, lookup key acc = match L key with [] => None | l => Some l end) ->
  forall key, lookup key (collect acc k v)
              = match L key ++ (if String.eqb k key then [v] else []) with
                | [] => None
                | l => Some l
                end.
Proof.
  intros Hinv key. unfold collect.
  destruct (String.eqb_spec k key) as [<-|Hne].
  - pose proof (Hinv k) as Hk.
    destruct (lookup k acc) as [l|] eqn:E.
    + rewrite CheckpointFacts.lookup_insert_same. destruct (L k) as [|x xs]; [discriminate|].
      injection Hk; intros ->. reflexivity.
    + rewrite CheckpointFacts.lookup_insert_same. destruct (L k) as [|x xs]; [reflexivity|discriminate].
  - rewrite app_nil_r.
    destruct (lookup k acc); rewrite lookup_insert_other by congruence; apply Hinv.
Qed.

Lemma collect_fold_spec (o : output) (acc : list (string * list value))
    (L : string -> list value) :
  (forall key, lookup key acc = match L key with [] => None | l => Some l end) ->
  forall key,
    lookup key (fold_left (fun acc '(key, val) => collect acc key val) o acc)
    = match L key ++ map snd (filter (fun '(k, _) => String.eqb k key) o) with
      | [] => None
      | l => Some l
      end.
Proof.
  revert acc L; induction o as [|[k v] o IH]; intros acc L Hinv key.
  - simpl. rewrite app_nil_r. apply Hinv.
  - simpl fold_left.
    rewrite (IH (collect acc k v) (fun key => L key ++ (if String.eqb k key then [v] else [])))
      by (apply collect_spec; exact Hinv).
    simpl filter. rewrite <- app_assoc.
    destruct (String.eqb k key); reflexivity.
Qed.

Lemma loop_outputs (cfg : inference_cfg) (n itr : nat) (ds : list D)
    (st st' : inference_state) (L : string -> list value) :
  loop cfg n itr (map Some ds) st = inr st' ->
  (forall key, lookup key (out st) = match L key with [] => None | l => Some l end) ->
  forall key, lookup key (out st')
              = match L key ++ values_of key (map (cleaned cfg) ds) with
                | [] => None
                | l => Some l
                end.
Proof.
  revert itr st L; induction ds as [|d ds IH]; intros itr st L Hl Hinv key.
  - simpl in Hl. injection Hl; intros <-. rewrite app_nil_r. apply Hinv.
  - change (loop cfg n itr (map Some (d :: ds)) st)
      with (match step cfg n itr (Some d) st with
            | inl e => inl e
            | inr st' => loop cfg n (S itr) (map Some ds) st'
            end) in Hl.
    unfold inference_step in Hl.
    destruct (contains_nan _ && mixed_precision cfg); [discriminate|].
    set (o := dict_pop "predicted_answer_ids"
                (postprocess_batch_predictions (model_out cfg (batch_to_device d)))) in Hl.
    assert (Hinv' : forall key,
              lookup key (fold_left (fun acc '(key, val) => collect acc key val) o (out st))
              = match L key ++ map snd (filter (fun '(k, _) => String.eqb k key) o) with
                | [] => None
                | l => Some l
                end) by (apply collect_fold_spec; exact Hinv).
    cbn [map values_of flat_map]. fold (values_of key (map (cleaned cfg) ds)).
    unfold cleaned_output at 1. fold o. rewrite app_assoc.
    destruct (Nat.eqb (local_rank cfg) 0);
      apply (IH _ _ (fun key => L key ++ map snd (filter (fun '(k, _) => String.eqb k key) o))
               Hl Hinv').
Qed.

Lemma run_outputs (cfg : inference_cfg) (ds : list D) (mode : string) (step0 : nat)
    (res : R) (st : inference_state) :
  run cfg (map Some ds) mode step0 = inr (res, st) ->
  res = cat_batches (out st)
  /\ forall key, lookup key (out st)
                 = match values_of key (map (cleaned cfg) ds) with [] => None | vs => Some vs end.
Proof.
  unfold run_inference.
  destruct (loop cfg (length (map Some ds)) 0 (map Some ds) (initial_state cfg mode step0))
    as [e|st1] eqn:Hl; [discriminate|].
  intros H; injection H; intros <- <-. split; [reflexivity|].
  intros key. apply (loop_outputs _ _ _ _ _ _ (fun _ => []) Hl). intros k. reflexivity.
Qed.

(** A run that returns hands [cat_batches] the dict [out] that maps each key
    to the values the cleaned outputs of the batches have for it, in batch
    order, and has no other key. *)
Theorem run_inference_collects (cfg : inference_cfg) (ds : list D) (mode : string)
    (step0 : nat) (res : R) (st : inference_state) :
  run cfg (map Some ds) mode step0 = inr (res, st) ->
  res = cat_batches (out st)
  /\ forall key, lookup key (out st)
                 = match values_of key (map (cleaned cfg) ds) with [] => None | vs => Some vs end.
Proof. apply run_outputs. Qed.

Lemma filter_pop_nodup (k : string) (o : output) :
  NoDup (map fst o) ->
  filter (fun '(k', _) => String.eqb k' k) (dict_pop k o) = [].
Proof.
  intros Hnd. pose proof (lookup_pop_same k o Hnd) as H.
  apply PyFacts.lookup_None in H.
  apply CheckpointFacts.filter_nil_all. intros [k' v] Hin.
  destruct (String.eqb_spec k' k) as [->|_]; [|reflexivity].
  exfalso. apply H. apply (in_map fst) in Hin. exact Hin.
Qed.

(** When [postprocess_batch_predictions] returns a dict (no repeated key) for
    every batch, the collected outputs never have the key
    [predicted_answer_ids]. *)
Theorem run_inference_drops_answer_ids (cfg : inference_cfg) (ds : list D)
    (mode : string) (step0 : nat) (res : R) (st : inference_state) :
  (forall d, In d ds ->
     NoDup (map fst (postprocess_batch_predictions (model_out cfg (batch_to_device d))))) ->
  run cfg (map Some ds) mode step0 = inr (res, st) ->
  lookup "predicted_answer_ids" (out st) = None.
Proof.
  intros Hnd H. destruct (run_outputs cfg ds mode step0 res st H) as [_ Hk].
  rewrite Hk. unfold values_of.
  rewrite CheckpointFacts.flat_map_nil_all; [reflexivity|].
  intros o Hin. apply in_map_iff in Hin as [d [<- Hd]].
  unfold cleaned_output. rewrite filter_pop_nodup by (apply Hnd; exact Hd). reflexivity.
Qed.

End Run.

Lemma run_inference_counters_witness :
  exists res st,
    run_inference nat (list (string * list value)) (fun d => d)
      (fun _ d => Tensor int8 [d] 0%Z) (fun _ _ => []) (fun o => o) 4 (fun o => o)
      {| local_rank := 0; world_size := 2; use_deepspeed := false;
         mixed_precision := false; metric := "BLEU";
         problem_type := "text_causal_language_modeling" |}
      [Some 1; Some 2] "validation" 10 = inr (res, st)
    /\ curr_val_step st = 26 /\ progress st = 2.
Proof.
  do 2 eexists. split; [reflexivity|].
  eapply (run_inference_counters nat (list (string * list value)) (fun d => d)
           (fun _ d => Tensor int8 [d] 0%Z) (fun _ _ => []) (fun o => o) 4 (fun o => o)
           {| local_rank := 0; world_size := 2; use_deepspeed := false;
              mixed_precision := false; metric := "BLEU";
              problem_type := "text_causal_language_modeling" |}
           [Some 1; Some 2] "validation" 10).
  reflexivity.
Defined.

Lemma run_inference_data_error_witness :
  exists st,
    run_inference nat (list (string * list value)) (fun d => d)
      (fun _ d => Tensor int8 [d] 0%Z) (fun _ _ => []) (fun o => o) 4 (fun o => o)
      {| local_rank := 0; world_size := 2; use_deepspeed := false;
         mixed_precision := false; metric := "BLEU";
         problem_type := "text_causal_language_modeling" |}
      ([Some 1] ++ None :: [Some 2]) "validation" 10
    = inl (LLMDataException data_error, st)
    /\ curr_val_step st = 10 + 1 * (4 * 2).
Proof.
  apply (run_inference_data_error nat (list (string * list value)) (fun d => d)
           (fun _ d => Tensor int8 [d] 0%Z) (fun _ _ => []) (fun o => o) 4 (fun o => o)
           {| local_rank := 0; world_size := 2; use_deepspeed := false;
              mixed_precision := false; metric := "BLEU";
              problem_type := "text_causal_language_modeling" |}
           [Some 1] [Some 2] "validation" 10).
  - reflexivity.
  - intros b [<-|[]]. discriminate.
Defined.

Lemma run_inference_nan_raises_witness :
  exists e st,
    run_inference nat (list (string * list value)) (fun d => d)
      (fun _ d => Tensor int8 [d] 0%Z)
      (fun _ d => [("loss", TensorVal (Tensor float16 [] 0%Z) (Nat.eqb d 2))])
      (fun o => o) 4 (fun o => o)
      {| local_rank := 0; world_size := 1; use_deepspeed := false;
         mixed_precision := true; metric := "Perplexity";
         problem_type := "text_causal_language_modeling" |}
      [Some 1; Some 2; Some 3] "validation" 0 = inl (e, st).
Proof.
  apply (run_inference_nan_raises nat (list (string * list value)) (fun d => d)
           (fun _ d => Tensor int8 [d] 0%Z)
           (fun _ d => [("loss", TensorVal (Tensor float16 [] 0%Z) (Nat.eqb d 2))])
           (fun o => o) 4 (fun o => o)
           {| local_rank := 0; world_size := 1; use_deepspeed := false;
              mixed_precision := true; metric := "Perplexity";
              problem_type := "text_causal_language_modeling" |}
           [Some 1; Some 2; Some 3] "validation" 0 2).
  - reflexivity.
  - simpl. auto.
  - reflexivity.
Defined.

Lemma run_inference_collects_witness :
  exists res st,
    run_inference nat (list (string * list value)) (fun d => d)
      (fun _ d => Tensor int8 [d] 0%Z) (fun _ _ => [])
      (fun o => app o [("predicted_text", OtherVal "x")]) 4 (fun o => o)
      {| local_rank := 0; world_size := 1; use_deepspeed := false;
         mixed_precision := false; metric := "BLEU";
         problem_type := "text_causal_language_modeling" |}
      (map Some [1; 2]) "validation" 0 = inr (res, st)
    /\ res = out st
    /\ lookup "predicted_text" (out st) = Some [OtherVal "x"; OtherVal "x"].
Proof.
  do 2 eexists. split; [reflexivity|].
  edestruct (run_inference_collects nat (list (string * list value)) (fun d => d)
           (fun _ d => Tensor int8 [d] 0%Z) (fun _ _ => [])
           (fun o => app o [("predicted_text", OtherVal "x")]) 4 (fun o => o)
           {| local_rank := 0; world_size := 1; use_deepspeed := false;
              mixed_precision := false; metric := "BLEU";
              problem_type := "text_causal_language_modeling" |}
           [1; 2] "validation" 0) as [H1 H2]; [reflexivity|].
  split; [exact H1|]. rewrite H2. reflexivity.
Defined.

Lemma run_inference_drops_answer_ids_witness :
  exists res st,
    run_inference nat (list (string * list value)) (fun d => d)
      (fun _ d => Tensor int8 [d] 0%Z) (fun _ _ => [])
      (fun o => app o [("predicted_text", OtherVal "x")]) 4 (fun o => o)
      {| local_rank := 0; world_size := 1; use_deepspeed := false;
         mixed_precision := false; metric := "BLEU";
         problem_type := "text_causal_language_modeling" |}
      (map Some [1; 2]) "validation" 0 = inr (res, st)
    /\ lookup "predicted_answer_ids" (out st) = None.
Proof.
  do 2 eexists. split; [reflexivity|].
  eapply (run_inference_drops_answer_ids nat (list (string * list value)) (fun d => d)
           (fun _ d => Tensor int8 [d] 0%Z) (fun _ _ => [])
           (fun o => app o [("predicted_text", OtherVal "x")]) 4 (fun o => o)
           {| local_rank := 0; world_size := 1; use_deepspeed := false;
              mixed_precision := false; metric := "BLEU";
              problem_type := "text_causal_language_modeling" |}
           [1; 2] "validation" 0).
  - intros d _. simpl. constructor; [simpl; intros [H|[]]; discriminate|].
    constructor; [intros []|constructor].
  - reflexivity.
Defined.

End InferenceFacts.

(* ------------------------------------------------------------------ *)
(** ** Distributed wrapping ([wrap_model_distributed], [get_ds_config]) *)

Module DistributedFacts.
Import Modules Distributed.

Section W.

Variable Opt Sched DL : Type.
Variable deepspeed_initialize :
  nn_module -> Opt -> Sched -> DL -> ds_config -> nn_module * Opt * DL * Sched.
Variable deepspeed_val_loader : DL -> nat -> nat -> DL.

Abbreviation wrap := (wrap_model_distributed Opt Sched DL deepspeed_initialize deepspeed_val_loader).

(** Without DeepSpeed the model is wrapped once in [DistributedDataParallel]:
    [unwrap_model] gives back what [unwrap_model] gave for the input model,
    which is the input model itself when that is not already a
    [DistributedDataParallel] or [DataParallel] wrapper; its state-dict keys get the prefix [module.], the wrapper runs on the local
    rank's device and looks for unused parameters only when
    [find_unused_parameters] is set and gradient checkpointing is not; the
    optimizer, the loaders and the scheduler are returned unchanged. *)
Theorem wrap_model_distributed_ddp (model : nn_module) (optimizer : Opt)
    (lr_scheduler : Sched) (train_dl val_dl : DL) (cfg : dist_cfg) :
  use_deepspeed cfg = false ->
  let '(m, opts, o, tdl, vdl, s) := wrap model optimizer lr_scheduler train_dl val_dl cfg in
  unwrap_model m = unwrap_model model
  /\ (is_parallel_wrapper model = false -> unwrap_model m = model)
  /\ module_state_dict m
     = map (fun '(k, t) => (("module." ++ k)%string, t)) (module_state_dict model)
  /\ opts = Some {| device_ids := [local_rank cfg];
                    ddp_find_unused_parameters :=
                      find_unused_parameters cfg && negb (truthy (gradient_checkpointing cfg)) |}
  /\ o = optimizer /\ tdl = train_dl /\ vdl = val_dl /\ s = lr_scheduler.
Proof.
  intros Hds. unfold wrap_model_distributed. rewrite Hds.
  cbn [unwrap_model module_state_dict].
  split; [reflexivity|]. split.
  { destruct model; cbn [is_parallel_wrapper unwrap_model]; intros H;
      first [discriminate H | reflexivity]. }
  repeat split.
  destruct (truthy (gradient_checkpointing cfg)), (find_unused_parameters cfg); reflexivity.
Qed.

End W.

(** The DeepSpeed config never turns on both fp16 and bf16, and turns one of
    them on exactly when the backbone dtype is [float16] or [bfloat16]. *)
Theorem get_ds_config_precision (cfg : dist_cfg) :
  fp16_enabled (get_ds_config cfg) && bf16_enabled (get_ds_config cfg) = false
  /\ (fp16_enabled (get_ds_config cfg) || bf16_enabled (get_ds_config cfg) = true
      <-> backbone_dtype cfg = "float16" \/ backbone_dtype cfg = "bfloat16").
Proof.
  unfold get_ds_config. cbn [fp16_enabled bf16_enabled].
  destruct (String.eqb_spec (backbone_dtype cfg) "float16") as [E|E];
  destruct (String.eqb_spec (backbone_dtype cfg) "bfloat16") as [E'|E'].
  - rewrite E in E'. discriminate.
  - split; [reflexivity|]. split; auto.
  - split; [reflexivity|]. split; auto.
  - split; [reflexivity|]. split; [discriminate|]. intros [H|H]; contradiction.
Qed.

Lemma wrap_model_distributed_ddp_witness :
  use_deepspeed (DistCfg false true (Some true) 1 2 "float32" 0 0 0 8 1) = false
  /\ let '(m, opts, o, tdl, vdl, s) :=
       wrap_model_distributed nat nat nat
         (fun m o s d _ => (DeepSpeedEngine m, o, d, s)) (fun d _ _ => d)
         (Net "gpt" []) 1 2 3 4 (DistCfg false true (Some true) 1 2 "float32" 0 0 0 8 1) in
     unwrap_model m = unwrap_model (Net "gpt" [])
     /\ (is_parallel_wrapper (Net "gpt" []) = false -> unwrap_model m = Net "gpt" [])
     /\ module_state_dict m
        = map (fun '(k, t) => (("module." ++ k)%string, t)) (module_state_dict (Net "gpt" []))
     /\ opts = Some {| device_ids := [local_rank (DistCfg false true (Some true) 1 2 "float32" 0 0 0 8 1)];
                       ddp_find_unused_parameters :=
                         find_unused_parameters (DistCfg false true (Some true) 1 2 "float32" 0 0 0 8 1)
                         && negb (truthy (gradient_checkpointing
                                           (DistCfg false true (Some true) 1 2 "float32" 0 0 0 8 1))) |}
     /\ o = 1 /\ tdl = 3 /\ vdl = 4 /\ s = 2.
Proof.
  split; [reflexivity|].
  exact (wrap_model_distributed_ddp nat nat nat
           (fun m o s d _ => (DeepSpeedEngine m, o, d, s)) (fun d _ _ => d)
           (Net "gpt" []) 1 2 3 4 (DistCfg false true (Some true) 1 2 "float32" 0 0 0 8 1)
           eq_refl).
Defined.

End DistributedFacts.

(* ------------------------------------------------------------------ *)
(** ** Generation ([generate]) *)

Module GenerateFacts.
Import Stopping Generate.

Section G.

Variable generation_function : (matrix -> bool * list string) -> matrix -> option matrix.

Abbreviation gen := (generate generation_function).

(** When the generation call returns, [generate] leaves [use_cache] on,
    restores the verbosity of the logger, and, when gradient checkpointing
    is configured, leaves it on (also when it was off on entry); otherwise
    gradient checkpointing is as it was. The output loses its first
    [ncols input_ids] columns exactly when [remove_prompt] is set. *)
Theorem generate_success_restores (st : gen_state) (stop_words_ids : list stop_word)
    (gradient_checkpointing : bool) (input_ids output : matrix) (remove_prompt : bool) :
  generation_function (call stop_words_ids (ncols input_ids)) input_ids = Some output ->
  gen st stop_words_ids gradient_checkpointing input_ids remove_prompt
  = (Some (if remove_prompt then slice_cols output (ncols input_ids) else output),
     {| use_cache := true;
        gradient_checkpointing_on :=
          if gradient_checkpointing then true else gradient_checkpointing_on st;
        verbosity := verbosity st |}).
Proof.
  intros Hg. unfold generate. rewrite Hg.
  destruct st as [uc gc v]. unfold set_use_cache, set_checkpointing, set_verbosity.
  cbn [use_cache gradient_checkpointing_on verbosity].
  destruct gradient_checkpointing; reflexivity.
Qed.

(** When the generation call raises, the exception leaves [generate] with
    the [transformers] logger at level [ERROR], [use_cache] on and, when it
    was configured, gradient checkpointing off. *)
Theorem generate_failure_state (st : gen_state) (stop_words_ids : list stop_word)
    (gradient_checkpointing : bool) (input_ids : matrix) (remove_prompt : bool) :
  generation_function (call stop_words_ids (ncols input_ids)) input_ids = None ->
  let '(r, st') := gen st stop_words_ids gradient_checkpointing input_ids remove_prompt in
  r = None /\ verbosity st' = ERROR /\ use_cache st' = true
  /\ gradient_checkpointing_on st'
     = (if gradient_checkpointing then false else gradient_checkpointing_on st).
Proof.
  intros Hg. unfold generate. rewrite Hg.
  destruct gradient_checkpointing; repeat split.
Qed.

End G.

Lemma generate_success_restores_witness :
  (fun (_ : matrix -> bool * list string) (m : matrix) => Some m)
    (call [Scalar 7%Z] (ncols (Matrix 2 [[1; 2]; [3; 4]]%Z))) (Matrix 2 [[1; 2]; [3; 4]]%Z)
  = Some (Matrix 2 [[1; 2]; [3; 4]]%Z)
  /\ generate (fun _ m => Some m) (GenState false false 20) [Scalar 7%Z] true
       (Matrix 2 [[1; 2]; [3; 4]]%Z) true
     = (Some (slice_cols (Matrix 2 [[1; 2]; [3; 4]]%Z) (ncols (Matrix 2 [[1; 2]; [3; 4]]%Z))),
        GenState true true 20).
Proof.
  split; [reflexivity|].
  exact (generate_success_restores (fun _ m => Some m) (GenState false false 20) [Scalar 7%Z]
           true (Matrix 2 [[1; 2]; [3; 4]]%Z) (Matrix 2 [[1; 2]; [3; 4]]%Z) true eq_refl).
Defined.

Lemma generate_failure_state_witness :
  let '(r, st') := generate (fun _ _ => None) (GenState false true 20) [Scalar 7%Z] true
                     (Matrix 2 [[1; 2]; [3; 4]]%Z) false in
  r = None /\ verbosity st' = ERROR /\ use_cache st' = true
  /\ gradient_checkpointing_on st' = false.
Proof.
  exact (generate_failure_state (fun _ _ => None) (GenState false true 20) [Scalar 7%Z] true
           (Matrix 2 [[1; 2]; [3; 4]]%Z) false eq_refl).
Defined.

End GenerateFacts.

(* ------------------------------------------------------------------ *)
(** ** Backbone creation ([create_nlp_backbone]) *)

Module BackboneFacts.
Import Py BackboneConfig Backbone.

Lemma update_backbone_config_lora (config : hf_config) (cfg : llm_cfg) (tok : tokenizer) :
  let '(c, l, _) := update_backbone_config config cfg tok in
  lora l = lora cfg
  /\ eos_token_id c = tok_eos_token_id tok
  /\ pad_token_id c = tok_pad_token_id tok
  /\ bos_token_id c = tok_bos_token_id tok.
Proof.
  unfold update_backbone_config.
  assert (Hl : let '(_, l, _) := update_dropout config cfg in lora l = lora cfg).
  { unfold update_dropout.
    destruct config as [h a eos pad bos dev tp].
    destruct h, a; simpl; try destruct (Qle_bool _ 0); reflexivity. }
  destruct (update_dropout config cfg) as [[c0 l] logs0].
  pose proof (BackboneConfigFacts.update_token_ids_spec c0 tok logs0) as Ht.
  destruct (update_token_ids c0 tok logs0) as [c1 logs1].
  pose proof (BackboneConfigFacts.update_device_tp_spec c1 l logs1) as Hd.
  destruct (update_device_tp c1 l logs1) as [c2 logs2].
  destruct Ht as [E [P [B _]]]. destruct Hd as [E' [P' [B' _]]].
  repeat split; congruence.
Qed.

Lemma sync_generation_config_spec (bb : backbone) (config : hf_config)
    (logs : list log_event) :
  let '(bb', logs') := sync_generation_config bb config logs in
  gen_eos_token_id (generation_cfg bb') = eos_token_id config
  /\ gen_pad_token_id (generation_cfg bb') = pad_token_id config
  /\ gen_bos_token_id (generation_cfg bb') = bos_token_id config
  /\ named_parameters bb' = named_parameters bb
  /\ is_loaded_in_8bit bb' = is_loaded_in_8bit bb
  /\ is_loaded_in_4bit bb' = is_loaded_in_4bit bb
  /\ gradient_checkpointing_enabled bb' = gradient_checkpointing_enabled bb
  /\ model_parallel bb' = model_parallel bb
  /\ exists extra, logs' = app logs extra.
Proof.
  unfold sync_generation_config.
  destruct (generation_cfg bb) as [e p b].
  cbn [gen_eos_token_id gen_pad_token_id gen_bos_token_id].
  destruct (token_id_eq_dec e (eos_token_id config)) as [He|He];
    cbn [gen_eos_token_id gen_pad_token_id gen_bos_token_id];
  destruct (token_id_eq_dec p (pad_token_id config)) as [Hp|Hp];
    cbn [gen_eos_token_id gen_pad_token_id gen_bos_token_id];
  destruct (token_id_eq_dec b (bos_token_id config)) as [Hb|Hb];
  cbn [gen_eos_token_id gen_pad_token_id gen_bos_token_id generation_cfg
       named_parameters is_loaded_in_8bit is_loaded_in_4bit
       gradient_checkpointing_enabled model_parallel set_generation_cfg];
  (repeat split; auto);
  first [ exists []; rewrite app_nil_r; reflexivity
        | eexists; rewrite <- ?app_assoc; reflexivity ].
Qed.

Section Create.

Variable torch_getattr : string -> option torch_attr.
Variable hf_token : option string.
Variable auto_config_with_token : option (hf_config * nat).
Variable auto_config_without_token : hf_config * nat.
Variable tok : tokenizer.
Variable from_pretrained : hf_config -> option quantization_config -> load_kwargs -> backbone.
Variable from_config : hf_config -> load_kwargs -> backbone.
Variable resize_token_embeddings : backbone -> nat -> backbone.

Abbreviation create := (create_nlp_backbone torch_getattr hf_token auto_config_with_token
                      auto_config_without_token tok from_pretrained from_config
                      resize_token_embeddings).

Lemma create_nlp_backbone_success (cfg : nlp_cfg) (bb : backbone) (config : hf_config)
    (cfg' : nlp_cfg) (logs : list log_event) :
  create cfg = inr (bb, config, cfg', logs) ->
  exists config0 l logs0 dm q pre td bb1 logs1 bb2 logs2,
    update_backbone_config config0 (llm cfg) tok = (config, l, logs0)
    /\ dtype_kwargs torch_getattr (set_llm cfg l) = inr (dm, q, pre, td)
    /\ adapt_backbone (set_model_parallel bb1 false) (set_pretrained (set_llm cfg l) pre) logs1
       = (bb2, cfg', logs2)
    /\ sync_generation_config
         (if gradient_checkpointing cfg' then gradient_checkpointing_enable bb2 else bb2)
         config logs2 = (bb, logs).
Proof.
  unfold create_nlp_backbone.
  destruct (match auto_config_with_token with
            | Some (c, v) => (c, v, Some hf_token)
            | None => (fst auto_config_without_token, snd auto_config_without_token, None)
            end) as [[config0 vocab_size] uat].
  destruct (update_backbone_config config0 (llm cfg) tok) as [[c l] logs0] eqn:Hu.
  destruct (dtype_kwargs torch_getattr (set_llm cfg l)) as [e|[[[dm q] pre] td]] eqn:Hd; [discriminate|].
  match goal with
  | |- context [if Nat.ltb vocab_size ?n then ?a else ?b] =>
      destruct (if Nat.ltb vocab_size n then a else b) as [bb1 logs1]
  end.
  match goal with
  | |- context [adapt_backbone ?x ?y ?z] => destruct (adapt_backbone x y z) as [[bb2 cfg2] logs2] eqn:Ha
  end.
  match goal with
  | |- context [sync_generation_config ?x ?y ?z] =>
      destruct (sync_generation_config x y z) as [bb3 logs3] eqn:Hs
  end.
  intros H. injection H; intros <- <- <- <-.
  exists config0, l, logs0, dm, q, pre, td, bb1, logs1, bb2, logs2.
  repeat split; assumption.
Qed.

(** After a successful [create_nlp_backbone], the EOS, PAD and BOS ids of
    the backbone's generation config are those of the returned config, which
    are the tokenizer's; [model_parallel] is off, and gradient checkpointing
    is enabled when [cfg] asks for it. *)
Theorem create_nlp_backbone_postconditions (cfg : nlp_cfg) (bb : backbone)
    (config : hf_config) (cfg' : nlp_cfg) (logs : list log_event) :
  create cfg = inr (bb, config, cfg', logs) ->
  gen_eos_token_id (generation_cfg bb) = eos_token_id config
  /\ gen_pad_token_id (generation_cfg bb) = pad_token_id config
  /\ gen_bos_token_id (generation_cfg bb) = bos_token_id config
  /\ eos_token_id config = tok_eos_token_id tok
  /\ pad_token_id config = tok_pad_token_id tok
  /\ bos_token_id config = tok_bos_token_id tok
  /\ model_parallel bb = false
  /\ (gradient_checkpointing cfg' = true -> gradient_checkpointing_enabled bb = true).
Proof.
  intros H.
  destruct (create_nlp_backbone_success cfg bb config cfg' logs H)
    as (config0 & l & logs0 & dm & q & pre & td & bb1 & logs1 & bb2 & logs2 & Hu & Hd & Ha & Hs).
  pose proof (update_backbone_config_lora config0 (llm cfg) tok) as Hc.
  rewrite Hu in Hc. destruct Hc as [_ [E [P B]]].
  pose proof (sync_generation_config_spec
                (if gradient_checkpointing cfg' then gradient_checkpointing_enable bb2 else bb2)
                config logs2) as Hg.
  rewrite Hs in Hg. destruct Hg as (Ge & Gp & Gb & _ & _ & _ & Gc & Gm & _).
  assert (Hm : model_parallel bb2 = false).
  { unfold adapt_backbone in Ha.
    destruct (lora (llm (set_pretrained (set_llm cfg l) pre))).
    - destruct (is_loaded_in_8bit _ || is_loaded_in_4bit _);
        injection Ha; intros _ _ <-; reflexivity.
    - destruct (negb _).
      + destruct (if mixed_precision _ then _ else _) as [c0 lg].
        injection Ha; intros _ _ <-; reflexivity.
      + injection Ha; intros _ _ <-; reflexivity. }
  repeat split; try assumption.
  - rewrite Gm. destruct (gradient_checkpointing cfg'); exact Hm.
  - intros Hck. rewrite Gc, Hck. reflexivity.
Qed.

(** With LoRA, every parameter of the returned backbone is frozen, and when
    the backbone is loaded in 8 or 4 bit none of its parameters is left in
    float16 or bfloat16. *)
Theorem create_nlp_backbone_lora_frozen (cfg : nlp_cfg) (bb : backbone)
    (config : hf_config) (cfg' : nlp_cfg) (logs : list log_event) :
  create cfg = inr (bb, config, cfg', logs) ->
  lora (llm cfg) = true ->
  (forall p, In p (named_parameters bb) -> param_requires_grad p = false)
  /\ (is_loaded_in_8bit bb || is_loaded_in_4bit bb = true ->
      forall p, In p (named_parameters bb) ->
      dtype (param_tensor p) <> float16 /\ dtype (param_tensor p) <> bfloat16).
Proof.
  intros H Hlora.
  destruct (create_nlp_backbone_success cfg bb config cfg' logs H)
    as (config0 & l & logs0 & dm & q & pre & td & bb1 & logs1 & bb2 & logs2 & Hu & Hd & Ha & Hs).
  pose proof (update_backbone_config_lora config0 (llm cfg) tok) as Hc.
  rewrite Hu in Hc. destruct Hc as [Hl _].
  pose proof (sync_generation_config_spec
                (if gradient_checkpointing cfg' then gradient_checkpointing_enable bb2 else bb2)
                config logs2) as Hg.
  rewrite Hs in Hg. destruct Hg as (_ & _ & _ & Gn & G8 & G4 & _).
  assert (Hn : named_parameters bb = named_parameters bb2
               /\ is_loaded_in_8bit bb = is_loaded_in_8bit bb2
               /\ is_loaded_in_4bit bb = is_loaded_in_4bit bb2).
  { rewrite Gn, G8, G4. destruct (gradient_checkpointing cfg'); repeat split. }
  destruct Hn as [Hn [H8 H4]]. rewrite Hn, H8, H4.
  unfold adapt_backbone in Ha.
  change (lora (llm (set_pretrained (set_llm cfg l) pre))) with (lora l) in Ha.
  rewrite Hl, Hlora in Ha.
  cbn [named_parameters is_loaded_in_8bit is_loaded_in_4bit set_params set_model_parallel] in Ha.
  destruct (is_loaded_in_8bit bb1 || is_loaded_in_4bit bb1) eqn:Hk;
    injection Ha; intros _ _ <-;
    cbn [named_parameters is_loaded_in_8bit is_loaded_in_4bit set_params].
  - split.
    + intros p Hp. rewrite map_map in Hp. apply in_map_iff in Hp as [p0 [<- _]].
      unfold cast_to_fp32, freeze. cbn [param_tensor param_requires_grad].
      destruct (dtype (param_tensor p0)); reflexivity.
    + intros _ p Hp. rewrite map_map in Hp. apply in_map_iff in Hp as [p0 [<- _]].
      unfold cast_to_fp32, freeze. cbn [param_tensor].
      destruct (dtype (param_tensor p0)) eqn:Ed; cbn [param_tensor dtype];
        rewrite ?Ed; split; discriminate.
  - split.
    + intros p Hp. apply in_map_iff in Hp as [p0 [<- _]]. reflexivity.
    + cbn [is_loaded_in_8bit is_loaded_in_4bit set_params set_model_parallel].
      rewrite Hk. discriminate.
Qed.

(** Without LoRA and with a backbone dtype other than float32, the returned
    [cfg] has mixed precision off; switching it off is logged, and unless the
    dtype is bfloat16 the unstable-training warning is logged. *)
Theorem create_nlp_backbone_low_precision (cfg : nlp_cfg) (bb : backbone)
    (config : hf_config) (cfg' : nlp_cfg) (logs : list log_event) :
  create cfg = inr (bb, config, cfg', logs) ->
  lora (llm cfg) = false -> backbone_dtype cfg <> "float32" ->
  mixed_precision cfg' = false
  /\ (mixed_precision cfg = true -> In (Info mixed_precision_info) logs)
  /\ (backbone_dtype cfg <> "bfloat16" -> In (Warning unstable_warning) logs).
Proof.
  intros H Hlora Hdt.
  destruct (create_nlp_backbone_success cfg bb config cfg' logs H)
    as (config0 & l & logs0 & dm & q & pre & td & bb1 & logs1 & bb2 & logs2 & Hu & Hd & Ha & Hs).
  pose proof (update_backbone_config_lora config0 (llm cfg) tok) as Hc.
  rewrite Hu in Hc. destruct Hc as [Hl _].
  pose proof (sync_generation_config_spec
                (if gradient_checkpointing cfg' then gradient_checkpointing_enable bb2 else bb2)
                config logs2) as Hg.
  rewrite Hs in Hg. destruct Hg as (_ & _ & _ & _ & _ & _ & _ & _ & extra & Hlogs).
  subst logs.
  unfold adapt_backbone in Ha.
  change (lora (llm (set_pretrained (set_llm cfg l) pre))) with (lora l) in Ha.
  change (backbone_dtype (set_pretrained (set_llm cfg l) pre)) with (backbone_dtype cfg) in Ha.
  change (mixed_precision (set_pretrained (set_llm cfg l) pre)) with (mixed_precision cfg) in Ha.
  rewrite Hl, Hlora in Ha.
  apply String.eqb_neq in Hdt. rewrite Hdt in Ha. cbn [negb] in Ha.
  destruct (mixed_precision cfg) eqn:Hmp;
    cbn [backbone_dtype mixed_precision set_mixed_precision set_pretrained set_llm] in Ha;
    destruct (String.eqb (backbone_dtype cfg) "bfloat16") eqn:Hbf;
    cbn [negb] in Ha; injection Ha; intros; subst; cbn [mixed_precision set_mixed_precision];
    (split; [first [reflexivity | exact Hmp]|]); split;
    try discriminate;
    try (intros Hne; apply String.eqb_neq in Hne; congruence);
    intros _; rewrite !in_app_iff; simpl; auto 8.
Qed.

(** A backbone dtype that is neither [int8], [int4] nor the name of an
    attribute of the [torch] module makes [create_nlp_backbone] raise [AttributeError] before any
    model is loaded. *)
Theorem create_nlp_backbone_bad_dtype (cfg : nlp_cfg) :
  backbone_dtype cfg <> "int8" -> backbone_dtype cfg <> "int4" ->
  torch_getattr (backbone_dtype cfg) = None ->
  exists logs, create cfg = inl (AttributeError (backbone_dtype cfg), logs).
Proof.
  intros H8 H4 Hg. unfold create_nlp_backbone.
  destruct (match auto_config_with_token with
            | Some (c, v) => (c, v, Some hf_token)
            | None => (fst auto_config_without_token, snd auto_config_without_token, None)
            end) as [[config0 vocab_size] uat].
  destruct (update_backbone_config config0 (llm cfg) tok) as [[c l] logs0].
  unfold dtype_kwargs.
  change (backbone_dtype (set_llm cfg l)) with (backbone_dtype cfg).
  apply String.eqb_neq in H8. apply String.eqb_neq in H4.
  rewrite H8, H4, Hg. eexists. reflexivity.
Qed.

End Create.

Local Abbreviation ex_torch := (fun name : string =>
  if String.eqb name "float16" then Some (DtypeAttr float16)
  else if String.eqb name "bfloat16" then Some (DtypeAttr bfloat16)
  else if String.eqb name "float32" then Some (DtypeAttr float32)
  else if String.eqb name "int64" then Some (DtypeAttr (other_dtype "torch.int64"))
  else if String.eqb name "nn" then Some (OtherAttr "torch.nn")
  else None).
Local Abbreviation ex_config := (HfConfig None None (IntId 2) (IntId 0) (IntId 1) None (Some 2)).
Local Abbreviation ex_tok := (Tokenizer (IntId 2) (IntId 3) (IntId 1)).
Local Abbreviation ex_load :=
  (fun (q : option quantization_config) =>
     {| named_parameters := [Param "w" (Tensor float16 [2] 0%Z) true;
                             Param "b" (Tensor int8 [2] 0%Z) true];
        generation_cfg := GenerationConfig NoneId (IntId 0) NoneId;
        is_loaded_in_8bit := match q with Some LoadIn8bit => true | _ => false end;
        is_loaded_in_4bit := match q with Some LoadIn4bit => true | _ => false end;
        gradient_checkpointing_enabled := false; model_parallel := true |}).
Local Abbreviation ex_create :=
  (create_nlp_backbone ex_torch None (Some (ex_config, 100)) (ex_config, 100) ex_tok
     (fun _ q _ => ex_load q) (fun _ _ => ex_load None) (fun bb _ => bb)).
Local Abbreviation ex_cfg := (fun (lo : bool) (dt : string) =>
  {| llm := LlmCfg 0 "gpt-neox" "cuda:0" lo; backbone_dtype := dt; pretrained := false;
     mixed_precision := true; gradient_checkpointing := true;
     trust_remote_code := false; vocab_length := 50 |}).

Lemma create_nlp_backbone_postconditions_witness :
  exists bb config cfg' logs,
    ex_create (ex_cfg true "int8") = inr (bb, config, cfg', logs)
    /\ gen_eos_token_id (generation_cfg bb) = eos_token_id config
    /\ gen_pad_token_id (generation_cfg bb) = pad_token_id config
    /\ gen_bos_token_id (generation_cfg bb) = bos_token_id config
    /\ eos_token_id config = tok_eos_token_id ex_tok
    /\ pad_token_id config = tok_pad_token_id ex_tok
    /\ bos_token_id config = tok_bos_token_id ex_tok
    /\ model_parallel bb = false
    /\ (gradient_checkpointing cfg' = true -> gradient_checkpointing_enabled bb = true).
Proof.
  destruct (ex_create (ex_cfg true "int8")) as [e|[[[bb config] cfg'] logs]] eqn:E;
    [vm_compute in E; discriminate|].
  exists bb, config, cfg', logs. split; [reflexivity|].
  exact (create_nlp_backbone_postconditions ex_torch None (Some (ex_config, 100)) (ex_config, 100) ex_tok
           (fun _ q _ => ex_load q) (fun _ _ => ex_load None) (fun bb _ => bb)
           (ex_cfg true "int8") bb config cfg' logs E).
Defined.

Lemma create_nlp_backbone_lora_frozen_witness :
  exists bb config cfg' logs,
    ex_create (ex_cfg true "int8") = inr (bb, config, cfg', logs)
    /\ lora (llm (ex_cfg true "int8")) = true
    /\ (forall p, In p (named_parameters bb) -> param_requires_grad p = false)
    /\ (is_loaded_in_8bit bb || is_loaded_in_4bit bb = true ->
        forall p, In p (named_parameters bb) ->
        dtype (param_tensor p) <> float16 /\ dtype (param_tensor p) <> bfloat16).
Proof.
  destruct (ex_create (ex_cfg true "int8")) as [e|[[[bb config] cfg'] logs]] eqn:E;
    [vm_compute in E; discriminate|].
  exists bb, config, cfg', logs. split; [reflexivity|]. split; [reflexivity|].
  exact (create_nlp_backbone_lora_frozen ex_torch None (Some (ex_config, 100)) (ex_config, 100) ex_tok
           (fun _ q _ => ex_load q) (fun _ _ => ex_load None) (fun bb _ => bb)
           (ex_cfg true "int8") bb config cfg' logs E eq_refl).
Defined.

Lemma create_nlp_backbone_low_precision_witness :
  exists bb config cfg' logs,
    ex_create (ex_cfg false "float16") = inr (bb, config, cfg', logs)
    /\ mixed_precision cfg' = false
    /\ (mixed_precision (ex_cfg false "float16") = true -> In (Info mixed_precision_info) logs)
    /\ ("float16" <> "bfloat16" -> In (Warning unstable_warning) logs).
Proof.
  destruct (ex_create (ex_cfg false "float16")) as [e|[[[bb config] cfg'] logs]] eqn:E;
    [vm_compute in E; discriminate|].
  exists bb, config, cfg', logs. split; [reflexivity|].
  apply (create_nlp_backbone_low_precision ex_torch None (Some (ex_config, 100)) (ex_config, 100) ex_tok
           (fun _ q _ => ex_load q) (fun _ _ => ex_load None) (fun bb _ => bb)
           (ex_cfg false "float16") bb config cfg' logs E).
  - reflexivity.
  - discriminate.
Defined.

Lemma create_nlp_backbone_bad_dtype_witness :
  exists logs, ex_create (ex_cfg false "int2") = inl (AttributeError "int2", logs).
Proof.
  destruct (create_nlp_backbone_bad_dtype ex_torch None (Some (ex_config, 100)) (ex_config, 100) ex_tok
              (fun _ q _ => ex_load q) (fun _ _ => ex_load None) (fun bb _ => bb)
              (ex_cfg false "int2")) as [logs H].
  - discriminate.
  - discriminate.
  - reflexivity.
  - exists logs. exact H.
Defined.

End BackboneFacts.
